(** * AgentForce Reliable Tool: the stdin/stdout request handler of src/client.js

    A shallow embedding of [processStdinRequest], the five tool functions it
    dispatches to and [loadConfig], followed by the properties of the
    request/response protocol; then of the command [configure], and of the
    earlier revision of the client that the file holds as well.

    Conventions of the embedding.
    - A JavaScript value is a [value]; a Number is identified by the text
      [Number::toString] gives for it (the two zeros both read "0").
    - A JavaScript string is held as the UTF-8 encoding of its text.
    - Every effect is an [event] appended to a trace; [process.stdout.write]
      is the event [StdoutWrite], the response channel of the protocol, and
      console calls are the diagnostic events [ConsoleLog], which prints on
      standard output as well, and [ConsoleError], which prints on the error
      stream.  Whatever the code evaluates to build their arguments
      (property reads, template literals) is evaluated here too, faults
      included, and so is the joining of the arguments that the console
      methods installed by [setupLogging] perform.
    - What the process cannot decide (the file system, the clock, the UUID
      generator, [JSON.parse], the network and the backend) is a [World]. *)

From Stdlib Require Import String Ascii List ZArith Bool Arith DecimalString.
Import ListNotations.
Set Warnings "-register-all".
Open Scope string_scope.

(** ** JavaScript values *)

Inductive value : Type :=
| VUndefined
| VNull
| VBool (b : bool)
| VNum (shown : string)
| VStr (s : string)
| VArr (items : list value)
| VObj (props : list (string * value)).  (* own properties, in enumeration order *)

(** An [Error] object: what the code reads of it.  An error of axios carries
    the response it came with, if any (its status, a Number, and its body),
    and whether a request was sent at all. *)
Inductive axios_detail : Type :=
| NotAxios
| Axios (response : option (string * value)) (request : bool).

Record js_error : Type := mkError {
  message : string;
  stack : string;
  detail : axios_detail
}.

(** An error raised by the engine itself (the frames of its stack are left out). *)
Definition TypeError (msg : string) : js_error :=
  mkError msg ("TypeError: " ++ msg) NotAxios.

Definition dquote : ascii := "034"%char.
Definition escape : ascii := "027"%char.

(** [text.length]: UTF-16 code units of a string held in UTF-8. *)
Definition utf16_units (c : ascii) : nat :=
  let n := nat_of_ascii c in
  if Nat.ltb n 128 then 1 else if Nat.ltb n 192 then 0 else if Nat.ltb n 240 then 1 else 2.

Fixpoint utf16_length (s : string) : nat :=
  match s with
  | EmptyString => 0
  | String c rest => utf16_units c + utf16_length rest
  end.

Definition show_nat (n : nat) : string := NilEmpty.string_of_uint (Nat.to_uint n).

(** Truthiness: [!v] is [negb (truthy v)]. *)
Definition truthy (v : value) : bool :=
  match v with
  | VUndefined | VNull => false
  | VBool b => b
  | VNum shown => negb ((shown =? "0") || (shown =? "NaN"))
  | VStr s => negb (s =? "")
  | VArr _ | VObj _ => true
  end.

Definition nullish (v : value) : bool :=
  match v with
  | VUndefined | VNull => true
  | _ => false
  end.

Fixpoint lookup (key : string) (props : list (string * value)) : option value :=
  match props with
  | [] => None
  | (k, v) :: rest => if k =? key then Some v else lookup key rest
  end.

Definition digit (c : ascii) : option nat :=
  let n := nat_of_ascii c in
  if Nat.leb 48 n && Nat.leb n 57 then Some (n - 48) else None.

Fixpoint digits (s : string) (acc : nat) : option nat :=
  match s with
  | EmptyString => Some acc
  | String c rest =>
      match digit c with
      | Some d => digits rest (10 * acc + d)
      | None => None
      end
  end.

(** A property key that is an array index ("0", "1", ..., no leading zero). *)
Definition array_index (key : string) : option nat :=
  match key with
  | EmptyString => None
  | String "0" EmptyString => Some 0
  | String "0" _ => None
  | _ => digits key 0
  end.

(** The first character of a string, for [text[0]] (of a character outside
    the basic plane JavaScript gives the first half; either way what the
    program reads of it next, its [text], is undefined). *)
Definition continuation (c : ascii) : bool :=
  let n := nat_of_ascii c in Nat.leb 128 n && Nat.ltb n 192.

Fixpoint leading_continuations (s : string) : string :=
  match s with
  | String c rest => if continuation c then String c (leading_continuations rest) else EmptyString
  | EmptyString => EmptyString
  end.

Definition first_character (s : string) : value :=
  match s with
  | EmptyString => VUndefined
  | String c rest => VStr (String c (leading_continuations rest))
  end.

(** [v.key] for a [v] that is neither undefined nor null.  The keys this
    program reads (tool, name, args, clientId, config, agentId, message,
    length, serverUrl, apiKey, result, content, 0, text) are not inherited
    from a prototype, so an object answers with its own property and the
    primitives with [length] and indices only (of a string the program reads
    no index but 0). *)
Definition member (v : value) (key : string) : value :=
  match v with
  | VObj props =>
      match lookup key props with
      | Some x => x
      | None => VUndefined
      end
  | VArr items =>
      if key =? "length" then VNum (show_nat (List.length items))
      else match array_index key with
           | Some i => nth i items VUndefined
           | None => VUndefined
           end
  | VStr s =>
      if key =? "length" then VNum (show_nat (utf16_length s))
      else match array_index key with
           | Some 0 => first_character s
           | _ => VUndefined
           end
  | _ => VUndefined
  end.

Definition has_key (key : string) (props : list (string * value)) : bool :=
  match lookup key props with
  | Some _ => true
  | None => false
  end.

(** [ToString], as a template literal applies it.  A plain object reads
    "[object Object]" unless it carries a [toString] of its own, which in
    parsed JSON is never callable: then the conversion fails ([None]).  An
    array joins its elements with commas, null and undefined reading "". *)
Fixpoint ToString (v : value) : option string :=
  match v with
  | VUndefined => Some "undefined"
  | VNull => Some "null"
  | VBool b => Some (if b then "true" else "false")
  | VNum shown => Some shown
  | VStr s => Some s
  | VArr items =>
      (fix join (l : list value) : option string :=
         match l with
         | [] => Some ""
         | x :: rest =>
             let element :=
               match x with
               | VUndefined | VNull => Some ""
               | _ => ToString x
               end in
             match element, rest with
             | None, _ => None
             | Some s, [] => Some s
             | Some s, _ :: _ =>
                 match join rest with
                 | Some r => Some (s ++ "," ++ r)
                 | None => None
                 end
             end
         end) items
  | VObj props => if has_key "toString" props then None else Some "[object Object]"
  end.

(** ** JSON.stringify *)

Definition hex_digit (n : nat) : ascii :=
  ascii_of_nat (if Nat.ltb n 10 then 48 + n else 87 + n).

Definition quote_char (c : ascii) : string :=
  let n := nat_of_ascii c in
  if Nat.eqb n 34 then String "\" (String dquote "")
  else if Nat.eqb n 92 then "\\"
  else if Nat.eqb n 8 then "\b"
  else if Nat.eqb n 12 then "\f"
  else if Nat.eqb n 10 then "\n"
  else if Nat.eqb n 13 then "\r"
  else if Nat.eqb n 9 then "\t"
  else if Nat.ltb n 32 then "\u00" ++ String (hex_digit (n / 16)) (String (hex_digit (n mod 16)) "")
  else String c "".

Fixpoint quote_chars (s : string) : string :=
  match s with
  | EmptyString => ""
  | String c rest => quote_char c ++ quote_chars rest
  end.

Definition QuoteJSONString (s : string) : string :=
  String dquote (quote_chars s) ++ String dquote "".

Definition finite (shown : string) : bool :=
  negb ((shown =? "NaN") || (shown =? "Infinity") || (shown =? "-Infinity")).

(** [None] is the [undefined] that drops a property and reads null in an array. *)
Fixpoint SerializeJSONProperty (v : value) : option string :=
  match v with
  | VUndefined => None
  | VNull => Some "null"
  | VBool b => Some (if b then "true" else "false")
  | VNum shown => Some (if finite shown then shown else "null")
  | VStr s => Some (QuoteJSONString s)
  | VArr items =>
      Some ("[" ++ String.concat ","
              ((fix elements (l : list value) : list string :=
                  match l with
                  | [] => []
                  | x :: rest =>
                      match SerializeJSONProperty x with
                      | Some s => s
                      | None => "null"
                      end :: elements rest
                  end) items) ++ "]")
  | VObj props =>
      Some ("{" ++ String.concat ","
              ((fix members (l : list (string * value)) : list string :=
                  match l with
                  | [] => []
                  | (k, x) :: rest =>
                      match SerializeJSONProperty x with
                      | Some s => (QuoteJSONString k ++ ":" ++ s) :: members rest
                      | None => members rest
                      end
                  end) props) ++ "}")
  end.

(** [JSON.stringify] of an object literal, which is always a string. *)
Definition JSON_stringify (v : value) : string :=
  match SerializeJSONProperty v with
  | Some s => s
  | None => "undefined"
  end.

(** Test text is written with ['] for the double quote. *)
Fixpoint dq (s : string) : string :=
  match s with
  | EmptyString => EmptyString
  | String c rest => String (if Ascii.eqb c "'" then dquote else c) (dq rest)
  end.

(** ** String.prototype.trim *)

(** The white space and line terminators [trim] removes, in UTF-8: the ASCII
    ones, U+00A0, U+1680, U+2000 to U+200A, U+2028, U+2029, U+202F, U+205F,
    U+3000 and U+FEFF. *)
Definition ascii_space (c : ascii) : bool :=
  let n := nat_of_ascii c in
  (Nat.leb 9 n && Nat.leb n 13) || Nat.eqb n 32.

Definition wide_space (a b c : ascii) : bool :=
  let x := nat_of_ascii a in
  let y := nat_of_ascii b in
  let z := nat_of_ascii c in
  (Nat.eqb x 225 && Nat.eqb y 154 && Nat.eqb z 128)
  || (Nat.eqb x 226 && Nat.eqb y 128
      && ((Nat.leb 128 z && Nat.leb z 138) || Nat.eqb z 168 || Nat.eqb z 169 || Nat.eqb z 175))
  || (Nat.eqb x 226 && Nat.eqb y 129 && Nat.eqb z 159)
  || (Nat.eqb x 227 && Nat.eqb y 128 && Nat.eqb z 128)
  || (Nat.eqb x 239 && Nat.eqb y 187 && Nat.eqb z 191).

Definition nbsp (a b : ascii) : bool :=
  Nat.eqb (nat_of_ascii a) 194 && Nat.eqb (nat_of_ascii b) 160.

(** The text is exactly one white-space character. *)
Definition one_space (s : string) : bool :=
  match s with
  | String a EmptyString => ascii_space a
  | String a (String b EmptyString) => nbsp a b
  | String a (String b (String c EmptyString)) => wide_space a b c
  | _ => false
  end.

Fixpoint trimStart (s : string) : string :=
  match s with
  | EmptyString => EmptyString
  | String a rest =>
      if ascii_space a then trimStart rest
      else match rest with
           | String b rest2 =>
               if nbsp a b then trimStart rest2
               else match rest2 with
                    | String c rest3 => if wide_space a b c then trimStart rest3 else s
                    | EmptyString => s
                    end
           | EmptyString => s
           end
  end.

Fixpoint trimEnd (s : string) : string :=
  match s with
  | EmptyString => EmptyString
  | String a rest =>
      let kept := String a (trimEnd rest) in
      if one_space kept then EmptyString else kept
  end.

Definition trim (s : string) : string := trimEnd (trimStart s).

(** ** Effects *)

Record axios_config : Type := mkConfig {
  headers : list (string * value);
  timeout : Z
}.

Inductive event : Type :=
| ConsoleLog (args : list value)
| ConsoleError (args : list value)
| StdoutWrite (text : string)
| AxiosPost (url : string) (data : value) (config : axios_config).

(** How a computation ends: with a value, with a thrown error, or with the
    process gone ([process.exit] does not return). *)
Inductive outcome (A : Type) : Type :=
| Ret (a : A)
| Throw (e : js_error)
| Exit (code : Z).

Arguments Ret {A} a.
Arguments Throw {A} e.
Arguments Exit {A} code.

(** A computation: the events it emitted, in order, and how it ended. *)
Definition M (A : Type) : Type := (list event * outcome A)%type.

Definition ret {A : Type} (a : A) : M A := ([], Ret a).

Definition bind {A B : Type} (m : M A) (f : A -> M B) : M B :=
  match m with
  | (t, Ret a) => let (t', o) := f a in ((t ++ t')%list, o)
  | (t, Throw e) => (t, Throw e)
  | (t, Exit c) => (t, Exit c)
  end.

Definition emit (e : event) : M unit := ([e], Ret tt).
Definition throw {A : Type} (e : js_error) : M A := ([], Throw e).
Definition exit {A : Type} (code : Z) : M A := ([], Exit code).

(** [try { m } catch (error) { handler error }]. *)
Definition try_catch {A : Type} (m : M A) (handler : js_error -> M A) : M A :=
  match m with
  | (t, Throw e) => let (t', o) := handler e in ((t ++ t')%list, o)
  | other => other
  end.

Notation "x <- m ;; k" := (bind m (fun x => k))
  (at level 61, m at next level, right associativity).
Notation "m ;; k" := (bind m (fun _ => k))
  (at level 61, right associativity).

(** ** The world outside the process *)

Inductive axios_outcome : Type :=
| Resolved (data : value)
| Rejected (e : js_error).

Record World : Type := mkWorld {
  (** [JSON.parse]: the value, or the SyntaxError it throws. *)
  JSON_parse : string -> value + js_error;
  (** [path.join(homedir(), '.agentforce-reliable-client')]. *)
  CONFIG_DIR : string;
  config_dir_exists : bool;
  (** [fs.mkdirSync(CONFIG_DIR)]: the error it throws, if any. *)
  mkdir_config_dir : option js_error;
  config_file_exists : bool;
  (** [fs.readFileSync(CONFIG_PATH, 'utf8')]. *)
  read_config_file : string + js_error;
  (** [Date.now()] when the module was loaded, as text. *)
  startup_now : string;
  (** [uuidv4()] of the one call the process makes. *)
  uuidv4 : string;
  (** [endTime - startTime] around the outbound call, as text. *)
  responseTime : string;
  (** [axios.post(url, data, config)]: it resolves on a 2xx response with the
      response body, and rejects on anything else. *)
  axios_post : string -> value -> axios_config -> axios_outcome;
  (** The file of the log, [path.join(LOGS_DIR, `client-${...}.log`)]. *)
  LOG_PATH : string;
  logs_dir_exists : bool;
  (** [fs.mkdirSync(LOGS_DIR)]: the error it throws, if any. *)
  mkdir_logs_dir : option js_error
}.

(** Whether [setupLogging], which [main] runs first, has replaced the console
    methods by the ones that also write to the log file: it does unless
    creating the directory of the log throws. *)
Definition log_mirror (w : World) : bool :=
  logs_dir_exists w
  || match mkdir_logs_dir w with
     | None => true
     | Some _ => false
     end.

(** [args.join(' ')]: undefined and null read "", any other argument is
    converted with [ToString]. *)
Fixpoint join (separator : string) (l : list value) : option string :=
  match l with
  | [] => Some ""
  | x :: rest =>
      let element :=
        match x with
        | VUndefined | VNull => Some ""
        | _ => ToString x
        end in
      match element, rest with
      | None, _ => None
      | Some s, [] => Some s
      | Some s, _ :: _ =>
          match join separator rest with
          | Some r => Some (s ++ separator ++ r)
          | None => None
          end
      end
  end.

(** What the console methods of [setupLogging] do before they print: they
    join their arguments into the line for the log file, which throws on an
    argument that has no text.  (The write to the log file is not traced.) *)
Definition mirror (w : World) (args : list value) : M unit :=
  if log_mirror w then
    match join " " args with
    | Some _ => ret tt
    | None => throw (TypeError "Cannot convert object to primitive value")
    end
  else ret tt.

Definition console_log (w : World) (args : list value) : M unit :=
  mirror w args ;; emit (ConsoleLog args).

Definition console_error (w : World) (args : list value) : M unit :=
  mirror w args ;; emit (ConsoleError args).

(** [process.stdout.write(JSON.stringify(v))]. *)
Definition stdout_write_json (v : value) : M unit := emit (StdoutWrite (JSON_stringify v)).

(** [v.key]: reading a property of undefined or null throws. *)
Definition get (v : value) (key : string) : M value :=
  if nullish v then
    throw (TypeError ("Cannot read properties of "
                      ++ match v with VNull => "null" | _ => "undefined" end
                      ++ " (reading '" ++ key ++ "')"))
  else ret (member v key).

(** [${v}] inside a template literal. *)
Definition interpolate (v : value) : M string :=
  match ToString v with
  | Some s => ret s
  | None => throw (TypeError "Cannot convert object to primitive value")
  end.

Definition CONFIG_PATH (w : World) : string := CONFIG_DIR w ++ "/config.json".

Definition DEFAULT_CONFIG (w : World) : value :=
  VObj [("serverUrl", VStr "http://localhost:3000");
        ("apiKey", VStr "");
        ("clientId", VStr ("client-" ++ startup_now w))].

Definition red : string := String escape "[31m".
Definition yellow : string := String escape "[33m".
Definition reset : string := String escape "[0m".

Definition ensureConfigDir (w : World) : M unit :=
  if negb (config_dir_exists w) then
    match mkdir_config_dir w with
    | Some e => throw e
    | None => ret tt
    end ;;
    console_log w [VStr ("Created config directory: " ++ CONFIG_DIR w)]
  else ret tt.

(** The value [loadConfig] returns; [None] inside stands for falling out of
    the [if] to the final [return { ...DEFAULT_CONFIG }]. *)
Definition loadConfig (w : World) : M value :=
  ensureConfigDir w ;;
  found <-
    (if config_file_exists w then
       try_catch
         (configData <- match read_config_file w with
                        | inl text => ret text
                        | inr e => throw e
                        end ;;
          match JSON_parse w configData with
          | inl config =>
              console_log w [VStr "Successfully loaded configuration"] ;;
              ret (Some config)
          | inr parseError =>
              console_error w [VStr (red ++ "Error parsing configuration:" ++ reset);
                             VStr (message parseError)] ;;
              console_error w [VStr (yellow ++ "Raw config data:" ++ reset); VStr configData] ;;
              console_log w [VStr "Using default configuration instead"] ;;
              ret (Some (DEFAULT_CONFIG w))
          end)
         (fun error =>
            console_error w [VStr (red ++ "Error loading config:" ++ reset);
                           VStr (message error)] ;;
            ret None)
     else
       console_log w [VStr "No configuration file found, using defaults"] ;;
       ret None) ;;
  match found with
  | Some config => ret config
  | None => ret (DEFAULT_CONFIG w)
  end.

(** The console methods are replaced before the first line is printed; when
    the [try] block fails they are the original ones.  The stream of the log
    file is not traced: [fs.createWriteStream] does not throw, and a file
    that cannot be opened is made known later, by an [error] event of the
    stream that nothing listens to, which ends the process.  The runs
    described here are those in which the log file, once its directory is
    there, opens. *)
Definition setupLogging (w : World) : M bool :=
  try_catch
    ((if negb (logs_dir_exists w) then
        match mkdir_logs_dir w with
        | Some e => throw e
        | None => ret tt
        end
      else ret tt) ;;
     console_log w [VStr ("Logging initialized to " ++ LOG_PATH w)] ;;
     ret true)
    (fun error =>
       console_error w [VStr "Error setting up logging:"; VStr (message error)] ;;
       ret false).

(** ** The five tool functions *)

(** [`${config.serverUrl}/mcp/call-tool`]. *)
Definition call_tool_url (config : value) : M string :=
  serverUrl <- get config "serverUrl" ;;
  s <- interpolate serverUrl ;;
  ret (s ++ "/mcp/call-tool").

(** [{ tool: { name: name, args: args } }]. *)
Definition tool_call (name : string) (args : value) : value :=
  VObj [("tool", VObj [("name", VStr name); ("args", args)])].

(** [{ headers: { 'x-api-key': config.apiKey, 'x-request-id': requestId,
       'Content-Type': 'application/json' }, timeout: ms }]. *)
Definition request_config (config : value) (requestId : string) (ms : Z) : M axios_config :=
  apiKey <- get config "apiKey" ;;
  ret (mkConfig [("x-api-key", apiKey);
                 ("x-request-id", VStr requestId);
                 ("Content-Type", VStr "application/json")] ms).

(** [await axios.post(url, data, config)], giving [response.data]. *)
Definition post (w : World) (url : string) (data : value) (config : axios_config) : M value :=
  emit (AxiosPost url data config) ;;
  match axios_post w url data config with
  | Resolved body => ret body
  | Rejected e => throw e
  end.

(** The diagnostics every catch block prints. *)
Definition report_failure (w : World) (what : string) (error : js_error) : M unit :=
  console_error w [VStr what; VStr (message error)] ;;
  match detail error with
  | NotAxios => ret tt
  | Axios (Some (status, body)) _ =>
      console_error w [VStr "Response status:"; VNum status] ;;
      console_error w [VStr "Response data:"; body]
  | Axios None true => console_error w [VStr "No response received from server"]
  | Axios None false => console_error w [VStr "Error setting up request:"; VStr (message error)]
  end.

(** The "properly formatted error result" every catch block returns. *)
Definition failure_result (label code : string) (error : js_error) : value :=
  VObj [("content", VArr [VObj [("type", VStr "text");
                                ("text", VStr (label ++ " failed: " ++ message error))]]);
        ("error", VObj [("code", VStr code); ("message", VStr (message error))])].

Definition authenticateWithAgentForce (w : World) (args : value) : M value :=
  console_log w [VStr "Authenticating with AgentForce"] ;;
  clientId <- get args "clientId" ;;
  s <- interpolate clientId ;;
  console_log w [VStr ("Client ID: " ++ s)] ;;
  config <- get args "config" ;;
  agentId <- get config "agentId" ;;
  s <- interpolate agentId ;;
  console_log w [VStr ("Agent ID: " ++ s)] ;;
  try_catch
    (config <- loadConfig w ;;
     let requestId := uuidv4 w in
     url <- call_tool_url config ;;
     console_log w [VStr ("Making request to: " ++ url)] ;;
     console_log w [VStr ("Request ID: " ++ requestId)] ;;
     url <- call_tool_url config ;;
     options <- request_config config requestId 30000 ;;
     body <- post w url (tool_call "agentforce_authenticate" args) options ;;
     console_log w [VStr "Authentication successful"] ;;
     get body "result")
    (fun error =>
       report_failure w "Authentication error:" error ;;
       ret (failure_result "Authentication" "authentication_error" error)).

Definition createAgentForceSession (w : World) (args : value) : M value :=
  console_log w [VStr "Creating AgentForce session"] ;;
  clientId <- get args "clientId" ;;
  s <- interpolate clientId ;;
  console_log w [VStr ("Client ID: " ++ s)] ;;
  try_catch
    (config <- loadConfig w ;;
     let requestId := uuidv4 w in
     url <- call_tool_url config ;;
     console_log w [VStr ("Making request to: " ++ url)] ;;
     console_log w [VStr ("Request ID: " ++ requestId)] ;;
     url <- call_tool_url config ;;
     options <- request_config config requestId 60000 ;;
     body <- post w url (tool_call "agentforce_create_session" args) options ;;
     console_log w [VStr "Session creation successful"] ;;
     get body "result")
    (fun error =>
       report_failure w "Session creation error:" error ;;
       ret (failure_result "Session creation" "session_creation_error" error)).

Definition sendMessageToAgentForce (w : World) (args : value) : M value :=
  console_log w [VStr "Sending message to AgentForce"] ;;
  clientId <- get args "clientId" ;;
  s <- interpolate clientId ;;
  console_log w [VStr ("Client ID: " ++ s)] ;;
  msg <- get args "message" ;;
  len <- get msg "length" ;;
  s <- interpolate len ;;
  console_log w [VStr ("Message length: " ++ s ++ " characters")] ;;
  try_catch
    (config <- loadConfig w ;;
     let requestId := uuidv4 w in
     url <- call_tool_url config ;;
     console_log w [VStr ("Making request to: " ++ url)] ;;
     console_log w [VStr ("Request ID: " ++ requestId)] ;;
     url <- call_tool_url config ;;
     options <- request_config config requestId 300000 ;;
     body <- post w url (tool_call "agentforce_send_message" args) options ;;
     console_log w [VStr ("Message sending successful, took " ++ responseTime w ++ "ms")] ;;
     result <- get body "result" ;;
     content <- get result "content" ;;
     first <- get content "0" ;;
     responseText <- get first "text" ;;
     len <- get responseText "length" ;;
     s <- interpolate len ;;
     console_log w [VStr ("Response length: " ++ s ++ " characters")] ;;
     get body "result")
    (fun error =>
       report_failure w "Message sending error:" error ;;
       ret (failure_result "Message sending" "message_sending_error" error)).

Definition getAgentForceStatus (w : World) (args : value) : M value :=
  console_log w [VStr "Getting AgentForce status"] ;;
  clientId <- get args "clientId" ;;
  s <- interpolate clientId ;;
  console_log w [VStr ("Client ID: " ++ s)] ;;
  try_catch
    (config <- loadConfig w ;;
     let requestId := uuidv4 w in
     url <- call_tool_url config ;;
     console_log w [VStr ("Making request to: " ++ url)] ;;
     console_log w [VStr ("Request ID: " ++ requestId)] ;;
     url <- call_tool_url config ;;
     options <- request_config config requestId 10000 ;;
     body <- post w url (tool_call "agentforce_get_status" args) options ;;
     console_log w [VStr "Status check successful"] ;;
     get body "result")
    (fun error =>
       report_failure w "Status check error:" error ;;
       ret (failure_result "Status check" "status_check_error" error)).

Definition resetAgentForceClient (w : World) (args : value) : M value :=
  console_log w [VStr "Resetting AgentForce client"] ;;
  clientId <- get args "clientId" ;;
  s <- interpolate clientId ;;
  console_log w [VStr ("Client ID: " ++ s)] ;;
  try_catch
    (config <- loadConfig w ;;
     let requestId := uuidv4 w in
     url <- call_tool_url config ;;
     console_log w [VStr ("Making request to: " ++ url)] ;;
     console_log w [VStr ("Request ID: " ++ requestId)] ;;
     url <- call_tool_url config ;;
     options <- request_config config requestId 10000 ;;
     body <- post w url (tool_call "agentforce_reset" args) options ;;
     console_log w [VStr "Reset successful"] ;;
     get body "result")
    (fun error =>
       report_failure w "Reset error:" error ;;
       ret (failure_result "Reset" "reset_error" error)).

(** ** The request handler *)

(** The result object the handler builds itself for a failure it detects. *)
Definition error_envelope (text code msg : string) : value :=
  VObj [("result",
         VObj [("content", VArr [VObj [("type", VStr "text"); ("text", VStr text)]]);
               ("error", VObj [("code", VStr code); ("message", VStr msg)])])].

(** [name === literal]: strict equality with a string literal. *)
Definition is_string (name : value) (literal : string) : bool :=
  match name with
  | VStr s => s =? literal
  | _ => false
  end.

(** The [switch (name)] of the handler: the tool function of a known name,
    and the [default] branch, which leaves the process, for any other. *)
Definition dispatch (w : World) (name args : value) : M value :=
  if is_string name "agentforce_authenticate" then authenticateWithAgentForce w args
  else if is_string name "agentforce_create_session" then createAgentForceSession w args
  else if is_string name "agentforce_send_message" then sendMessageToAgentForce w args
  else if is_string name "agentforce_get_status" then getAgentForceStatus w args
  else if is_string name "agentforce_reset" then resetAgentForceClient w args
  else
    s <- interpolate name ;;
    console_error w [VStr ("Error: Unknown tool: " ++ s)] ;;
    s1 <- interpolate name ;;
    s2 <- interpolate name ;;
    stdout_write_json (error_envelope ("Error: Unknown tool: " ++ s1) "unknown_tool"
                                      ("Unknown tool: " ++ s2)) ;;
    exit 1.

(** The listener of the [end] event of standard input, [inputData] being the
    chunks received, concatenated. *)
Definition processStdinRequest (w : World) (inputData : string) : M unit :=
  try_catch
    ((if negb (truthy (VStr (trim inputData))) then
        console_error w [VStr "Error: No input received"] ;;
        exit 1
      else ret tt) ;;
     console_log w [VStr ("Received input: " ++ show_nat (utf16_length inputData) ++ " characters")] ;;
     request <-
       match JSON_parse w inputData with
       | inl parsed => ret parsed
       | inr parseError =>
           console_error w [VStr "Error parsing input JSON:"; VStr (message parseError)] ;;
           stdout_write_json
             (error_envelope ("Error: Failed to parse input - " ++ message parseError)
                             "parse_error" (message parseError)) ;;
           exit 1
       end ;;
     missing <- (if negb (truthy request) then ret true
                 else tool <- get request "tool" ;; ret (negb (truthy tool))) ;;
     (if missing : bool then
        console_error w [VStr "Error: Invalid request format - missing tool field"] ;;
        stdout_write_json
          (error_envelope "Error: Invalid request format - missing tool field"
                          "invalid_request" "Missing tool field") ;;
        exit 1
      else ret tt) ;;
     tool <- get request "tool" ;;
     name <- get tool "name" ;;
     args <- get tool "args" ;;
     s <- interpolate name ;;
     console_log w [VStr ("Tool called: " ++ s)] ;;
     (if negb (truthy args) then
        console_error w [VStr "Error: Invalid request format - missing args field"] ;;
        stdout_write_json
          (error_envelope "Error: Invalid request format - missing args field"
                          "invalid_request" "Missing args field") ;;
        exit 1
      else ret tt) ;;
     result <- dispatch w name args ;;
     console_log w [VStr "Sending response"] ;;
     stdout_write_json (VObj [("result", result)]) ;;
     exit 0)
    (fun error =>
       console_error w [VStr "Error processing request:"; VStr (message error)] ;;
       console_error w [VStr "Stack trace:"; VStr (stack error)] ;;
       stdout_write_json (error_envelope ("Error: " ++ message error) "processing_error"
                                         (message error)) ;;
       exit 1).

(** [main] without the [configure] argument. *)
Definition main (w : World) (inputData : string) : M unit :=
  setupLogging w ;;
  processStdinRequest w inputData.

(** ** The operations as the specification names them *)

Inductive operation : Type :=
| Authenticate
| CreateSession
| SendMessage
| GetStatus
| ResetClient.

Definition op_name (op : operation) : string :=
  match op with
  | Authenticate => "agentforce_authenticate"
  | CreateSession => "agentforce_create_session"
  | SendMessage => "agentforce_send_message"
  | GetStatus => "agentforce_get_status"
  | ResetClient => "agentforce_reset"
  end.

Definition op_label (op : operation) : string :=
  match op with
  | Authenticate => "Authentication"
  | CreateSession => "Session creation"
  | SendMessage => "Message sending"
  | GetStatus => "Status check"
  | ResetClient => "Reset"
  end.

Definition op_error_code (op : operation) : string :=
  match op with
  | Authenticate => "authentication_error"
  | CreateSession => "session_creation_error"
  | SendMessage => "message_sending_error"
  | GetStatus => "status_check_error"
  | ResetClient => "reset_error"
  end.


Definition run_operation (w : World) (op : operation) (args : value) : M value :=
  match op with
  | Authenticate => authenticateWithAgentForce w args
  | CreateSession => createAgentForceSession w args
  | SendMessage => sendMessageToAgentForce w args
  | GetStatus => getAgentForceStatus w args
  | ResetClient => resetAgentForceClient w args
  end.

(** ** Reading a trace *)

Definition stdout_writes (t : list event) : list string :=
  flat_map (fun e => match e with StdoutWrite text => [text] | _ => [] end) t.

Definition outbound_calls (t : list event) : list event :=
  filter (fun e => match e with AxiosPost _ _ _ => true | _ => false end) t.

(** An own property of an object, as the request text spells it. *)
Definition field (v : value) (key : string) : option value :=
  match v with
  | VObj props => lookup key props
  | _ => None
  end.

(** ** Vocabulary of the properties *)

(** The white space and line terminators of ECMAScript, in UTF-8: TAB, LF,
    VT, FF, CR, SP, U+00A0, U+1680, U+2000 to U+200A, U+2028, U+2029, U+202F,
    U+205F, U+3000 and U+FEFF. *)
Definition white_space : list string :=
  [String "009" "";
   String "010" "";
   String "011" "";
   String "012" "";
   String "013" "";
   String "032" "";
   String "194" (String "160" "");
   String "225" (String "154" (String "128" ""));
   String "226" (String "128" (String "128" ""));
   String "226" (String "128" (String "129" ""));
   String "226" (String "128" (String "130" ""));
   String "226" (String "128" (String "131" ""));
   String "226" (String "128" (String "132" ""));
   String "226" (String "128" (String "133" ""));
   String "226" (String "128" (String "134" ""));
   String "226" (String "128" (String "135" ""));
   String "226" (String "128" (String "136" ""));
   String "226" (String "128" (String "137" ""));
   String "226" (String "128" (String "138" ""));
   String "226" (String "128" (String "168" ""));
   String "226" (String "128" (String "169" ""));
   String "226" (String "128" (String "175" ""));
   String "226" (String "129" (String "159" ""));
   String "227" (String "128" (String "128" ""));
   String "239" (String "187" (String "191" ""))].

Inductive whitespace_only : string -> Prop :=
| blank_empty : whitespace_only ""
| blank_space (c s : string) : In c white_space -> whitespace_only s -> whitespace_only (c ++ s).

(** A request that passes the handler's checks on [tool] and [tool.args],
    with the name and the arguments it carries. *)
Definition envelope (request name args : value) : Prop :=
  truthy (member request "tool") = true
  /\ member (member request "tool") "name" = name
  /\ member (member request "tool") "args" = args
  /\ truthy args = true.

(** The run wrote one response, the error [code] with [msg] under the summary
    [text], left with exit code 1 and called nobody. *)
Definition rejected (run : M unit) (text code msg : string) : Prop :=
  stdout_writes (fst run) = [JSON_stringify (error_envelope text code msg)]
  /\ snd run = Exit 1
  /\ outbound_calls (fst run) = [].

(** The result object has an [error] property. *)
Definition carries_error (result : value) : bool :=
  match field result "error" with
  | Some _ => true
  | None => false
  end.

(** The per-operation timeout, in milliseconds as the code spells it. *)
Definition op_timeout (op : operation) : Z :=
  match op with
  | Authenticate => 30000
  | CreateSession => 60000
  | SendMessage => 300000
  | GetStatus => 10000
  | ResetClient => 10000
  end.

Definition call_options (w : World) (ms : Z) (config : value) : axios_config :=
  mkConfig [("x-api-key", member config "apiKey");
            ("x-request-id", VStr (uuidv4 w));
            ("Content-Type", VStr "application/json")] ms.

(** [response.data.result.content[0].text]. *)
Definition responseText (body : value) : value :=
  member (member (member (member body "result") "content") "0") "text".

(** What a 2xx response body must offer for the operation to hand its
    [result] over: it is not null, and for [agentforce_send_message] the
    length of [result.content[0].text] can be read and printed. *)
Definition delivers (op : operation) (body : value) : bool :=
  negb (nullish body)
  && match op with
     | SendMessage =>
         negb (nullish (responseText body))
         && match ToString (member (responseText body) "length") with
            | Some _ => true
            | None => false
            end
     | _ => true
     end.

(** An argument the console methods of [setupLogging] can join into a line. *)
Definition printable (v : value) : bool :=
  match join " " [v] with
  | Some _ => true
  | None => false
  end.

(** Printing the diagnostics of a caught error throws: the console is
    mirrored to the log file and the error came with a response whose body
    has no text. *)
Definition report_fails (w : World) (e : js_error) : bool :=
  log_mirror w
  && match detail e with
     | Axios (Some (_, body)) _ => negb (printable body)
     | _ => false
     end.

(** The lines [report_failure] prints. *)
Definition report_events (w : World) (what : string) (e : js_error) : list event :=
  ConsoleError [VStr what; VStr (message e)]
  :: match detail e with
     | NotAxios => []
     | Axios (Some (status, body)) _ =>
         ConsoleError [VStr "Response status:"; VNum status]
         :: (if log_mirror w && negb (printable body) then []
             else [ConsoleError [VStr "Response data:"; body]])
     | Axios None true => [ConsoleError [VStr "No response received from server"]]
     | Axios None false => [ConsoleError [VStr "Error setting up request:"; VStr (message e)]]
     end.

Definition failed (label code : string) (o : outcome value) : Prop :=
  exists e, o = Ret (failure_result label code e).

(** Everything a run of a tool function can be, the function being given by
    its tool name, the label and code of its failures, its timeout and what
    it asks of a response body. *)
Definition run_summary (w : World) (name label code : string) (ms : Z) (good : value -> bool)
  (args : value) (r : M value) : Prop :=
  stdout_writes (fst r) = []
  /\ ((outbound_calls (fst r) = [] /\ ((exists e, snd r = Throw e) \/ failed label code (snd r)))
      \/ exists config s,
           snd (loadConfig w) = Ret config
           /\ ToString (member config "serverUrl") = Some s
           /\ outbound_calls (fst r)
              = [AxiosPost (s ++ "/mcp/call-tool") (tool_call name args) (call_options w ms config)]
           /\ match axios_post w (s ++ "/mcp/call-tool") (tool_call name args)
                               (call_options w ms config) with
              | Rejected e =>
                  if report_fails w e then exists e', snd r = Throw e'
                  else snd r = Ret (failure_result label code e)
              | Resolved body =>
                  if good body then snd r = Ret (member body "result")
                  else failed label code (snd r)
              end).

Definition summary (w : World) (op : operation) (args : value) (r : M value) : Prop :=
  run_summary w (op_name op) (op_label op) (op_error_code op) (op_timeout op) (delivers op) args r.

(** The five tool functions follow one scheme: diagnostics, then a [try]
    block that loads the profile, posts the call, prints a line and reads the
    answer, and a [catch] block that reports and returns the failure. *)
Definition scheme (w : World) (name what label code success : string) (ms : Z)
  (epilogue : value -> M value) (args : value) : M value :=
  try_catch
    (config <- loadConfig w ;;
     let requestId := uuidv4 w in
     url <- call_tool_url config ;;
     console_log w [VStr ("Making request to: " ++ url)] ;;
     console_log w [VStr ("Request ID: " ++ requestId)] ;;
     url <- call_tool_url config ;;
     options <- request_config config requestId ms ;;
     body <- post w url (tool_call name args) options ;;
     console_log w [VStr success] ;;
     epilogue body)
    (fun error =>
       report_failure w what error ;;
       ret (failure_result label code error)).

Definition banner (op : operation) : string :=
  match op with
  | Authenticate => "Authenticating with AgentForce"
  | CreateSession => "Creating AgentForce session"
  | SendMessage => "Sending message to AgentForce"
  | GetStatus => "Getting AgentForce status"
  | ResetClient => "Resetting AgentForce client"
  end.

Definition success_line (w : World) (op : operation) : string :=
  match op with
  | Authenticate => "Authentication successful"
  | CreateSession => "Session creation successful"
  | SendMessage => "Message sending successful, took " ++ responseTime w ++ "ms"
  | GetStatus => "Status check successful"
  | ResetClient => "Reset successful"
  end.

(** The lines printed before the [try] block, followed by [k]. *)
Definition diagnostics (w : World) (op : operation) (args : value) (k : M value) : M value :=
  console_log w [VStr (banner op)] ;;
  clientId <- get args "clientId" ;;
  s <- interpolate clientId ;;
  console_log w [VStr ("Client ID: " ++ s)] ;;
  match op with
  | Authenticate =>
      config <- get args "config" ;;
      agentId <- get config "agentId" ;;
      s <- interpolate agentId ;;
      console_log w [VStr ("Agent ID: " ++ s)] ;;
      k
  | SendMessage =>
      msg <- get args "message" ;;
      len <- get msg "length" ;;
      s <- interpolate len ;;
      console_log w [VStr ("Message length: " ++ s ++ " characters")] ;;
      k
  | _ => k
  end.

(** What follows the line of success. *)
Definition epilogue (w : World) (op : operation) (body : value) : M value :=
  match op with
  | SendMessage =>
      result <- get body "result" ;;
      content <- get result "content" ;;
      first <- get content "0" ;;
      responseText <- get first "text" ;;
      len <- get responseText "length" ;;
      s <- interpolate len ;;
      console_log w [VStr ("Response length: " ++ s ++ " characters")] ;;
      get body "result"
  | _ => get body "result"
  end.

(** A computation that writes no response, calls nobody and does not leave
    the process. *)
Definition quiet {A : Type} (m : M A) : Prop :=
  stdout_writes (fst m) = [] /\ outbound_calls (fst m) = [] /\ forall c, snd m <> Exit c.

(** [m] after the events [t]. *)
Definition prefix {A : Type} (t : list event) (m : M A) : M A := ((t ++ fst m)%list, snd m).

Definition received (inputData : string) : event :=
  ConsoleLog [VStr ("Received input: " ++ show_nat (utf16_length inputData) ++ " characters")].

(** The claim that the exit code tells whether the result carries an error. *)
Definition exit_reflects_error (w : World) (inputData : string) (op : operation) (args : value)
  : Prop :=
  forall t result,
    run_operation w op args = (t, Ret result) ->
    (snd (main w inputData) = Exit 0 <-> carries_error result = false).

(** ** Sample worlds *)

Definition SyntaxError (msg : string) : js_error := mkError msg ("SyntaxError: " ++ msg) NotAxios.

(** [JSON.parse] on the texts of a table, a SyntaxError on any other. *)
Definition parse_table (table : list (string * value)) (text : string) : value + js_error :=
  match lookup text table with
  | Some v => inl v
  | None => inr (SyntaxError "Unexpected token o in JSON at position 1")
  end.

(** A machine with its configuration directory, no configuration file, and
    the console mirrored to the log file. *)
Definition sample_world (table : list (string * value))
  (backend : string -> value -> axios_config -> axios_outcome) : World :=
  {| JSON_parse := parse_table table;
     CONFIG_DIR := "/home/user/.agentforce-reliable-client";
     config_dir_exists := true;
     mkdir_config_dir := None;
     config_file_exists := false;
     read_config_file := inr (mkError "ENOENT: no such file or directory" "Error: ENOENT" NotAxios);
     startup_now := "1700000000000";
     uuidv4 := "2f1e4c6a-8b0d-4e5f-9a3b-7c1d2e3f4a5b";
     responseTime := "42";
     axios_post := backend;
     LOG_PATH := "/home/user/.agentforce-reliable-client/logs/client-2023-11-14T22-13-20-000Z.log";
     logs_dir_exists := true;
     mkdir_logs_dir := None |}.

Definition answering (body : value) : string -> value -> axios_config -> axios_outcome :=
  fun _ _ _ => Resolved body.

Definition ECONNREFUSED : js_error :=
  mkError "connect ECONNREFUSED 127.0.0.1:3000" "Error: connect ECONNREFUSED 127.0.0.1:3000"
          (Axios None true).

Definition unreachable : string -> value -> axios_config -> axios_outcome :=
  fun _ _ _ => Rejected ECONNREFUSED.

(** A 500 response whose body is [{ "toString": 1 }]. *)
Definition odd_refusal : js_error :=
  mkError "Request failed with status code 500" "AxiosError: Request failed with status code 500"
          (Axios (Some ("500", VObj [("toString", VNum "1")])) true).

Definition refusing : string -> value -> axios_config -> axios_outcome :=
  fun _ _ _ => Rejected odd_refusal.

Definition tool_request (name args : value) : value :=
  VObj [("tool", VObj [("name", name); ("args", args)])].

Definition status_text : string :=
  dq "{'tool':{'name':'agentforce_get_status','args':{'clientId':'c1'}}}".
Definition status_request : value :=
  tool_request (VStr "agentforce_get_status") (VObj [("clientId", VStr "c1")]).

Definition ok_reply : value :=
  VObj [("result", VObj [("content", VArr [VObj [("type", VStr "text"); ("text", VStr "ok")]])])].

Definition bogus_text : string := dq "{'tool':{'name':'bogus_tool','args':{}}}".
Definition bogus_request : value := tool_request (VStr "bogus_tool") (VObj []).

Definition message_text : string :=
  dq "{'tool':{'name':'agentforce_send_message','args':{'clientId':'c1','message':'hi'}}}".
Definition message_request : value :=
  tool_request (VStr "agentforce_send_message")
               (VObj [("clientId", VStr "c1"); ("message", VStr "hi")]).

(** A 2xx reply whose result has no content entry. *)
Definition empty_reply : value := VObj [("result", VObj [("content", VArr [])])].

Definition number_message_text : string :=
  dq "{'tool':{'name':'agentforce_send_message','args':{'clientId':'c1','message':5}}}".
Definition number_message_request : value :=
  tool_request (VStr "agentforce_send_message")
               (VObj [("clientId", VStr "c1"); ("message", VNum "5")]).

Definition text_config_text : string :=
  dq "{'tool':{'name':'agentforce_authenticate','args':{'clientId':'c1','config':'x'}}}".
Definition text_config_request : value :=
  tool_request (VStr "agentforce_authenticate")
               (VObj [("clientId", VStr "c1"); ("config", VStr "x")]).

Definition no_message_text : string :=
  dq "{'tool':{'name':'agentforce_send_message','args':{'clientId':'c1'}}}".
Definition no_message_request : value :=
  tool_request (VStr "agentforce_send_message") (VObj [("clientId", VStr "c1")]).

Definition no_tool_text : string := dq "{'name':'agentforce_reset'}".
Definition no_tool_request : value := VObj [("name", VStr "agentforce_reset")].

Definition no_args_text : string := dq "{'tool':{'name':'agentforce_reset'}}".
Definition no_args_request : value := VObj [("tool", VObj [("name", VStr "agentforce_reset")])].

Definition null_tool_text : string := dq "{'tool':null}".
Definition null_tool_request : value := VObj [("tool", VNull)].

Definition null_args_text : string := dq "{'tool':{'name':'agentforce_reset','args':null}}".
Definition null_args_request : value :=
  VObj [("tool", VObj [("name", VStr "agentforce_reset"); ("args", VNull)])].

(** A name that is an object with a [toString] entry of its own. *)
Definition odd_name : value := VObj [("toString", VNum "1")].

Definition odd_name_text : string := dq "{'tool':{'name':{'toString':1}}}".
Definition odd_name_request : value := VObj [("tool", VObj [("name", odd_name)])].

Definition odd_name_null_args_text : string := dq "{'tool':{'name':{'toString':1},'args':null}}".
Definition odd_name_null_args_request : value :=
  VObj [("tool", VObj [("name", odd_name); ("args", VNull)])].

Definition sample_table : list (string * value) :=
  [(status_text, status_request);
   (bogus_text, bogus_request);
   (message_text, message_request);
   (number_message_text, number_message_request);
   (text_config_text, text_config_request);
   (no_message_text, no_message_request);
   (no_tool_text, no_tool_request);
   (no_args_text, no_args_request);
   (null_tool_text, null_tool_request);
   (null_args_text, null_args_request);
   (odd_name_text, odd_name_request);
   (odd_name_null_args_text, odd_name_null_args_request)].

(** The backend answers every call with [body]. *)
Definition online (body : value) : World := sample_world sample_table (answering body).

(** Nothing listens at the server address. *)
Definition offline : World := sample_world sample_table unreachable.

(** The backend refuses every call with [odd_refusal]. *)
Definition refused : World := sample_world sample_table refusing.

(** The call a sample world sees for [op] with [args]: it has no
    configuration file, so the profile is the default one. *)
Definition sample_url : string := "http://localhost:3000/mcp/call-tool".

Definition sample_options (op : operation) : axios_config :=
  mkConfig [("x-api-key", VStr "");
            ("x-request-id", VStr "2f1e4c6a-8b0d-4e5f-9a3b-7c1d2e3f4a5b");
            ("Content-Type", VStr "application/json")] (op_timeout op).

Definition status_args : value := VObj [("clientId", VStr "c1")].
Definition message_args : value := VObj [("clientId", VStr "c1"); ("message", VStr "hi")].
Definition number_message_args : value := VObj [("clientId", VStr "c1"); ("message", VNum "5")].
Definition text_config_args : value := VObj [("clientId", VStr "c1"); ("config", VStr "x")].

(** ** Vocabulary of the further properties *)

(** The input reaches the tool function of [op] with [args]: it is not blank,
    it parses, and the request passes the handler's checks and names [op]. *)
Definition dispatched (w : World) (inputData : string) (op : operation) (args : value) : Prop :=
  exists request,
    trim inputData <> ""
    /\ JSON_parse w inputData = inl request
    /\ envelope request (VStr (op_name op)) args.

Definition has_text (v : value) : bool :=
  match ToString v with
  | Some _ => true
  | None => false
  end.

(** The lines a tool function prints before its [try] block can be printed:
    the properties they read are there to be read and have a text. *)
Definition announced (op : operation) (args : value) : bool :=
  negb (nullish args)
  && has_text (member args "clientId")
  && match op with
     | Authenticate =>
         negb (nullish (member args "config"))
         && has_text (member (member args "config") "agentId")
     | SendMessage =>
         negb (nullish (member args "message"))
         && has_text (member (member args "message") "length")
     | _ => true
     end.

(** The error the [try] block of a tool function meets before it can issue
    its call: [loadConfig] throws, or the profile it returns is null or has a
    [serverUrl] without a text. *)
Definition profile_fault (w : World) : option js_error :=
  match snd (loadConfig w) with
  | Throw e => Some e
  | Exit _ => None
  | Ret config =>
      if nullish config then
        Some (TypeError ("Cannot read properties of "
                         ++ match config with VNull => "null" | _ => "undefined" end
                         ++ " (reading 'serverUrl')"))
      else if has_text (member config "serverUrl") then None
      else Some (TypeError "Cannot convert object to primitive value")
  end.

(** The profile [loadConfig] answers with when the directory of the
    configuration is there: the parsed file, or the default profile when the
    file is missing, cannot be read or cannot be parsed. *)
Definition profile (w : World) : value :=
  if config_file_exists w then
    match read_config_file w with
    | inl text =>
        match JSON_parse w text with
        | inl config => config
        | inr _ => DEFAULT_CONFIG w
        end
    | inr _ => DEFAULT_CONFIG w
    end
  else DEFAULT_CONFIG w.

(** A machine whose configuration file holds the text [null]. *)
Definition null_profile : World :=
  {| JSON_parse := parse_table (("null", VNull) :: sample_table);
     CONFIG_DIR := "/home/user/.agentforce-reliable-client";
     config_dir_exists := true;
     mkdir_config_dir := None;
     config_file_exists := true;
     read_config_file := inl "null";
     startup_now := "1700000000000";
     uuidv4 := "2f1e4c6a-8b0d-4e5f-9a3b-7c1d2e3f4a5b";
     responseTime := "42";
     axios_post := answering ok_reply;
     LOG_PATH := "/home/user/.agentforce-reliable-client/logs/client-2023-11-14T22-13-20-000Z.log";
     logs_dir_exists := true;
     mkdir_logs_dir := None |}.

Definition EACCES : js_error :=
  mkError "EACCES: permission denied, mkdir '/home/user/.agentforce-reliable-client/logs'"
          "Error: EACCES: permission denied, mkdir '/home/user/.agentforce-reliable-client/logs'"
          NotAxios.

(** A machine on which the directory of the logs cannot be created, and
    whose backend refuses every call with [odd_refusal]. *)
Definition unlogged : World :=
  {| JSON_parse := parse_table sample_table;
     CONFIG_DIR := "/home/user/.agentforce-reliable-client";
     config_dir_exists := true;
     mkdir_config_dir := None;
     config_file_exists := false;
     read_config_file := inr (mkError "ENOENT: no such file or directory" "Error: ENOENT" NotAxios);
     startup_now := "1700000000000";
     uuidv4 := "2f1e4c6a-8b0d-4e5f-9a3b-7c1d2e3f4a5b";
     responseTime := "42";
     axios_post := refusing;
     LOG_PATH := "/home/user/.agentforce-reliable-client/logs/client-2023-11-14T22-13-20-000Z.log";
     logs_dir_exists := false;
     mkdir_logs_dir := Some EACCES |}.

(** A 2xx reply with no body. *)
Definition null_reply : value := VNull.

(** A 2xx reply whose body has no [result]. *)
Definition bare_reply : value := VObj [("status", VStr "ok")].

(** ** The command line: [configure] *)

(** [JSON.stringify(v, null, 2)]: every level is indented by two spaces more,
    one entry per line, a space after the colon; an empty object or array
    stays on one line. *)
Definition newline : string := String "010" "".
Definition gap : string := "  ".

Definition lines (opening closing indent : string) (partial : list string) : string :=
  match partial with
  | [] => opening ++ closing
  | _ =>
      opening ++ newline ++ indent ++ gap
      ++ String.concat ("," ++ newline ++ indent ++ gap) partial
      ++ newline ++ indent ++ closing
  end.

Fixpoint SerializeJSONProperty_indented (indent : string) (v : value) : option string :=
  match v with
  | VUndefined => None
  | VNull => Some "null"
  | VBool b => Some (if b then "true" else "false")
  | VNum shown => Some (if finite shown then shown else "null")
  | VStr s => Some (QuoteJSONString s)
  | VArr items =>
      Some (lines "[" "]" indent
              ((fix elements (l : list value) : list string :=
                  match l with
                  | [] => []
                  | x :: rest =>
                      match SerializeJSONProperty_indented (indent ++ gap) x with
                      | Some s => s
                      | None => "null"
                      end :: elements rest
                  end) items))
  | VObj props =>
      Some (lines "{" "}" indent
              ((fix members (l : list (string * value)) : list string :=
                  match l with
                  | [] => []
                  | (k, x) :: rest =>
                      match SerializeJSONProperty_indented (indent ++ gap) x with
                      | Some s => (QuoteJSONString k ++ ": " ++ s) :: members rest
                      | None => members rest
                      end
                  end) props))
  end.

(** [None] is the [undefined] that [JSON.stringify(undefined, null, 2)] is. *)
Definition JSON_stringify_indented (v : value) : option string :=
  SerializeJSONProperty_indented "" v.

(** [s.substring(0, n)], counted in UTF-16 code units, as it prints: a
    character outside the basic plane that the cut splits in two prints as
    U+FFFD. *)
Definition replacement_character : string := String "239" (String "191" (String "189" "")).

Fixpoint substring_from_start (n : nat) (s : string) : string :=
  match s with
  | EmptyString => EmptyString
  | String c rest =>
      if continuation c then String c (substring_from_start n rest)
      else
        match n with
        | 0 => EmptyString
        | 1 =>
            if Nat.eqb (utf16_units c) 2 then replacement_character
            else String c (substring_from_start 0 rest)
        | S (S m as k) =>
            if Nat.eqb (utf16_units c) 2 then String c (substring_from_start m rest)
            else String c (substring_from_start k rest)
        end
  end.

(** What the command does: the lines of the console, the questions it asks,
    the file it writes, the request that verifies the connection, and the
    closing of the readline interface.  The last action is the call of the
    earlier revision of the client, [axios.post(url, data, { headers })]. *)
Inductive action : Type :=
| Console (e : event)
| Question (text : string)
| WriteFile (path : string) (data : option string)
| AxiosGet (url : value) (config : axios_config)
| Close
| Post (url : string) (data : value) (headers : list (string * value)).

(** How the command ends: as a computation of the handler does, or waiting
    for an answer that does not come. *)
Inductive ending (A : Type) : Type :=
| Returned (a : A)
| Thrown (e : js_error)
| Exited (code : Z)
| Waiting.

Arguments Returned {A} a.
Arguments Thrown {A} e.
Arguments Exited {A} code.
Arguments Waiting {A}.

Definition Run (A : Type) : Type := (list action * ending A)%type.

Definition done {A : Type} (a : A) : Run A := ([], Returned a).
Definition raise {A : Type} (e : js_error) : Run A := ([], Thrown e).
Definition act (a : action) : Run unit := ([a], Returned tt).

Definition and_then {A B : Type} (m : Run A) (f : A -> Run B) : Run B :=
  match m with
  | (t, Returned a) => let (t', o) := f a in ((t ++ t')%list, o)
  | (t, Thrown e) => (t, Thrown e)
  | (t, Exited c) => (t, Exited c)
  | (t, Waiting) => (t, Waiting)
  end.

(** [try { m } catch (error) { handler error }]. *)
Definition attempt {A : Type} (m : Run A) (handler : js_error -> Run A) : Run A :=
  match m with
  | (t, Thrown e) => let (t', o) := handler e in ((t ++ t')%list, o)
  | other => other
  end.

(** A computation of the handler, run by the command. *)
Definition lift {A : Type} (m : M A) : Run A :=
  (map Console (fst m),
   match snd m with
   | Ret a => Returned a
   | Throw e => Thrown e
   | Exit c => Exited c
   end).

Declare Scope run_scope.
Notation "x <- m ;; k" := (and_then m (fun x => k))
  (at level 61, m at next level, right associativity) : run_scope.
Notation "m ;; k" := (and_then m (fun _ => k))
  (at level 61, right associativity) : run_scope.

(** The user at the terminal, the file system where the configuration goes
    and the server the command verifies. *)
Record Terminal : Type := mkTerminal {
  (** What the user types at a question, if anything. *)
  answer : string -> option string;
  (** [fs.writeFileSync(CONFIG_PATH, data, 'utf8')]: the error it throws, if
      any; the data are [None] when they are undefined. *)
  write_config_file : option string -> option js_error;
  (** [axios.get(url, config)]: it resolves on a 2xx response with the response
      body, and rejects on anything else. *)
  axios_get : value -> axios_config -> axios_outcome;
  (** [error.code] of a rejection. *)
  code : js_error -> value
}.

Definition blue : string := String escape "[34m".
Definition green : string := String escape "[32m".

(** The world once [ensureConfigDir] has returned: the directory is there. *)
Definition with_config_dir (w : World) : World :=
  {| JSON_parse := JSON_parse w;
     CONFIG_DIR := CONFIG_DIR w;
     config_dir_exists := true;
     mkdir_config_dir := mkdir_config_dir w;
     config_file_exists := config_file_exists w;
     read_config_file := read_config_file w;
     startup_now := startup_now w;
     uuidv4 := uuidv4 w;
     responseTime := responseTime w;
     axios_post := axios_post w;
     LOG_PATH := LOG_PATH w;
     logs_dir_exists := logs_dir_exists w;
     mkdir_logs_dir := mkdir_logs_dir w |}.

(** The object [config] of the command while it is filled in: the value
    [loadConfig] returned, with the properties set on it since.  On an array
    they are kept aside, [JSON.stringify] not seeing them. *)
Record filled : Type := mkFilled {
  held : value;
  aside : list (string * value)
}.

(** [o[key] = x] on the own properties of an object: the entry is replaced
    where it stands, or added last. *)
Fixpoint store (key : string) (x : value) (props : list (string * value))
  : list (string * value) :=
  match props with
  | [] => [(key, x)]
  | (k, v) :: rest => if k =? key then (k, x) :: rest else (k, v) :: store key x rest
  end.

(** [config.key]. *)
Definition read (config : filled) (key : string) : M value :=
  match lookup key (aside config) with
  | Some x => ret x
  | None => get (held config) key
  end.

Definition typeof (v : value) : string :=
  match v with
  | VUndefined => "undefined"
  | VNull => "object"
  | VBool _ => "boolean"
  | VNum _ => "number"
  | VStr _ => "string"
  | VArr _ | VObj _ => "object"
  end.

(** [config.key = x], in the strict mode of a module: it throws on null and
    undefined, and on a primitive value, which cannot take a property. *)
Definition assign (config : filled) (key : string) (x : value) : M filled :=
  match held config with
  | VObj props => ret (mkFilled (VObj (store key x props)) (aside config))
  | VArr _ => ret (mkFilled (held config) (store key x (aside config)))
  | VUndefined | VNull =>
      throw (TypeError ("Cannot set properties of "
                        ++ match held config with VNull => "null" | _ => "undefined" end
                        ++ " (setting '" ++ key ++ "')"))
  | VBool _ | VNum _ | VStr _ =>
      throw (TypeError ("Cannot create property '" ++ key ++ "' on " ++ typeof (held config)
                        ++ " '" ++ match ToString (held config) with
                                   | Some s => s
                                   | None => ""
                                   end ++ "'"))
  end.

(** [prompt(question)]: the question is put, and the answer awaited. *)
Definition prompt (t : Terminal) (question : string) : Run string :=
  ([Question question],
   match answer t question with
   | Some line => Returned line
   | None => Waiting
   end).

Section Command.
Local Open Scope run_scope.

Definition saveConfig (w : World) (t : Terminal) (config : value) : Run bool :=
  lift (ensureConfigDir w) ;;
  attempt
    (let data := JSON_stringify_indented config in
     act (WriteFile (CONFIG_PATH w) data) ;;
     match write_config_file t data with
     | Some e => raise e
     | None => done tt
     end ;;
     lift (console_log w [VStr ("Configuration saved to " ++ CONFIG_PATH w)]) ;;
     done true)
    (fun error =>
       lift (console_error w [VStr ("Error saving configuration: " ++ message error)]) ;;
       done false).

(** [`Server URL ${config.serverUrl ? `[${config.serverUrl}]` : ''}: `]. *)
Definition serverUrl_question (config : filled) : M string :=
  bind (read config "serverUrl") (fun current =>
  bind (if truthy current then
          bind (read config "serverUrl") (fun current =>
          bind (interpolate current) (fun s => ret ("[" ++ s ++ "]")))
        else ret "") (fun shown =>
  ret ("Server URL " ++ shown ++ ": "))).

(** [`Server API Key ${config.apiKey ? `[${config.apiKey.substring(0, 8)}...]` : ''}: `]. *)
Definition apiKey_question (config : filled) : M string :=
  bind (read config "apiKey") (fun current =>
  bind (if truthy current then
          bind (read config "apiKey") (fun current =>
          match current with
          | VStr s => ret ("[" ++ substring_from_start 8 s ++ "...]")
          | _ => throw (TypeError "config.apiKey.substring is not a function")
          end)
        else ret "") (fun shown =>
  ret ("Server API Key " ++ shown ++ ": "))).

(** The last lines of a successful verification. *)
Definition integration_lines : list string :=
  ["";
   blue ++ "Claude Desktop Integration:" ++ reset;
   "Add the following to your Claude Desktop config file:";
   "";
   yellow ++ "{" ++ reset;
   yellow ++ dq "  'mcpServers': {" ++ reset;
   yellow ++ dq "    'agentforce': {" ++ reset;
   yellow ++ dq "      'command': 'npx'," ++ reset;
   yellow ++ dq "      'args': ['agentforce-reliable-tool']" ++ reset;
   yellow ++ "    }" ++ reset;
   yellow ++ "  }" ++ reset;
   yellow ++ "}" ++ reset].

Fixpoint print_lines (w : World) (l : list string) : M unit :=
  match l with
  | [] => ret tt
  | line :: rest => bind (console_log w [VStr line]) (fun _ => print_lines w rest)
  end.

(** The [try] and [catch] blocks that verify the connection. *)
Definition verify_connection (w : World) (t : Terminal) (config : filled) : Run unit :=
  attempt
    (lift (console_log w [VStr (blue ++ "Verifying connection to server..." ++ reset)]) ;;
     url <- lift (read config "serverUrl") ;;
     apiKey <- lift (read config "apiKey") ;;
     let options := mkConfig [("x-api-key", apiKey); ("x-request-id", VStr (uuidv4 w))] 5000 in
     act (AxiosGet url options) ;;
     data <- match axios_get t url options with
             | Resolved data => done data
             | Rejected e => raise e
             end ;;
     name <- lift (bind (get data "name") interpolate) ;;
     version <- lift (bind (get data "version") interpolate) ;;
     lift (console_log w [VStr (green ++ "✓ Connected to server: " ++ name ++ " v" ++ version
                                ++ reset)]) ;;
     status <- lift (bind (get data "status") interpolate) ;;
     lift (console_log w [VStr (green ++ "✓ Server status: " ++ status ++ reset)]) ;;
     mode <- lift (get data "mode") ;;
     (if is_string mode "direct" then
        lift (console_log w [VStr (green ++ "✓ Server running in direct mode" ++ reset)])
      else done tt) ;;
     lift (print_lines w integration_lines))
    (fun error =>
       lift (console_error w [VStr (red ++ "✗ Error connecting to server:" ++ reset);
                              VStr (message error)]) ;;
       match detail error with
       | NotAxios => done tt
       | Axios response request =>
           if is_string (code t error) "ECONNREFUSED" then
             s <- lift (bind (read config "serverUrl") interpolate) ;;
             lift (console_error w [VStr (yellow ++ "The server at " ++ s
                                          ++ " is not running or not accessible" ++ reset)])
           else
             match response with
             | Some (status, _) =>
                 lift (console_error w [VStr (yellow ++ "Server returned status code " ++ status
                                              ++ reset)])
             | None =>
                 if request then
                   lift (console_error w [VStr (yellow ++ "No response received from server"
                                                ++ reset)])
                 else done tt
             end
       end ;;
       s <- lift (bind (read config "serverUrl") interpolate) ;;
       lift (console_error w [VStr (yellow ++ "Please ensure the server is running at " ++ s
                                    ++ reset)]) ;;
       lift (console_error w [VStr (yellow
                                    ++ "You can start it with: npx agentforce-reliable-server --direct"
                                    ++ reset)])).

Definition configureClient (w : World) (t : Terminal) : Run unit :=
  lift (console_log w [VStr (blue ++ "AgentForce Reliable Tool Configuration" ++ reset)]) ;;
  lift (console_log w [VStr ""]) ;;
  loaded <- lift (loadConfig w) ;;
  let config := mkFilled loaded [] in
  lift (console_log w [VStr (yellow ++ "Enter your server connection details:" ++ reset)]) ;;
  lift (console_log w [VStr "(Press Enter to keep existing values in brackets)"]) ;;
  lift (console_log w [VStr ""]) ;;
  question <- lift (serverUrl_question config) ;;
  serverUrl <- prompt t question ;;
  config <- (if truthy (VStr serverUrl) then lift (assign config "serverUrl" (VStr serverUrl))
             else
               current <- lift (read config "serverUrl") ;;
               if negb (truthy current) then
                 lift (assign config "serverUrl" (VStr "http://localhost:3000"))
               else done config) ;;
  question <- lift (apiKey_question config) ;;
  apiKey <- prompt t question ;;
  config <- (if truthy (VStr apiKey) then lift (assign config "apiKey" (VStr apiKey))
             else done config) ;;
  saveConfig (with_config_dir w) t (held config) ;;
  lift (console_log w [VStr ""]) ;;
  lift (console_log w [VStr (green ++ "Configuration saved to " ++ CONFIG_PATH w ++ reset)]) ;;
  lift (console_log w [VStr ""]) ;;
  verify_connection w t config ;;
  act Close.

End Command.

Module Cli.
(** [main], [args] being [process.argv.slice(2)]: the command [configure],
    or the request on standard input. *)
Definition main (w : World) (t : Terminal) (args : list string) (inputData : string)
  : Run unit :=
  and_then (lift (setupLogging w)) (fun _ =>
  if existsb (String.eqb "configure") args then configureClient w t
  else lift (processStdinRequest w inputData)).
End Cli.

(** ** Vocabulary of the properties of the command *)

(** [m] after the actions [t]. *)
Definition after {A : Type} (t : list action) (m : Run A) : Run A := ((t ++ fst m)%list, snd m).

(** The writes of the configuration file a run attempts. *)
Definition writes (t : list action) : list (string * option string) :=
  flat_map (fun a => match a with WriteFile path data => [(path, data)] | _ => [] end) t.

(** The requests that verify the connection. *)
Definition verifications (t : list action) : list action :=
  filter (fun a => match a with AxiosGet _ _ => true | _ => false end) t.

(** The run neither answers a request nor calls a tool of the backend. *)
Definition handles_no_request (t : list action) : Prop :=
  forall e, In (Console e) t ->
            match e with
            | ConsoleLog _ | ConsoleError _ => True
            | StdoutWrite _ | AxiosPost _ _ _ => False
            end.

(** The decidable form of [handles_no_request]. *)
Definition request_free (t : list action) : bool :=
  forallb (fun a => match a with
                    | Console (StdoutWrite _) | Console (AxiosPost _ _ _) => false
                    | _ => true
                    end) t.

(** A run that neither answers a request nor calls a tool of the backend. *)
Definition calm {A : Type} (m : Run A) : Prop := handles_no_request (fst m).

(** The action is a line of the console or the request of the verification. *)
Definition line_or_get (a : action) : bool :=
  match a with
  | Console (ConsoleLog _) | Console (ConsoleError _) | AxiosGet _ _ => true
  | _ => false
  end.

(** The value is a scalar: neither an object nor an array. *)
Definition scalar (v : value) : bool :=
  match v with
  | VObj _ | VArr _ => false
  | _ => true
  end.

(** [config.key] as the command reads it, for a [config] that is not null. *)
Definition view (config : filled) (key : string) : value :=
  match lookup key (aside config) with
  | Some x => x
  | None => member (held config) key
  end.

(** The properties of the profile once the two questions are answered: an
    answer is stored, an empty answer keeps what is there, and a server
    address that is missing becomes the default one. *)
Definition settled (props : list (string * value)) (serverUrl apiKey : string)
  : list (string * value) :=
  let props :=
    if truthy (VStr serverUrl) then store "serverUrl" (VStr serverUrl) props
    else if truthy (member (VObj props) "serverUrl") then props
         else store "serverUrl" (VStr "http://localhost:3000") props in
  if truthy (VStr apiKey) then store "apiKey" (VStr apiKey) props else props.

(** The request that verifies the connection to the server of [config]. *)
Definition verification (w : World) (config : value) : action :=
  AxiosGet (member config "serverUrl")
           (mkConfig [("x-api-key", member config "apiKey"); ("x-request-id", VStr (uuidv4 w))]
                     5000).

(** What the command does up to its second question, [loading] being the
    lines of [loadConfig]. *)
Definition opening (loading : list event) (q1 q2 : string) : list action :=
  ([Console (ConsoleLog [VStr (blue ++ "AgentForce Reliable Tool Configuration" ++ reset)]);
    Console (ConsoleLog [VStr ""])]
   ++ map Console loading
   ++ [Console (ConsoleLog [VStr (yellow ++ "Enter your server connection details:" ++ reset)]);
       Console (ConsoleLog [VStr "(Press Enter to keep existing values in brackets)"]);
       Console (ConsoleLog [VStr ""]);
       Question q1;
       Question q2])%list.

(** What it does to save [config]: the write, the line of [saveConfig] on
    how the write went, and its own confirmation. *)
Definition saving (w : World) (t : Terminal) (config : value) : list action :=
  [WriteFile (CONFIG_PATH w) (JSON_stringify_indented config);
   Console (match write_config_file t (JSON_stringify_indented config) with
            | None => ConsoleLog [VStr ("Configuration saved to " ++ CONFIG_PATH w)]
            | Some e => ConsoleError [VStr ("Error saving configuration: " ++ message e)]
            end);
   Console (ConsoleLog [VStr ""]);
   Console (ConsoleLog [VStr (green ++ "Configuration saved to " ++ CONFIG_PATH w ++ reset)]);
   Console (ConsoleLog [VStr ""])].

(** The command loads the object of [props] as its profile, and the user
    answers its two questions with [serverUrl] and [apiKey]. *)
Definition interview (w : World) (t : Terminal) (props : list (string * value))
  (serverUrl apiKey : string) : Prop :=
  snd (loadConfig w) = Ret (VObj props)
  /\ exists q1 q2,
       snd (serverUrl_question (mkFilled (VObj props) [])) = Ret q1
       /\ answer t q1 = Some serverUrl
       /\ snd (apiKey_question (mkFilled (VObj (settled props serverUrl "")) [])) = Ret q2
       /\ answer t q2 = Some apiKey.

(** ** Sample terminals *)

Definition saved_profile : value :=
  VObj [("serverUrl", VStr "http://localhost:3000");
        ("apiKey", VStr "0123456789abcdef");
        ("clientId", VStr "client-1700000000000")].

Definition saved_text : string :=
  dq ("{" ++ newline
      ++ "  'serverUrl': 'http://localhost:3000'," ++ newline
      ++ "  'apiKey': '0123456789abcdef'," ++ newline
      ++ "  'clientId': 'client-1700000000000'" ++ newline
      ++ "}").

(** A profile whose key was written as a number. *)
Definition numeric_key_profile : value :=
  VObj [("serverUrl", VStr "http://localhost:3000"); ("apiKey", VNum "12345")].

(** A machine whose configuration file holds [text], which parses to [config]. *)
Definition configured (text : string) (config : value) : World :=
  {| JSON_parse := parse_table [(text, config)];
     CONFIG_DIR := "/home/user/.agentforce-reliable-client";
     config_dir_exists := true;
     mkdir_config_dir := None;
     config_file_exists := true;
     read_config_file := inl text;
     startup_now := "1700000000000";
     uuidv4 := "2f1e4c6a-8b0d-4e5f-9a3b-7c1d2e3f4a5b";
     responseTime := "42";
     axios_post := unreachable;
     LOG_PATH := "/home/user/.agentforce-reliable-client/logs/client-2023-11-14T22-13-20-000Z.log";
     logs_dir_exists := true;
     mkdir_logs_dir := None |}.

Definition EROFS : js_error :=
  mkError "EROFS: read-only file system, open '/home/user/.agentforce-reliable-client/config.json'"
          "Error: EROFS: read-only file system" NotAxios.

(** A user who answers the question on the server with [serverUrl] and the
    one on the key with [apiKey]; the file is written unless [refusal] says
    otherwise, and nothing listens at the server address. *)
Definition typing (serverUrl apiKey : string) (refusal : option js_error) : Terminal :=
  {| answer := fun question =>
                 Some (if String.prefix "Server URL" question then serverUrl else apiKey);
     write_config_file := fun _ => refusal;
     axios_get := fun _ _ => Rejected ECONNREFUSED;
     code := fun _ => VStr "ECONNREFUSED" |}.

(** ** The earlier revision of the client *)

(** The file holds two revisions of the client; the handler above is the
    later one.  The earlier one has no log file, takes the arguments of its
    calls from the environment and answers on standard output only when it
    succeeds. *)
Module Earlier.

(** The environment variables and the backend. *)
Record Environment : Type := mkEnvironment {
  (** [process.env]. *)
  env : string -> option string;
  (** [axios.post(url, data, { headers })]: it resolves on a 2xx response with
      the response body, and rejects on anything else. *)
  axios_post : string -> value -> list (string * value) -> axios_outcome
}.

Section Revision.
Local Open Scope run_scope.

Definition console_error (args : list value) : Run unit := act (Console (ConsoleError args)).

Definition exit {A : Type} (code : Z) : Run A := ([], Exited code).

Definition DEFAULT_CONFIG (w : World) : value :=
  VObj [("serverUrl", VStr "http://localhost:3001");
        ("apiKey", VStr "");
        ("clientId", VStr ("client-" ++ startup_now w))].

Definition ensureConfigDir (w : World) : Run unit :=
  if negb (config_dir_exists w) then
    match mkdir_config_dir w with
    | Some e => raise e
    | None => done tt
    end
  else done tt.

(** The value [loadConfig] returns; [None] inside stands for falling out of
    the [if] to the final [return { ...DEFAULT_CONFIG }]. *)
Definition loadConfig (w : World) : Run value :=
  ensureConfigDir w ;;
  found <-
    (if config_file_exists w then
       attempt
         (configData <- match read_config_file w with
                        | inl text => done text
                        | inr e => raise e
                        end ;;
          match JSON_parse w configData with
          | inl config => done (Some config)
          | inr e => raise e
          end)
         (fun error =>
            console_error [VStr (red ++ "Error loading config:" ++ reset);
                           VStr (message error)] ;;
            done None)
     else done None) ;;
  match found with
  | Some config => done config
  | None => done (DEFAULT_CONFIG w)
  end.

(** [process.env[name]]. *)
Definition getenv (h : Environment) (name : string) : value :=
  match env h name with
  | Some s => VStr s
  | None => VUndefined
  end.

(** The [config] object of the arguments of a call. *)
Definition credentials (h : Environment) : value :=
  VObj [("sfBaseUrl", if truthy (getenv h "SF_BASE_URL") then getenv h "SF_BASE_URL"
                      else VStr "https://login.salesforce.com");
        ("apiUrl", getenv h "SF_API_URL");
        ("agentId", getenv h "SF_AGENT_ID");
        ("clientId", getenv h "SF_CLIENT_ID");
        ("clientSecret", getenv h "SF_CLIENT_SECRET");
        ("clientEmail", getenv h "SF_CLIENT_EMAIL")].

(** [await axios.post(url, data, { headers })], giving [response.data]. *)
Definition post (h : Environment) (url : string) (data : value)
  (headers : list (string * value)) : Run value :=
  act (Post url data headers) ;;
  match axios_post h url data headers with
  | Resolved body => done body
  | Rejected e => raise e
  end.

Definition authenticateWithAgentForce (w : World) (h : Environment) : Run value :=
  attempt
    (config <- loadConfig w ;;
     url <- lift (call_tool_url config) ;;
     clientId <- lift (get config "clientId") ;;
     apiKey <- lift (get config "apiKey") ;;
     body <- post h url
               (tool_call "agentforce_authenticate"
                          (VObj [("clientId", clientId); ("config", credentials h)]))
               [("x-api-key", apiKey)] ;;
     lift (get body "result"))
    (fun error =>
       console_error [VStr "Authentication error:"; VStr (message error)] ;;
       raise error).

Definition createAgentForceSession (w : World) (h : Environment) : Run value :=
  attempt
    (config <- loadConfig w ;;
     url <- lift (call_tool_url config) ;;
     clientId <- lift (get config "clientId") ;;
     apiKey <- lift (get config "apiKey") ;;
     body <- post h url
               (tool_call "agentforce_create_session"
                          (VObj [("clientId", clientId); ("config", credentials h)]))
               [("x-api-key", apiKey)] ;;
     lift (get body "result"))
    (fun error =>
       console_error [VStr "Session creation error:"; VStr (message error)] ;;
       raise error).

Definition sendMessageToAgentForce (w : World) (h : Environment) (msg : value) : Run value :=
  attempt
    (config <- loadConfig w ;;
     url <- lift (call_tool_url config) ;;
     clientId <- lift (get config "clientId") ;;
     apiKey <- lift (get config "apiKey") ;;
     body <- post h url
               (tool_call "agentforce_send_message"
                          (VObj [("clientId", clientId); ("config", credentials h);
                                 ("message", msg)]))
               [("x-api-key", apiKey)] ;;
     lift (get body "result"))
    (fun error =>
       console_error [VStr "Message sending error:"; VStr (message error)] ;;
       raise error).

Definition getAgentForceStatus (w : World) (h : Environment) : Run value :=
  attempt
    (config <- loadConfig w ;;
     url <- lift (call_tool_url config) ;;
     clientId <- lift (get config "clientId") ;;
     apiKey <- lift (get config "apiKey") ;;
     body <- post h url
               (tool_call "agentforce_get_status" (VObj [("clientId", clientId)]))
               [("x-api-key", apiKey)] ;;
     lift (get body "result"))
    (fun error =>
       console_error [VStr "Status check error:"; VStr (message error)] ;;
       raise error).

Definition resetAgentForceClient (w : World) (h : Environment) : Run value :=
  attempt
    (config <- loadConfig w ;;
     url <- lift (call_tool_url config) ;;
     clientId <- lift (get config "clientId") ;;
     apiKey <- lift (get config "apiKey") ;;
     body <- post h url
               (tool_call "agentforce_reset" (VObj [("clientId", clientId)]))
               [("x-api-key", apiKey)] ;;
     lift (get body "result"))
    (fun error =>
       console_error [VStr "Reset error:"; VStr (message error)] ;;
       raise error).

(** The [switch (name)] of the handler. *)
Definition dispatch (w : World) (h : Environment) (name args : value) : Run value :=
  if is_string name "agentforce_authenticate" then authenticateWithAgentForce w h
  else if is_string name "agentforce_create_session" then createAgentForceSession w h
  else if is_string name "agentforce_send_message" then
    msg <- lift (get args "message") ;;
    sendMessageToAgentForce w h msg
  else if is_string name "agentforce_get_status" then getAgentForceStatus w h
  else if is_string name "agentforce_reset" then resetAgentForceClient w h
  else
    s <- lift (interpolate name) ;;
    console_error [VStr ("Error: Unknown tool: " ++ s)] ;;
    exit 1.

(** The listener of the [end] event of standard input. *)
Definition processStdinRequest (w : World) (h : Environment) (inputData : string) : Run unit :=
  attempt
    ((if negb (truthy (VStr (trim inputData))) then
        console_error [VStr "Error: No input received"] ;;
        exit 1
      else done tt) ;;
     request <- match JSON_parse w inputData with
                | inl parsed => done parsed
                | inr e => raise e
                end ;;
     missing <- (if negb (truthy request) then done true
                 else tool <- lift (get request "tool") ;; done (negb (truthy tool))) ;;
     (if missing : bool then
        console_error [VStr "Error: Invalid request format"] ;;
        exit 1
      else done tt) ;;
     tool <- lift (get request "tool") ;;
     name <- lift (get tool "name") ;;
     args <- lift (get tool "args") ;;
     result <- dispatch w h name args ;;
     act (Console (StdoutWrite (JSON_stringify (VObj [("result", result)])))) ;;
     exit 0)
    (fun error =>
       console_error [VStr "Error processing request:"; VStr (message error)] ;;
       exit 1).

(** [main] without the [configure] argument. *)
Definition main (w : World) (h : Environment) (inputData : string) : Run unit :=
  processStdinRequest w h inputData.

End Revision.
End Earlier.

(** The responses a run writes on standard output. *)
Definition responses (t : list action) : list string :=
  flat_map (fun a => match a with Console (StdoutWrite text) => [text] | _ => [] end) t.

(** The calls of the earlier revision in a run. *)
Definition posts (t : list action) : list action :=
  filter (fun a => match a with Post _ _ _ => true | _ => false end) t.

(** The arguments the earlier revision sends with the tool [name]: the
    client id of the profile, the credentials of the environment for the
    tools that open or use a session, and the message for the one that sends
    it. *)
Definition earlier_args (h : Earlier.Environment) (clientId : value) (name : string)
  (msg : value) : value :=
  VObj (("clientId", clientId)
        :: if (name =? "agentforce_get_status") || (name =? "agentforce_reset") then []
           else ("config", Earlier.credentials h)
                :: if name =? "agentforce_send_message" then [("message", msg)] else []).

(** An environment with the variable SF_AGENT_ID only, and a backend that
    answers every call as [backend] says. *)
Definition bare (backend : axios_outcome) : Earlier.Environment :=
  {| Earlier.env := fun name => if name =? "SF_AGENT_ID" then Some "agent-7" else None;
     Earlier.axios_post := fun _ _ _ => backend |}.

(** The tool functions of the earlier revision follow one scheme: a [try]
    block that loads the profile, posts the call and reads the answer, and a
    [catch] block that reports the error and throws it again. *)
Definition earlier_scheme (w : World) (h : Earlier.Environment) (what name : string)
  (msg : value) : Run value :=
  attempt
    (and_then (Earlier.loadConfig w) (fun config =>
     and_then (lift (call_tool_url config)) (fun url =>
     and_then (lift (get config "clientId")) (fun clientId =>
     and_then (lift (get config "apiKey")) (fun apiKey =>
     and_then (Earlier.post h url (tool_call name (earlier_args h clientId name msg))
                            [("x-api-key", apiKey)]) (fun body =>
     lift (get body "result")))))))
    (fun error =>
       and_then (Earlier.console_error [VStr what; VStr (message error)]) (fun _ =>
       raise error)).

(** The tool function of an operation, in the earlier revision. *)
Definition earlier_operation (w : World) (h : Earlier.Environment) (op : operation)
  (msg : value) : Run value :=
  match op with
  | Authenticate => Earlier.authenticateWithAgentForce w h
  | CreateSession => Earlier.createAgentForceSession w h
  | SendMessage => Earlier.sendMessageToAgentForce w h msg
  | GetStatus => Earlier.getAgentForceStatus w h
  | ResetClient => Earlier.resetAgentForceClient w h
  end.

(** What a run of a tool function of the earlier revision can be: it calls
    nobody and throws, or it makes the one call and returns the [result] of
    a 2xx answer that has a body, and throws on any other answer. *)
Definition earlier_summary (w : World) (h : Earlier.Environment) (name : string) (msg : value)
  (r : Run value) : Prop :=
  responses (fst r) = []
  /\ ((posts (fst r) = [] /\ exists e, snd r = Thrown e)
      \/ exists config s,
           snd (Earlier.loadConfig w) = Returned config
           /\ nullish config = false
           /\ ToString (member config "serverUrl") = Some s
           /\ posts (fst r)
              = [Post (s ++ "/mcp/call-tool")
                      (tool_call name (earlier_args h (member config "clientId") name msg))
                      [("x-api-key", member config "apiKey")]]
           /\ match Earlier.axios_post h (s ++ "/mcp/call-tool")
                                       (tool_call name
                                          (earlier_args h (member config "clientId") name msg))
                                       [("x-api-key", member config "apiKey")] with
              | Rejected e => snd r = Thrown e
              | Resolved body =>
                  if nullish body then exists e, snd r = Thrown e
                  else snd r = Returned (member body "result")
              end).

(** The input reaches, in the earlier revision, the tool function of [op];
    [msg] is the message of the request when [op] sends one. *)
Definition earlier_dispatched (w : World) (inputData : string) (op : operation) (msg : value)
  : Prop :=
  exists request,
    trim inputData <> ""
    /\ JSON_parse w inputData = inl request
    /\ truthy (member request "tool") = true
    /\ member (member request "tool") "name" = VStr (op_name op)
    /\ (op = SendMessage ->
        nullish (member (member request "tool") "args") = false
        /\ msg = member (member (member request "tool") "args") "message").

(** ** Standard output and standard input *)

(** What a run puts on standard output, in order: the lines of [console.log]
    and the texts of [process.stdout.write] ([console.error] prints on the
    error stream). *)
Definition standard_output (t : list event) : list event :=
  filter (fun e => match e with
                   | ConsoleLog _ | StdoutWrite _ => true
                   | ConsoleError _ | AxiosPost _ _ _ => false
                   end) t.

(** The lines of [console.log], each as the arguments of the call. *)
Definition console_lines (t : list event) : list (list value) :=
  flat_map (fun e => match e with ConsoleLog args => [args] | _ => [] end) t.

(** Inside a UTF-8 sequence: the bytes read of it, the number of bytes still
    to come, and the bounds of the next one. *)
Record expectation : Type := mkExpectation {
  seen : string;
  needed : nat;
  lower : nat;
  upper : nat
}.

(** A byte met outside a sequence: the text it gives at once, and the
    sequence it opens, if any. *)
Definition lead (c : ascii) : string * option expectation :=
  let n := nat_of_ascii c in
  if Nat.ltb n 128 then (String c "", None)
  else if Nat.leb 194 n && Nat.leb n 223 then
    ("", Some (mkExpectation (String c "") 1 128 191))
  else if Nat.leb 224 n && Nat.leb n 239 then
    ("", Some (mkExpectation (String c "") 2 (if Nat.eqb n 224 then 160 else 128)
                             (if Nat.eqb n 237 then 159 else 191)))
  else if Nat.leb 240 n && Nat.leb n 244 then
    ("", Some (mkExpectation (String c "") 3 (if Nat.eqb n 240 then 144 else 128)
                             (if Nat.eqb n 244 then 143 else 191)))
  else (replacement_character, None).

(** The UTF-8 decoder of the Encoding Standard, errors being replaced: a
    well-formed sequence is kept as it is, and U+FFFD stands for a byte that
    can open no sequence, for a sequence that the next byte does not
    continue (that byte is then read again, outside a sequence), and for a
    sequence that the end of the bytes cuts short. *)
Fixpoint decode (state : option expectation) (bytes : string) : string :=
  match bytes with
  | EmptyString =>
      match state with
      | Some _ => replacement_character
      | None => ""
      end
  | String c rest =>
      match state with
      | None => let (text, next) := lead c in text ++ decode next rest
      | Some e =>
          let n := nat_of_ascii c in
          if Nat.leb (lower e) n && Nat.leb n (upper e) then
            if Nat.eqb (needed e) 1 then (seen e ++ String c "") ++ decode None rest
            else decode (Some (mkExpectation (seen e ++ String c "") (needed e - 1) 128 191)) rest
          else
            let (text, next) := lead c in replacement_character ++ text ++ decode next rest
      end
  end.

(** [chunk.toString()] of a Buffer. *)
Definition Buffer_toString (chunk : string) : string := decode None chunk.

(** The [data] listener of standard input, [inputData += chunk], starting
    from [let inputData = '']: no encoding is set on the stream, so each
    chunk is a Buffer, converted on its own when it is appended. *)
Definition accumulate (chunks : list string) : string :=
  fold_left (fun inputData chunk => inputData ++ Buffer_toString chunk) chunks "".

(** The two bytes of U+00A0, the no-break space, in two chunks. *)
Definition split_space : list string := [String "194" ""; String "160" ""].

(** A machine like [offline], with the answer of [JSON.parse] to the text of
    two U+FFFD. *)
Definition garbled : World :=
  {| JSON_parse := fun text =>
       if text =? replacement_character ++ replacement_character then
         inr (SyntaxError ("Unexpected token " ++ replacement_character ++ " in JSON at position 0"))
       else parse_table sample_table text;
     CONFIG_DIR := "/home/user/.agentforce-reliable-client";
     config_dir_exists := true;
     mkdir_config_dir := None;
     config_file_exists := false;
     read_config_file := inr (mkError "ENOENT: no such file or directory" "Error: ENOENT" NotAxios);
     startup_now := "1700000000000";
     uuidv4 := "2f1e4c6a-8b0d-4e5f-9a3b-7c1d2e3f4a5b";
     responseTime := "42";
     axios_post := unreachable;
     LOG_PATH := "/home/user/.agentforce-reliable-client/logs/client-2023-11-14T22-13-20-000Z.log";
     logs_dir_exists := true;
     mkdir_logs_dir := None |}.

(** ** Samples of the primitives *)

Example stringify_sample :
  JSON_stringify ok_reply = dq "{'result':{'content':[{'type':'text','text':'ok'}]}}".
Proof. reflexivity. Qed.

Example stringify_drops_undefined : JSON_stringify (VObj [("result", VUndefined)]) = "{}".
Proof. reflexivity. Qed.

Example stringify_escapes :
  JSON_stringify (VStr (String "010" (String dquote "\"))) = dq "'\n\'\\'".
Proof. reflexivity. Qed.

Example ToString_samples :
  ToString (VObj [("a", VNull)]) = Some "[object Object]"
  /\ ToString odd_name = None
  /\ ToString (VArr [VStr "a"; VNull; VNum "2"]) = Some "a,,2"
  /\ ToString (VArr [odd_name]) = None.
Proof. repeat split; reflexivity. Qed.

Example trim_samples :
  trim "  {} " = "{}"
  /\ trim (String "009" (String "010" (String "194" (String "160" " ")))) = ""
  /\ trim (String "226" (String "128" (String "168" "x y "))) = "x y"
  /\ trim "" = "".
Proof. repeat split; reflexivity. Qed.

Example join_samples :
  join " " [VStr "Response data:"; VObj [("error", VStr "no")]] = Some "Response data: [object Object]"
  /\ join " " [VStr "Response data:"; VNull] = Some "Response data: "
  /\ join " " [VStr "Response data:"; odd_name] = None.
Proof. repeat split; reflexivity. Qed.

Lemma ToString_array (items : list value) : ToString (VArr items) = join "," items.
Proof.
  cbn [ToString]. induction items as [ | x rest IH ]; [reflexivity | ].
  cbn [join]. rewrite <- IH. reflexivity.
Qed.

Example member_samples :
  member (VNum "5") "length" = VUndefined
  /\ member (VStr "hi") "length" = VNum "2"
  /\ member (VArr []) "0" = VUndefined
  /\ member (VStr "x") "agentId" = VUndefined.
Proof. repeat split; reflexivity. Qed.

(** ** Laws of the effect monad *)

Section Laws.
Context {A B : Type}.

Lemma bind_Ret (t : list event) (a : A) (f : A -> M B) :
  bind (t, Ret a) f = prefix t (f a).
Proof. unfold bind, prefix. destruct (f a); reflexivity. Qed.

Lemma bind_Throw (t : list event) (e : js_error) (f : A -> M B) :
  bind (t, Throw e) f = (t, Throw e).
Proof. reflexivity. Qed.

Lemma bind_Exit (t : list event) (c : Z) (f : A -> M B) :
  bind (t, Exit c) f = (t, Exit c).
Proof. reflexivity. Qed.

Lemma bind_prefix (t : list event) (m : M A) (f : A -> M B) :
  bind (prefix t m) f = prefix t (bind m f).
Proof.
  destruct m as [u [a|e|c]]; unfold prefix; cbn [fst snd].
  - rewrite !bind_Ret. unfold prefix. cbn [fst snd]. now rewrite app_assoc.
  - reflexivity.
  - reflexivity.
Qed.

Lemma try_Ret (t : list event) (a : A) (h : js_error -> M A) :
  try_catch (t, Ret a) h = (t, Ret a).
Proof. reflexivity. Qed.

Lemma try_Throw (t : list event) (e : js_error) (h : js_error -> M A) :
  try_catch (t, Throw e) h = prefix t (h e).
Proof. unfold try_catch, prefix. destruct (h e); reflexivity. Qed.

Lemma try_Exit (t : list event) (c : Z) (h : js_error -> M A) :
  try_catch (t, Exit c) h = (t, Exit c).
Proof. reflexivity. Qed.

Lemma try_prefix (t : list event) (m : M A) (h : js_error -> M A) :
  try_catch (prefix t m) h = prefix t (try_catch m h).
Proof.
  destruct m as [u [a|e|c]]; unfold prefix; cbn [fst snd].
  - reflexivity.
  - rewrite !try_Throw. unfold prefix. cbn [fst snd]. now rewrite app_assoc.
  - reflexivity.
Qed.

Lemma prefix_pair (t u : list event) (o : outcome A) :
  prefix t (u, o) = ((t ++ u)%list, o).
Proof. reflexivity. Qed.

Lemma prefix_nil (m : M A) : prefix [] m = m.
Proof. destruct m; reflexivity. Qed.

Lemma prefix_prefix (t u : list event) (m : M A) :
  prefix t (prefix u m) = prefix (t ++ u) m.
Proof. unfold prefix. cbn [fst snd]. now rewrite app_assoc. Qed.
End Laws.

Lemma prefix_nil_app {A : Type} (e : event) (m : M A) : prefix [e] m = (e :: fst m, snd m).
Proof. reflexivity. Qed.

Lemma bind_bind {A B C : Type} (m : M A) (f : A -> M B) (g : B -> M C) :
  bind (bind m f) g = bind m (fun x => bind (f x) g).
Proof.
  destruct m as [t [a|e|c]]; try reflexivity.
  rewrite !bind_Ret. apply bind_prefix.
Qed.

(** ** The console *)

Lemma console_log_text (w : World) (s : string) :
  console_log w [VStr s] = ([ConsoleLog [VStr s]], Ret tt).
Proof. unfold console_log, mirror. destruct (log_mirror w); reflexivity. Qed.

Lemma console_error_text (w : World) (s : string) :
  console_error w [VStr s] = ([ConsoleError [VStr s]], Ret tt).
Proof. unfold console_error, mirror. destruct (log_mirror w); reflexivity. Qed.

Lemma console_error_texts (w : World) (a b : string) :
  console_error w [VStr a; VStr b] = ([ConsoleError [VStr a; VStr b]], Ret tt).
Proof. unfold console_error, mirror. destruct (log_mirror w); reflexivity. Qed.

Lemma console_error_number (w : World) (a n : string) :
  console_error w [VStr a; VNum n] = ([ConsoleError [VStr a; VNum n]], Ret tt).
Proof. unfold console_error, mirror. destruct (log_mirror w); reflexivity. Qed.

Lemma console_error_value (w : World) (a : string) (v : value) :
  console_error w [VStr a; v]
  = if log_mirror w && negb (printable v)
    then ([], Throw (TypeError "Cannot convert object to primitive value"))
    else ([ConsoleError [VStr a; v]], Ret tt).
Proof.
  unfold console_error, mirror, printable. destruct (log_mirror w); [ | reflexivity].
  cbn [join ToString andb]. destruct v; try reflexivity;
    match goal with |- context [ToString ?x] => destruct (ToString x); reflexivity end.
Qed.

(** [report_failure] prints its lines, and throws when the mirror cannot
    join the body of the response. *)
Lemma report_failure_run (w : World) (what : string) (e : js_error) :
  report_failure w what e
  = (report_events w what e,
     if report_fails w e then Throw (TypeError "Cannot convert object to primitive value")
     else Ret tt).
Proof.
  unfold report_failure, report_events, report_fails.
  rewrite console_error_texts, bind_Ret, prefix_nil_app.
  destruct (detail e) as [ | [[status body] | ] [ | ]];
    rewrite ?andb_false_r, ?console_error_text, ?console_error_texts; try reflexivity;
    rewrite console_error_number, bind_Ret, console_error_value;
    destruct (log_mirror w && negb (printable body)); reflexivity.
Qed.

Lemma report_fails_TypeError (w : World) (msg : string) : report_fails w (TypeError msg) = false.
Proof. unfold report_fails. apply andb_false_r. Qed.

Lemma stdout_writes_report (w : World) (what : string) (e : js_error) :
  stdout_writes (report_events w what e) = [].
Proof.
  unfold report_events. destruct (detail e) as [ | [[status body] | ] [ | ]]; try reflexivity;
    destruct (log_mirror w && negb (printable body)); reflexivity.
Qed.

Lemma outbound_calls_report (w : World) (what : string) (e : js_error) :
  outbound_calls (report_events w what e) = [].
Proof.
  unfold report_events. destruct (detail e) as [ | [[status body] | ] [ | ]]; try reflexivity;
    destruct (log_mirror w && negb (printable body)); reflexivity.
Qed.

Lemma bind_if_Throw {A B : Type} (t : list event) (b : bool) (e : js_error) (a : A)
  (f : A -> M B) :
  bind (t, if b then Throw e else Ret a) f = if b then (t, Throw e) else prefix t (f a).
Proof. destruct b; [reflexivity | apply bind_Ret]. Qed.

Lemma prefix_if {A : Type} (t : list event) (b : bool) (m n : M A) :
  prefix t (if b then m else n) = if b then prefix t m else prefix t n.
Proof. destruct b; reflexivity. Qed.

(** Unfold the primitives down to traces and outcomes. *)
Ltac prims :=
  unfold post, call_tool_url, request_config in *;
  unfold get, interpolate in *;
  unfold stdout_write_json in *;
  unfold emit, ret, throw, exit in *.

(** Run the computation as far as its branches are decided. *)
Ltac norm_step :=
  match goal with
  | |- context [console_log ?w [VStr ?s]] => rewrite (console_log_text w s)
  | |- context [console_error ?w [VStr ?s]] => rewrite (console_error_text w s)
  | |- context [console_error ?w [VStr ?a; VStr ?b]] => rewrite (console_error_texts w a b)
  | |- context [report_failure ?w ?what ?e] => rewrite (report_failure_run w what e)
  | |- context [report_fails ?w (TypeError ?m)] => rewrite (report_fails_TypeError w m)
  | |- context [bind (?t, if ?b then Throw ?e else Ret ?a) ?f] => rewrite (bind_if_Throw t b e a f)
  | |- context [bind (bind ?m ?f) ?g] => rewrite (bind_bind m f g)
  | |- context [bind (?t, Ret ?a) ?f] => rewrite (bind_Ret t a f)
  | |- context [bind (?t, Throw ?e) ?f] => rewrite (bind_Throw t e f)
  | |- context [bind (?t, Exit ?c) ?f] => rewrite (bind_Exit t c f)
  | |- context [bind (prefix ?t ?m) ?f] => rewrite (bind_prefix t m f)
  | |- context [try_catch (?t, Ret ?a) ?h] => rewrite (try_Ret t a h)
  | |- context [try_catch (?t, Throw ?e) ?h] => rewrite (try_Throw t e h)
  | |- context [try_catch (?t, Exit ?c) ?h] => rewrite (try_Exit t c h)
  | |- context [try_catch (prefix ?t ?m) ?h] => rewrite (try_prefix t m h)
  | |- context [prefix ?t (?u, ?o)] => rewrite (prefix_pair t u o)
  | |- context [prefix [] ?m] => rewrite (prefix_nil m)
  | |- context [prefix ?t (prefix ?u ?m)] => rewrite (prefix_prefix t u m)
  end.

Ltac norm :=
  repeat (norm_step; cbv beta iota; cbn [app detail message stack TypeError]).

Ltac tidy := rewrite <- ?app_assoc, ?app_nil_r; cbn [app].

(** ** Reading traces *)

Lemma stdout_writes_app (t u : list event) :
  stdout_writes (t ++ u) = (stdout_writes t ++ stdout_writes u)%list.
Proof. apply flat_map_app. Qed.

Lemma outbound_calls_app (t u : list event) :
  outbound_calls (t ++ u) = (outbound_calls t ++ outbound_calls u)%list.
Proof. apply filter_app. Qed.

Lemma stdout_writes_log (a : list value) (t : list event) :
  stdout_writes (ConsoleLog a :: t) = stdout_writes t.
Proof. reflexivity. Qed.

Lemma stdout_writes_error (a : list value) (t : list event) :
  stdout_writes (ConsoleError a :: t) = stdout_writes t.
Proof. reflexivity. Qed.

Lemma stdout_writes_post (u : string) (d : value) (c : axios_config) (t : list event) :
  stdout_writes (AxiosPost u d c :: t) = stdout_writes t.
Proof. reflexivity. Qed.

Lemma stdout_writes_write (s : string) (t : list event) :
  stdout_writes (StdoutWrite s :: t) = s :: stdout_writes t.
Proof. reflexivity. Qed.

Lemma stdout_writes_nil : stdout_writes [] = [].
Proof. reflexivity. Qed.

Lemma outbound_calls_log (a : list value) (t : list event) :
  outbound_calls (ConsoleLog a :: t) = outbound_calls t.
Proof. reflexivity. Qed.

Lemma outbound_calls_error (a : list value) (t : list event) :
  outbound_calls (ConsoleError a :: t) = outbound_calls t.
Proof. reflexivity. Qed.

Lemma outbound_calls_post (u : string) (d : value) (c : axios_config) (t : list event) :
  outbound_calls (AxiosPost u d c :: t) = AxiosPost u d c :: outbound_calls t.
Proof. reflexivity. Qed.

Lemma outbound_calls_write (s : string) (t : list event) :
  outbound_calls (StdoutWrite s :: t) = outbound_calls t.
Proof. reflexivity. Qed.

Lemma outbound_calls_nil : outbound_calls [] = [].
Proof. reflexivity. Qed.

Lemma in_outbound_calls (u : string) (d : value) (c : axios_config) (t : list event) :
  In (AxiosPost u d c) t <-> In (AxiosPost u d c) (outbound_calls t).
Proof.
  unfold outbound_calls. rewrite filter_In. split; [intros H; split; [exact H | reflexivity] | tauto].
Qed.

Ltac traces :=
  unfold received;
  cbn [fst snd] in *;
  repeat (rewrite ?stdout_writes_app, ?outbound_calls_app, ?stdout_writes_log, ?stdout_writes_error,
            ?stdout_writes_post, ?stdout_writes_write, ?stdout_writes_nil, ?outbound_calls_log,
            ?outbound_calls_error, ?outbound_calls_post, ?outbound_calls_write, ?outbound_calls_nil,
            ?stdout_writes_report, ?outbound_calls_report);
  repeat match goal with
         | H : stdout_writes _ = [] |- _ => rewrite H
         | H : outbound_calls _ = [] |- _ => rewrite H
         end;
  cbn [app].

(** ** Quiet computations *)

Lemma quiet_bind {A B : Type} (m : M A) (f : A -> M B) :
  quiet m -> (forall a, quiet (f a)) -> quiet (bind m f).
Proof.
  unfold quiet. destruct m as [t [a|e|c]]; intros (Hw & Hc & Hx) Hf.
  - rewrite bind_Ret. destruct (Hf a) as (Hw' & Hc' & Hx').
    unfold prefix. cbn [fst snd] in *.
    rewrite stdout_writes_app, outbound_calls_app, Hw, Hw', Hc, Hc'. auto.
  - rewrite bind_Throw. cbn [fst snd] in *. repeat split; auto; discriminate.
  - exfalso. exact (Hx c eq_refl).
Qed.

Lemma quiet_try {A : Type} (m : M A) (h : js_error -> M A) :
  quiet m -> (forall e, quiet (h e)) -> quiet (try_catch m h).
Proof.
  unfold quiet. destruct m as [t [a|e|c]]; intros (Hw & Hc & Hx) Hh.
  - rewrite try_Ret. auto.
  - rewrite try_Throw. destruct (Hh e) as (Hw' & Hc' & Hx').
    unfold prefix. cbn [fst snd] in *.
    rewrite stdout_writes_app, outbound_calls_app, Hw, Hw', Hc, Hc'. auto.
  - exfalso. exact (Hx c eq_refl).
Qed.

Lemma quiet_pure {A : Type} (o : outcome A) : (forall c, o <> Exit c) -> quiet ([], o).
Proof. intros H. repeat split; auto. Qed.

Lemma quiet_ret {A : Type} (a : A) : quiet (ret a).
Proof. apply quiet_pure. discriminate. Qed.

Lemma quiet_throw {A : Type} (e : js_error) : quiet (@throw A e).
Proof. apply quiet_pure. discriminate. Qed.

Lemma quiet_log (w : World) (args : list value) : quiet (console_log w args).
Proof.
  unfold console_log, mirror.
  destruct (log_mirror w); [destruct (join " " args) | ]; repeat split; discriminate.
Qed.

Lemma quiet_error (w : World) (args : list value) : quiet (console_error w args).
Proof.
  unfold console_error, mirror.
  destruct (log_mirror w); [destruct (join " " args) | ]; repeat split; discriminate.
Qed.

Lemma quiet_get (v : value) (key : string) : quiet (get v key).
Proof. unfold get. destruct (nullish v); [apply quiet_throw | apply quiet_ret]. Qed.

Lemma quiet_interpolate (v : value) : quiet (interpolate v).
Proof. unfold interpolate. destruct (ToString v); [apply quiet_ret | apply quiet_throw]. Qed.

Ltac quiet_step :=
  first
    [ apply quiet_ret | apply quiet_throw | apply quiet_log | apply quiet_error
    | apply quiet_get | apply quiet_interpolate
    | apply quiet_bind; [ | intros ? ]
    | apply quiet_try; [ | intros ? ]
    | match goal with
      | |- quiet (if ?c then _ else _) => destruct c
      | |- quiet (match ?x with _ => _ end) => destruct x
      end ].

(** [loadConfig] only prints diagnostics, and returns or throws. *)
Lemma quiet_loadConfig (w : World) : quiet (loadConfig w).
Proof. unfold loadConfig, ensureConfigDir. repeat quiet_step. Qed.

(** ** Values *)

Lemma truthy_not_nullish (v : value) : truthy v = true -> nullish v = false.
Proof. destruct v; simpl; congruence. Qed.

Lemma truthy_member (v : value) (key : string) :
  truthy (member v key) = true -> truthy v = true.
Proof.
  destruct v as [ | | b | shown | s | items | props ];
    cbn [member truthy]; try discriminate; try reflexivity.
  destruct s as [|c s]; [ | reflexivity].
  destruct (key =? "length"); [discriminate | ].
  destruct (array_index key) as [[|n]|]; discriminate.
Qed.

Lemma nullish_member_true (v : value) (key : string) :
  nullish v = true -> nullish (member v key) = true.
Proof. destruct v; cbn [member nullish]; congruence. Qed.

Lemma nonblank_truthy (s : string) : s <> "" -> truthy (VStr s) = true.
Proof. intros H. cbn [truthy]. destruct (String.eqb_spec s ""); [contradiction | reflexivity]. Qed.

Lemma field_member (v : value) (key : string) (x : value) :
  field v key = Some x -> member v key = x.
Proof. destruct v; cbn [field member]; try discriminate. now intros ->. Qed.

Lemma field_object (v : value) (key : string) (x : value) :
  field v key = Some x -> truthy v = true.
Proof. destruct v; cbn [field]; try discriminate. reflexivity. Qed.

(** A value without the property reads undefined at [tool] and at [args]. *)
Lemma field_absent (v : value) (key : string) :
  key = "tool" \/ key = "args" -> field v key = None -> member v key = VUndefined.
Proof.
  intros K H. destruct v as [ | | b | shown | s | items | props ]; cbn [member field] in *;
    try reflexivity.
  - destruct K as [-> | ->]; reflexivity.
  - destruct K as [-> | ->]; reflexivity.
  - now rewrite H.
Qed.

(** ** White space *)

Lemma trimStart_space (c s : string) : In c white_space -> trimStart (c ++ s) = trimStart s.
Proof.
  unfold white_space. cbn [In]. intros H.
  repeat (destruct H as [<- | H]; [reflexivity | ]). contradiction.
Qed.

Lemma trim_whitespace_only (s : string) : whitespace_only s -> trim s = "".
Proof.
  intros H. unfold trim. induction H as [ | c s Hc _ IH ].
  - reflexivity.
  - rewrite (trimStart_space c s Hc). exact IH.
Qed.

(** ** The handler, path by path *)

Lemma handler_blank (w : World) (inputData : string) :
  trim inputData = "" ->
  processStdinRequest w inputData = ([ConsoleError [VStr "Error: No input received"]], Exit 1).
Proof.
  intros H. unfold processStdinRequest. rewrite H. cbn [truthy String.eqb negb].
  prims. norm. reflexivity.
Qed.

Lemma handler_parse_error (w : World) (inputData : string) (e : js_error) :
  trim inputData <> "" ->
  JSON_parse w inputData = inr e ->
  processStdinRequest w inputData =
    ([received inputData;
      ConsoleError [VStr "Error parsing input JSON:"; VStr (message e)];
      StdoutWrite (JSON_stringify (error_envelope ("Error: Failed to parse input - " ++ message e)
                                                  "parse_error" (message e)))],
     Exit 1).
Proof.
  intros H P. unfold processStdinRequest. rewrite (nonblank_truthy _ H), P. cbn [negb].
  prims. norm. reflexivity.
Qed.

Lemma handler_missing_tool (w : World) (inputData : string) (request : value) :
  trim inputData <> "" ->
  JSON_parse w inputData = inl request ->
  truthy request && truthy (member request "tool") = false ->
  processStdinRequest w inputData =
    ([received inputData;
      ConsoleError [VStr "Error: Invalid request format - missing tool field"];
      StdoutWrite (JSON_stringify (error_envelope "Error: Invalid request format - missing tool field"
                                                  "invalid_request" "Missing tool field"))],
     Exit 1).
Proof.
  intros H P V. unfold processStdinRequest. rewrite (nonblank_truthy _ H), P. cbn [negb].
  prims. norm.
  destruct (truthy request) eqn:R; cbn [andb negb] in *.
  - rewrite (truthy_not_nullish _ R). norm. rewrite V. cbn [negb]. norm. reflexivity.
  - norm. reflexivity.
Qed.

(** Past the check on [tool]: the fault of printing the name, the check on
    [args], and the three ways the dispatch can end. *)
Lemma handler_valid (w : World) (inputData : string) (request : value) :
  trim inputData <> "" ->
  JSON_parse w inputData = inl request ->
  truthy (member request "tool") = true ->
  let tool := member request "tool" in
  processStdinRequest w inputData =
    match ToString (member tool "name") with
    | None =>
        let e := TypeError "Cannot convert object to primitive value" in
        ([received inputData;
          ConsoleError [VStr "Error processing request:"; VStr (message e)];
          ConsoleError [VStr "Stack trace:"; VStr (stack e)];
          StdoutWrite (JSON_stringify (error_envelope ("Error: " ++ message e) "processing_error"
                                                      (message e)))],
         Exit 1)
    | Some s =>
        if truthy (member tool "args") then
          match dispatch w (member tool "name") (member tool "args") with
          | (t, Ret r) =>
              (received inputData :: ConsoleLog [VStr ("Tool called: " ++ s)] :: t
               ++ [ConsoleLog [VStr "Sending response"];
                   StdoutWrite (JSON_stringify (VObj [("result", r)]))],
               Exit 0)
          | (t, Throw e) =>
              (received inputData :: ConsoleLog [VStr ("Tool called: " ++ s)] :: t
               ++ [ConsoleError [VStr "Error processing request:"; VStr (message e)];
                   ConsoleError [VStr "Stack trace:"; VStr (stack e)];
                   StdoutWrite (JSON_stringify (error_envelope ("Error: " ++ message e)
                                                               "processing_error" (message e)))],
               Exit 1)
          | (t, Exit c) =>
              (received inputData :: ConsoleLog [VStr ("Tool called: " ++ s)] :: t, Exit c)
          end
        else
          ([received inputData;
            ConsoleLog [VStr ("Tool called: " ++ s)];
            ConsoleError [VStr "Error: Invalid request format - missing args field"];
            StdoutWrite (JSON_stringify (error_envelope
                                           "Error: Invalid request format - missing args field"
                                           "invalid_request" "Missing args field"))],
           Exit 1)
    end.
Proof.
  intros H P V tool. subst tool.
  assert (R : truthy request = true) by exact (truthy_member _ _ V).
  unfold processStdinRequest. rewrite (nonblank_truthy _ H), P. cbn [negb].
  prims. norm. rewrite R. cbn [negb]. rewrite (truthy_not_nullish _ R). norm.
  rewrite V. cbn [negb]. norm. rewrite (truthy_not_nullish _ V). norm.
  destruct (ToString (member (member request "tool") "name")) as [s|]; norm.
  - destruct (truthy (member (member request "tool") "args")); cbn [negb]; norm.
    + destruct (dispatch w _ _) as [t [r|e|c]]; norm; tidy; reflexivity.
    + reflexivity.
  - reflexivity.
Qed.

(** [setupLogging] prints one line and returns. *)
Lemma setupLogging_returns (w : World) :
  exists t b, setupLogging w = (t, Ret b) /\ stdout_writes t = [] /\ outbound_calls t = [].
Proof.
  unfold setupLogging, log_mirror.
  destruct (logs_dir_exists w); cbn [negb]; [ | destruct (mkdir_logs_dir w)];
    prims; norm; do 2 eexists; repeat split.
Qed.

(** The process is its handler, after the line of [setupLogging]. *)
Lemma main_is_handler (w : World) (inputData : string) :
  stdout_writes (fst (main w inputData)) = stdout_writes (fst (processStdinRequest w inputData))
  /\ outbound_calls (fst (main w inputData))
     = outbound_calls (fst (processStdinRequest w inputData))
  /\ snd (main w inputData) = snd (processStdinRequest w inputData).
Proof.
  unfold main. destruct (setupLogging_returns w) as (t & b & -> & W & O).
  rewrite bind_Ret. unfold prefix. cbn [fst snd].
  rewrite stdout_writes_app, outbound_calls_app, W, O. repeat split.
Qed.

Lemma main_rejected (w : World) (inputData text code msg : string) :
  rejected (processStdinRequest w inputData) text code msg ->
  rejected (main w inputData) text code msg.
Proof.
  unfold rejected. destruct (main_is_handler w inputData) as (-> & -> & ->). auto.
Qed.

(** ** The dispatch *)

Lemma dispatch_known (w : World) (op : operation) (args : value) :
  dispatch w (VStr (op_name op)) args = run_operation w op args.
Proof. destruct op; reflexivity. Qed.

Lemma is_string_known (name : value) (op : operation) :
  is_string name (op_name op) = true -> name = VStr (op_name op).
Proof.
  destruct name; cbn [is_string]; try discriminate.
  intros H. apply String.eqb_eq in H. now subst.
Qed.

Lemma dispatch_unknown (w : World) (name args : value) (s : string) :
  (forall op, name <> VStr (op_name op)) ->
  ToString name = Some s ->
  dispatch w name args =
    ([ConsoleError [VStr ("Error: Unknown tool: " ++ s)];
      StdoutWrite (JSON_stringify (error_envelope ("Error: Unknown tool: " ++ s) "unknown_tool"
                                                  ("Unknown tool: " ++ s)))],
     Exit 1).
Proof.
  intros U T. unfold dispatch.
  destruct (is_string name "agentforce_authenticate") eqn:E1;
    [exfalso; exact (U Authenticate (is_string_known name Authenticate E1)) | ].
  destruct (is_string name "agentforce_create_session") eqn:E2;
    [exfalso; exact (U CreateSession (is_string_known name CreateSession E2)) | ].
  destruct (is_string name "agentforce_send_message") eqn:E3;
    [exfalso; exact (U SendMessage (is_string_known name SendMessage E3)) | ].
  destruct (is_string name "agentforce_get_status") eqn:E4;
    [exfalso; exact (U GetStatus (is_string_known name GetStatus E4)) | ].
  destruct (is_string name "agentforce_reset") eqn:E5;
    [exfalso; exact (U ResetClient (is_string_known name ResetClient E5)) | ].
  prims. rewrite T. norm. reflexivity.
Qed.

(** ** The tool functions *)

Lemma quiet_report_failure (w : World) (what : string) (e : js_error) :
  quiet (report_failure w what e).
Proof.
  rewrite report_failure_run. unfold quiet. cbn [fst snd].
  rewrite stdout_writes_report, outbound_calls_report.
  destruct (report_fails w e); repeat split; discriminate.
Qed.

(** Each tool function is its diagnostics followed by the scheme. *)
Lemma run_operation_scheme (w : World) (op : operation) (args : value) :
  run_operation w op args
  = diagnostics w op args
      (scheme w (op_name op) (op_label op ++ " error:") (op_label op) (op_error_code op)
              (success_line w op) (op_timeout op) (epilogue w op) args).
Proof. destruct op; reflexivity. Qed.

Ltac stuck :=
  match goal with
  | |- context [bind (if nullish ?v then _ else _) _] => destruct (nullish v) eqn:?
  | |- context [bind (match ToString ?v with _ => _ end) _] => destruct (ToString v) eqn:?
  | |- context [bind (loadConfig ?w) _] =>
      let tc := fresh "tc" in
      let L := fresh "L" in
      let X := fresh "X" in
      pose proof (quiet_loadConfig w) as L;
      destruct (loadConfig w) as [tc [?config|?e|?c]] eqn:?;
      destruct L as (? & ? & X);
      [ | | exfalso; exact (X _ eq_refl) ]
  | |- context [bind (match axios_post ?w ?u ?d ?c with _ => _ end) _] =>
      destruct (axios_post w u d c) eqn:?
  | |- context [if report_fails ?w ?e then _ else _] => destruct (report_fails w e) eqn:?
  | |- context [try_catch (if nullish ?v then _ else _) _] => destruct (nullish v) eqn:?
  | |- context [if nullish ?v then _ else _] => destruct (nullish v) eqn:?
  end.

Ltac propagate :=
  repeat match goal with
         | H : nullish ?v = true |- context [member ?v ?k] =>
             lazymatch goal with
             | _ : nullish (member v k) = true |- _ => fail
             | _ => pose proof (nullish_member_true v k H)
             end
         end.

(** The lines printed before the [try] block: one of them throws, or they
    are printed and the rest follows. *)
Lemma diagnostics_cases (w : World) (op : operation) (args : value) (k : M value) :
  (exists t e,
     diagnostics w op args k = (t, Throw e) /\ stdout_writes t = [] /\ outbound_calls t = [])
  \/ (exists t,
        diagnostics w op args k = prefix t k /\ stdout_writes t = [] /\ outbound_calls t = []).
Proof.
  unfold diagnostics.
  destruct op; prims; norm; repeat (stuck; norm);
    first [ left; do 2 eexists; split; [reflexivity | split; reflexivity]
          | right; eexists; split; [reflexivity | split; reflexivity] ].
Qed.

Ltac thrown := do 2 eexists; split; [reflexivity | split; reflexivity].

(** They throw when [message], respectively [config], is missing or null. *)
Lemma diagnostics_fault (w : World) (op : operation) (args : value) (k : M value) :
  (op = SendMessage /\ nullish (member args "message") = true)
  \/ (op = Authenticate /\ nullish (member args "config") = true) ->
  exists t e,
    diagnostics w op args k = (t, Throw e) /\ stdout_writes t = [] /\ outbound_calls t = [].
Proof.
  unfold diagnostics.
  intros [(-> & N) | (-> & N)]; prims; norm;
    (destruct (nullish args); norm; [thrown | ]);
    (destruct (ToString (member args "clientId")); norm; [ | thrown]);
    rewrite N; norm; thrown.
Qed.

(** What follows the line of success returns the [result] of a body that
    delivers, and throws on any other. *)
Lemma epilogue_cases (w : World) (op : operation) (body : value) :
  exists t o,
    epilogue w op body = (t, o)
    /\ stdout_writes t = [] /\ outbound_calls t = []
    /\ if delivers op body then o = Ret (member body "result")
       else exists msg, o = Throw (TypeError msg).
Proof.
  unfold epilogue, delivers, responseText.
  destruct op; prims; norm; repeat (stuck; norm); propagate;
    repeat match goal with
           | H : nullish _ = _ |- _ => rewrite H
           | H : ToString _ = _ |- _ => rewrite H
           end;
    cbn [negb andb]; do 2 eexists; (split; [reflexivity | ]); repeat split; eauto.
Qed.

Section Scheme.
Variable w : World.
Variables name what label code success : string.
Variable ms : Z.
Variable epilogue : value -> M value.
Variable good : value -> bool.
Variable args : value.

Hypothesis epilogue_good :
  forall body,
    exists t o,
      epilogue body = (t, o)
      /\ stdout_writes t = [] /\ outbound_calls t = []
      /\ if good body then o = Ret (member body "result")
         else exists msg, o = Throw (TypeError msg).

(** The scheme writes no response; either it calls nobody and throws or
    returns its failure result, or it makes the one call and returns what
    the answer decides. *)
Lemma scheme_cases :
  run_summary w name label code ms good args
    (scheme w name what label code success ms epilogue args).
Proof.
  unfold scheme. prims. norm. repeat (stuck; norm).
  all: try match goal with
           | |- context [epilogue ?body] =>
               destruct (epilogue_good body) as (?t & ?o & -> & ? & ? & ?G);
               destruct (good body) eqn:?;
               [ subst | destruct G as (?msg & ->) ]; norm
           end.
  all: tidy; unfold run_summary, failed; traces; (split; [reflexivity | ]).
  all: first
         [ left; split; [reflexivity | eauto]; fail
         | right; do 2 eexists;
           split; [ match goal with H : loadConfig _ = _ |- _ => rewrite H end; reflexivity | ];
           split; [ eassumption | ];
           split; [ reflexivity | ];
           unfold call_options;
           match goal with H : axios_post _ _ _ _ = _ |- _ => rewrite H end;
           repeat match goal with
                  | H : good _ = _ |- _ => rewrite H
                  | H : report_fails _ _ = _ |- _ => rewrite H
                  end;
           eauto ].
Qed.
End Scheme.

Lemma run_summary_prefix (w : World) (name label code : string) (ms : Z) (good : value -> bool)
  (args : value) (t : list event) (r : M value) :
  stdout_writes t = [] ->
  outbound_calls t = [] ->
  run_summary w name label code ms good args r ->
  run_summary w name label code ms good args (prefix t r).
Proof.
  unfold run_summary, prefix. cbn [fst snd]. intros W O H.
  rewrite stdout_writes_app, outbound_calls_app, W, O. exact H.
Qed.

(** Every run of a tool function: it writes no response; either it calls
    nobody and throws or returns its failure result, or it makes the one call
    and returns what the answer decides. *)
Lemma operation_cases (w : World) (op : operation) (args : value) :
  summary w op args (run_operation w op args).
Proof.
  unfold summary. rewrite run_operation_scheme.
  destruct (diagnostics_cases w op args
              (scheme w (op_name op) (op_label op ++ " error:") (op_label op) (op_error_code op)
                      (success_line w op) (op_timeout op) (epilogue w op) args))
    as [(t & e & -> & W & O) | (t & -> & W & O)].
  - unfold run_summary. cbn [fst snd]. split; [exact W | ]. left. split; [exact O | ]. eauto.
  - apply run_summary_prefix; [exact W | exact O | ].
    apply scheme_cases. apply epilogue_cases.
Qed.

(** ** Consequences for the handler *)

Lemma operation_writes_nothing (w : World) (op : operation) (args : value) :
  stdout_writes (fst (run_operation w op args)) = [].
Proof. exact (proj1 (operation_cases w op args)). Qed.

Lemma operation_stays (w : World) (op : operation) (args : value) (c : Z) :
  snd (run_operation w op args) <> Exit c.
Proof.
  destruct (operation_cases w op args) as (_ & [(_ & [(e & H) | (e & H)]) | (config & s & _ & _ & _ & H)]);
    try (rewrite H; discriminate).
  destruct (axios_post w _ _ _) as [body | e].
  - destruct (delivers op body); [ | destruct H as (e & H)]; rewrite H; discriminate.
  - destruct (report_fails w e); [destruct H as (e' & H) | ]; rewrite H; discriminate.
Qed.

(** A request that names a known operation and carries arguments: the
    handler ends as the tool function does. *)
Lemma handler_known (w : World) (inputData : string) (request : value) (op : operation)
  (args : value) :
  trim inputData <> "" ->
  JSON_parse w inputData = inl request ->
  envelope request (VStr (op_name op)) args ->
  processStdinRequest w inputData =
    match run_operation w op args with
    | (t, Ret r) =>
        (received inputData :: ConsoleLog [VStr ("Tool called: " ++ op_name op)] :: t
         ++ [ConsoleLog [VStr "Sending response"];
             StdoutWrite (JSON_stringify (VObj [("result", r)]))],
         Exit 0)
    | (t, Throw e) =>
        (received inputData :: ConsoleLog [VStr ("Tool called: " ++ op_name op)] :: t
         ++ [ConsoleError [VStr "Error processing request:"; VStr (message e)];
             ConsoleError [VStr "Stack trace:"; VStr (stack e)];
             StdoutWrite (JSON_stringify (error_envelope ("Error: " ++ message e)
                                                         "processing_error" (message e)))],
         Exit 1)
    | (t, Exit c) =>
        (received inputData :: ConsoleLog [VStr ("Tool called: " ++ op_name op)] :: t, Exit c)
    end.
Proof.
  intros H P (V & N & A & T).
  rewrite (handler_valid w inputData request H P V). cbv zeta.
  rewrite N, A, T. cbn [ToString]. now rewrite dispatch_known.
Qed.

Lemma handler_known_calls (w : World) (inputData : string) (request : value) (op : operation)
  (args : value) :
  trim inputData <> "" ->
  JSON_parse w inputData = inl request ->
  envelope request (VStr (op_name op)) args ->
  outbound_calls (fst (processStdinRequest w inputData))
  = outbound_calls (fst (run_operation w op args)).
Proof.
  intros H P E. rewrite (handler_known w inputData request op args H P E).
  destruct (run_operation w op args) as [t [r|e|c]]; traces; now rewrite ?app_nil_r.
Qed.

Lemma handler_returned (w : World) (inputData : string) (request : value) (op : operation)
  (args result : value) :
  trim inputData <> "" ->
  JSON_parse w inputData = inl request ->
  envelope request (VStr (op_name op)) args ->
  snd (run_operation w op args) = Ret result ->
  stdout_writes (fst (processStdinRequest w inputData)) = [JSON_stringify (VObj [("result", result)])]
  /\ snd (processStdinRequest w inputData) = Exit 0.
Proof.
  intros H P E R. rewrite (handler_known w inputData request op args H P E).
  pose proof (operation_writes_nothing w op args) as W.
  destruct (run_operation w op args) as [t o]. cbn [fst snd] in *. subst o.
  traces. split; reflexivity.
Qed.

Lemma handler_thrown (w : World) (inputData : string) (request : value) (op : operation)
  (args : value) (e : js_error) :
  trim inputData <> "" ->
  JSON_parse w inputData = inl request ->
  envelope request (VStr (op_name op)) args ->
  snd (run_operation w op args) = Throw e ->
  outbound_calls (fst (run_operation w op args)) = [] ->
  rejected (processStdinRequest w inputData) ("Error: " ++ message e) "processing_error" (message e).
Proof.
  intros H P E R O. unfold rejected.
  rewrite (handler_known_calls w inputData request op args H P E), O.
  rewrite (handler_known w inputData request op args H P E).
  pose proof (operation_writes_nothing w op args) as W.
  destruct (run_operation w op args) as [t o]. cbn [fst snd] in *. subst o.
  traces. repeat split; reflexivity.
Qed.

Lemma main_returned (w : World) (inputData : string) (request : value) (op : operation)
  (args result : value) :
  trim inputData <> "" ->
  JSON_parse w inputData = inl request ->
  envelope request (VStr (op_name op)) args ->
  snd (run_operation w op args) = Ret result ->
  stdout_writes (fst (main w inputData)) = [JSON_stringify (VObj [("result", result)])]
  /\ snd (main w inputData) = Exit 0.
Proof.
  intros H P E R. destruct (main_is_handler w inputData) as (-> & _ & ->).
  exact (handler_returned w inputData request op args result H P E R).
Qed.

(** A fault of the diagnostics printed before the [try] block leaves the tool
    function, and no call has been issued. *)
Lemma operation_fault (w : World) (op : operation) (args : value) :
  (op = SendMessage /\ nullish (member args "message") = true)
  \/ (op = Authenticate /\ nullish (member args "config") = true) ->
  exists e,
    snd (run_operation w op args) = Throw e
    /\ outbound_calls (fst (run_operation w op args)) = [].
Proof.
  intros H. rewrite run_operation_scheme.
  match goal with
  | |- context [diagnostics w op args ?k] =>
      destruct (diagnostics_fault w op args k H) as (t & e & -> & _ & O)
  end.
  exists e. split; [reflexivity | exact O].
Qed.

(** The one call of a run, and what the run returns on each answer. *)
Lemma operation_call (w : World) (op : operation) (args : value) (u : string) (d : value)
  (c : axios_config) :
  In (AxiosPost u d c) (fst (run_operation w op args)) ->
  exists config s,
    snd (loadConfig w) = Ret config
    /\ ToString (member config "serverUrl") = Some s
    /\ AxiosPost u d c
       = AxiosPost (s ++ "/mcp/call-tool") (tool_call (op_name op) args)
                   (call_options w (op_timeout op) config)
    /\ outbound_calls (fst (run_operation w op args)) = [AxiosPost u d c]
    /\ match axios_post w u d c with
       | Rejected e =>
           if report_fails w e then exists e', snd (run_operation w op args) = Throw e'
           else snd (run_operation w op args)
                = Ret (failure_result (op_label op) (op_error_code op) e)
       | Resolved body =>
           if delivers op body then snd (run_operation w op args) = Ret (member body "result")
           else failed (op_label op) (op_error_code op) (snd (run_operation w op args))
       end.
Proof.
  intros I. apply in_outbound_calls in I.
  destruct (operation_cases w op args) as (_ & [(H & _) | (config & s & L & S & C & R)]).
  - rewrite H in I. contradiction.
  - rewrite C in I. destruct I as [I | []].
    exists config, s. rewrite C, <- I. inversion I; subst u d c. auto.
Qed.

(** ** Every run ends *)

Lemma name_cases (name : value) :
  (exists op, name = VStr (op_name op)) \/ (forall op, name <> VStr (op_name op)).
Proof.
  destruct name as [ | | b | shown | s | items | props ];
    try (right; intros op; destruct op; discriminate).
  destruct (String.eqb_spec s (op_name Authenticate)) as [-> | N1]; [left; eexists; reflexivity | ].
  destruct (String.eqb_spec s (op_name CreateSession)) as [-> | N2]; [left; eexists; reflexivity | ].
  destruct (String.eqb_spec s (op_name SendMessage)) as [-> | N3]; [left; eexists; reflexivity | ].
  destruct (String.eqb_spec s (op_name GetStatus)) as [-> | N4]; [left; eexists; reflexivity | ].
  destruct (String.eqb_spec s (op_name ResetClient)) as [-> | N5]; [left; eexists; reflexivity | ].
  right. intros op E. injection E as ->. destruct op; contradiction.
Qed.

(** Whatever the input and the world, the handler leaves the process with
    exit code 0 or 1, having written at most one response and issued at most
    one call. *)
Lemma handler_always_exits (w : World) (inputData : string) :
  exists c,
    snd (processStdinRequest w inputData) = Exit c
    /\ (c = 0 \/ c = 1)%Z
    /\ List.length (stdout_writes (fst (processStdinRequest w inputData))) <= 1
    /\ List.length (outbound_calls (fst (processStdinRequest w inputData))) <= 1.
Proof.
  destruct (String.eqb_spec (trim inputData) "") as [B | B].
  { rewrite (handler_blank w inputData B). exists 1%Z. cbn. auto. }
  destruct (JSON_parse w inputData) as [request | e] eqn:P.
  2: { rewrite (handler_parse_error w inputData e B P). exists 1%Z. cbn. auto. }
  destruct (truthy request && truthy (member request "tool")) eqn:V.
  2: { rewrite (handler_missing_tool w inputData request B P V). exists 1%Z. cbn. auto. }
  apply andb_prop in V. destruct V as [_ V].
  rewrite (handler_valid w inputData request B P V). cbv zeta.
  destruct (ToString (member (member request "tool") "name")) as [s|] eqn:S.
  2: { exists 1%Z. cbn. auto. }
  destruct (truthy (member (member request "tool") "args")).
  2: { exists 1%Z. cbn. auto. }
  destruct (name_cases (member (member request "tool") "name")) as [(op & ->) | U].
  - rewrite dispatch_known.
    pose proof (operation_writes_nothing w op (member (member request "tool") "args")) as W.
    pose proof (operation_stays w op (member (member request "tool") "args")) as X.
    assert (O : List.length (outbound_calls
                               (fst (run_operation w op (member (member request "tool") "args"))))
                <= 1).
    { destruct (operation_cases w op (member (member request "tool") "args"))
        as (_ & [(O & _) | (config & u & _ & _ & O & _)]); rewrite O; cbn; auto. }
    destruct (run_operation w op _) as [t [r|e|c]]; cbn [fst snd] in *.
    + exists 0%Z. traces. rewrite app_nil_r. cbn. auto.
    + exists 1%Z. traces. rewrite app_nil_r. cbn. auto.
    + exfalso. exact (X c eq_refl).
  - rewrite (dispatch_unknown w _ _ s U S). exists 1%Z. cbn. auto.
Qed.

(** ** Standard output and standard input *)

Lemma standard_output_app (t t' : list event) :
  standard_output (t ++ t') = (standard_output t ++ standard_output t')%list.
Proof. apply filter_app. Qed.

Lemma console_lines_app (t t' : list event) :
  console_lines (t ++ t') = (console_lines t ++ console_lines t')%list.
Proof. apply flat_map_app. Qed.

(** Without a [process.stdout.write], standard output is the lines of
    [console.log]. *)
Lemma standard_output_lines (t : list event) :
  stdout_writes t = [] -> standard_output t = map ConsoleLog (console_lines t).
Proof.
  unfold standard_output, console_lines, stdout_writes.
  induction t as [ | e t IH]; [reflexivity | ].
  destruct e; cbn; intros H; try discriminate; rewrite (IH H); reflexivity.
Qed.

Lemma response_is_last (t : list event) (text : string) :
  stdout_writes t = [] ->
  standard_output (t ++ [StdoutWrite text])
  = (map ConsoleLog (console_lines (t ++ [StdoutWrite text])) ++ [StdoutWrite text])%list.
Proof.
  intros H. rewrite standard_output_app, console_lines_app, (standard_output_lines t H).
  cbn. now rewrite app_nil_r.
Qed.

(** What [setupLogging] puts on standard output. *)
Lemma setupLogging_output (w : World) :
  standard_output (fst (setupLogging w))
  = if log_mirror w then [ConsoleLog [VStr ("Logging initialized to " ++ LOG_PATH w)]] else [].
Proof.
  unfold setupLogging, log_mirror.
  destruct (logs_dir_exists w); cbn [negb orb]; [ | destruct (mkdir_logs_dir w)];
    prims; norm; reflexivity.
Qed.

(** The process after [setupLogging]. *)
Lemma main_trace (w : World) (inputData : string) :
  main w inputData = prefix (fst (setupLogging w)) (processStdinRequest w inputData).
Proof.
  unfold main. destruct (setupLogging_returns w) as (t & b & -> & _).
  rewrite bind_Ret. reflexivity.
Qed.

(** Standard output of a run whose tool function returned: the lines of
    [console.log], then the response. *)
Lemma main_returned_output (w : World) (inputData : string) (request : value) (op : operation)
  (args result : value) :
  trim inputData <> "" ->
  JSON_parse w inputData = inl request ->
  envelope request (VStr (op_name op)) args ->
  snd (run_operation w op args) = Ret result ->
  standard_output (fst (main w inputData))
  = (map ConsoleLog (console_lines (fst (main w inputData)))
     ++ [StdoutWrite (JSON_stringify (VObj [("result", result)]))])%list.
Proof.
  intros H P E R. rewrite main_trace.
  destruct (setupLogging_returns w) as (t0 & b & -> & W0 & _).
  rewrite (handler_known w inputData request op args H P E).
  pose proof (operation_writes_nothing w op args) as W.
  destruct (run_operation w op args) as [t o]. cbn [fst snd] in *. subst o.
  unfold prefix. cbn [fst snd].
  replace (t0 ++ received inputData :: ConsoleLog [VStr ("Tool called: " ++ op_name op)] :: t
           ++ [ConsoleLog [VStr "Sending response"];
               StdoutWrite (JSON_stringify (VObj [("result", result)]))])%list
    with ((t0 ++ received inputData :: ConsoleLog [VStr ("Tool called: " ++ op_name op)] :: t
           ++ [ConsoleLog [VStr "Sending response"]])
          ++ [StdoutWrite (JSON_stringify (VObj [("result", result)]))])%list.
  - apply response_is_last. traces. now rewrite ?app_nil_r.
  - rewrite <- !app_assoc. cbn. rewrite <- app_assoc. reflexivity.
Qed.

(** A white-space character is well-formed UTF-8: the decoder keeps it. *)
Lemma decode_space (c s : string) : In c white_space -> decode None (c ++ s) = c ++ decode None s.
Proof.
  unfold white_space. cbn [In]. intros H.
  repeat (destruct H as [<- | H]; [reflexivity | ]). contradiction.
Qed.

Lemma Buffer_toString_blank (s : string) : whitespace_only s -> Buffer_toString s = s.
Proof.
  unfold Buffer_toString. induction 1 as [ | c s Hc _ IH]; [reflexivity | ].
  rewrite (decode_space c s Hc), IH. reflexivity.
Qed.

Lemma append_associative (a b c : string) : (a ++ b) ++ c = a ++ (b ++ c).
Proof. induction a as [ | x a IH]; cbn; [reflexivity | now rewrite IH]. Qed.

Lemma whitespace_only_append (a b : string) :
  whitespace_only a -> whitespace_only b -> whitespace_only (a ++ b).
Proof.
  intros A B. induction A as [ | c s Hc _ IH]; [exact B | ].
  rewrite append_associative. exact (blank_space c (s ++ b) Hc IH).
Qed.

(** Chunks that are white space only accumulate to white space only. *)
Lemma accumulate_blank (chunks : list string) :
  Forall whitespace_only chunks -> whitespace_only (accumulate chunks).
Proof.
  unfold accumulate. generalize blank_empty. generalize "" as inputData.
  induction chunks as [ | chunk chunks IH]; intros inputData B F; [exact B | ].
  inversion F as [ | ? ? C F']; subst. cbn [fold_left]. apply IH; [ | exact F'].
  rewrite (Buffer_toString_blank chunk C). exact (whitespace_only_append _ _ B C).
Qed.

(** ** The claims *)

(** C1, as amended.  For a request that passes the handler's checks and names
    a known operation, once the tool function has returned a result the
    handler writes exactly one output, [{ result: <that result> }], and the
    process leaves with exit code 0, whether or not the result carries an
    [error] property. *)
Theorem response_wraps_result (w : World) (inputData : string) (request : value)
  (op : operation) (args : value) (t : list event) (result : value) :
  trim inputData <> "" ->
  JSON_parse w inputData = inl request ->
  envelope request (VStr (op_name op)) args ->
  run_operation w op args = (t, Ret result) ->
  stdout_writes (fst (main w inputData)) = [JSON_stringify (VObj [("result", result)])]
  /\ snd (main w inputData) = Exit 0.
Proof.
  intros H P E R.
  apply (main_returned w inputData request op args result H P E).
  now rewrite R.
Qed.

Lemma response_wraps_result_witness :
  stdout_writes (fst (main offline status_text))
  = [JSON_stringify
       (VObj [("result",
               failure_result "Status check" "status_check_error" ECONNREFUSED)])]
  /\ snd (main offline status_text) = Exit 0.
Proof.
  refine (response_wraps_result offline status_text status_request GetStatus status_args
            (fst (run_operation offline GetStatus status_args)) _ _ _ _ _).
  - vm_compute. discriminate.
  - reflexivity.
  - repeat split; reflexivity.
  - vm_compute. reflexivity.
Defined.

(** C1 as stated fails: with the server unreachable the send-message
    operation returns a result that carries an [error] property, and the exit
    code is 0 all the same. *)
Lemma exit_code_ignores_error :
  ~ exit_reflects_error offline message_text SendMessage message_args.
Proof.
  intros H.
  specialize (H (fst (run_operation offline SendMessage message_args))
                (failure_result "Message sending" "message_sending_error" ECONNREFUSED)).
  assert (R : run_operation offline SendMessage message_args
              = (fst (run_operation offline SendMessage message_args),
                 Ret (failure_result "Message sending" "message_sending_error" ECONNREFUSED)))
    by (vm_compute; reflexivity).
  apply H in R. destruct R as [R _].
  assert (X : snd (main offline message_text) = Exit 0) by (vm_compute; reflexivity).
  apply R in X. vm_compute in X. discriminate X.
Qed.

(** C2, as amended.  When the backend answers the call of an operation with a
    2xx response, what comes back is decided by the body.  If the body is not
    null (and, for agentforce_send_message, [result.content[0].text] is not
    null either and its [length] converts to a string for the line that
    prints it), the operation returns the body's [result] as it is; the
    process then writes [{ result: <that payload> }] with its one
    [process.stdout.write], the last thing on standard output, after the
    lines of [console.log], and the exit code is 0.  Otherwise the operation
    returns its own failure result, with its own error code. *)
Theorem result_returned_unmodified (w : World) (op : operation) (args : value) (u : string)
  (d : value) (c : axios_config) (body : value) :
  In (AxiosPost u d c) (fst (run_operation w op args)) ->
  axios_post w u d c = Resolved body ->
  if delivers op body then
    snd (run_operation w op args) = Ret (member body "result")
    /\ forall inputData request,
         trim inputData <> "" ->
         JSON_parse w inputData = inl request ->
         envelope request (VStr (op_name op)) args ->
         standard_output (fst (main w inputData))
         = (map ConsoleLog (console_lines (fst (main w inputData)))
            ++ [StdoutWrite (JSON_stringify (VObj [("result", member body "result")]))])%list
         /\ stdout_writes (fst (main w inputData))
            = [JSON_stringify (VObj [("result", member body "result")])]
         /\ snd (main w inputData) = Exit 0
  else
    exists e,
      snd (run_operation w op args)
      = Ret (VObj [("content", VArr [VObj [("type", VStr "text");
                                           ("text", VStr (op_label op ++ " failed: " ++ message e))]]);
                   ("error", VObj [("code", VStr (op_error_code op));
                                   ("message", VStr (message e))])]).
Proof.
  intros I A.
  destruct (operation_call w op args u d c I) as (config & s & _ & _ & _ & _ & R).
  rewrite A in R. destruct (delivers op body).
  - split; [exact R | ].
    intros inputData request H P E.
    split; [exact (main_returned_output w inputData request op args _ H P E R) | ].
    exact (main_returned w inputData request op args _ H P E R).
  - destruct R as (e & R). exists e. exact R.
Qed.

(** The scenario of the specification: the status request against a backend
    that answers with a text "ok".  Standard output holds ten lines of
    [console.log], then the response. *)
Lemma result_returned_unmodified_witness :
  snd (run_operation (online ok_reply) GetStatus status_args) = Ret (member ok_reply "result")
  /\ standard_output (fst (main (online ok_reply) status_text))
     = [ConsoleLog [VStr ("Logging initialized to /home/user/.agentforce-reliable-client/logs/"
                          ++ "client-2023-11-14T22-13-20-000Z.log")];
        ConsoleLog [VStr "Received input: 66 characters"];
        ConsoleLog [VStr "Tool called: agentforce_get_status"];
        ConsoleLog [VStr "Getting AgentForce status"];
        ConsoleLog [VStr "Client ID: c1"];
        ConsoleLog [VStr "No configuration file found, using defaults"];
        ConsoleLog [VStr "Making request to: http://localhost:3000/mcp/call-tool"];
        ConsoleLog [VStr "Request ID: 2f1e4c6a-8b0d-4e5f-9a3b-7c1d2e3f4a5b"];
        ConsoleLog [VStr "Status check successful"];
        ConsoleLog [VStr "Sending response"];
        StdoutWrite (dq "{'result':{'content':[{'type':'text','text':'ok'}]}}")]
  /\ stdout_writes (fst (main (online ok_reply) status_text))
     = [dq "{'result':{'content':[{'type':'text','text':'ok'}]}}"]
  /\ snd (main (online ok_reply) status_text) = Exit 0.
Proof.
  assert (I : In (AxiosPost sample_url (tool_call "agentforce_get_status" status_args)
                            (sample_options GetStatus))
                 (fst (run_operation (online ok_reply) GetStatus status_args))).
  { apply (proj2 (in_outbound_calls _ _ _ _)). vm_compute. left. reflexivity. }
  pose proof (result_returned_unmodified (online ok_reply) GetStatus status_args sample_url
                (tool_call "agentforce_get_status" status_args) (sample_options GetStatus)
                ok_reply I eq_refl) as T.
  change (delivers GetStatus ok_reply) with true in T. cbv iota in T.
  destruct T as [R S]. split; [exact R | ].
  destruct (S status_text status_request) as (O & W & X).
  - vm_compute. discriminate.
  - reflexivity.
  - repeat split; reflexivity.
  - split; [ | split; [exact W | exact X]].
    rewrite O. vm_compute. reflexivity.
Defined.

(** C2 as stated fails for agentforce_send_message: the backend answers 2xx
    with a result whose content is empty, and the operation returns its own
    failure result, not that payload. *)
Lemma empty_content_is_a_failure :
  In (AxiosPost sample_url (tool_call "agentforce_send_message" message_args)
                (sample_options SendMessage))
     (fst (run_operation (online empty_reply) SendMessage message_args))
  /\ axios_post (online empty_reply) sample_url
                (tool_call "agentforce_send_message" message_args) (sample_options SendMessage)
     = Resolved empty_reply
  /\ snd (run_operation (online empty_reply) SendMessage message_args)
     = Ret (failure_result "Message sending" "message_sending_error"
              (TypeError "Cannot read properties of undefined (reading 'text')"))
  /\ snd (run_operation (online empty_reply) SendMessage message_args)
     <> Ret (member empty_reply "result").
Proof.
  split; [apply in_outbound_calls; vm_compute; left; reflexivity | ].
  split; [reflexivity | ].
  split; [vm_compute; reflexivity | ].
  vm_compute. discriminate.
Qed.

(** X13.  What the catch blocks achieve.  When the call of an operation is
    rejected (connection refused, timeout, non-2xx response) the operation
    returns: one content entry reading "<Operation> failed: <message>", and
    an error object with the operation's code and the message of the
    failure; provided that, when the console is mirrored to the log file, the
    body of the error's response (if it came with one) has a text, as every
    body has but an object or array holding a [toString] entry of its own. *)
Theorem failure_is_normalized (w : World) (op : operation) (args : value) (u : string)
  (d : value) (c : axios_config) (e : js_error) :
  In (AxiosPost u d c) (fst (run_operation w op args)) ->
  axios_post w u d c = Rejected e ->
  report_fails w e = false ->
  snd (run_operation w op args)
  = Ret (VObj [("content", VArr [VObj [("type", VStr "text");
                                       ("text", VStr (op_label op ++ " failed: " ++ message e))]]);
               ("error", VObj [("code", VStr (op_error_code op));
                               ("message", VStr (message e))])]).
Proof.
  intros I A F.
  destruct (operation_call w op args u d c I) as (config & s & _ & _ & _ & _ & R).
  rewrite A, F in R. exact R.
Qed.

Lemma failure_is_normalized_witness :
  snd (run_operation offline SendMessage message_args)
  = Ret (VObj [("content",
                VArr [VObj [("type", VStr "text");
                            ("text", VStr "Message sending failed: connect ECONNREFUSED 127.0.0.1:3000")]]);
               ("error", VObj [("code", VStr "message_sending_error");
                               ("message", VStr "connect ECONNREFUSED 127.0.0.1:3000")])]).
Proof.
  apply (failure_is_normalized offline SendMessage message_args sample_url
           (tool_call "agentforce_send_message" message_args) (sample_options SendMessage)
           ECONNREFUSED).
  - apply in_outbound_calls. vm_compute. left. reflexivity.
  - reflexivity.
  - reflexivity.
Defined.

(** C3.  The claim is that an operation whose call is rejected does not
    raise but returns its normalized failure.  The code misses it here: the
    backend refuses the status call with a 500 response whose body is
    [{ "toString": 1 }]; the catch block prints that body, the console method
    of [setupLogging] throws on joining it, the operation raises instead of
    returning its status_check_error result, and the handler answers with
    processing_error and exit code 1. *)
Lemma unprintable_error_body_escapes :
  In (AxiosPost sample_url (tool_call "agentforce_get_status" status_args)
                (sample_options GetStatus))
     (fst (run_operation refused GetStatus status_args))
  /\ axios_post refused sample_url (tool_call "agentforce_get_status" status_args)
                (sample_options GetStatus)
     = Rejected odd_refusal
  /\ snd (run_operation refused GetStatus status_args)
     = Throw (TypeError "Cannot convert object to primitive value")
  /\ stdout_writes (fst (main refused status_text))
     = [JSON_stringify (error_envelope "Error: Cannot convert object to primitive value"
                                       "processing_error"
                                       "Cannot convert object to primitive value")]
  /\ snd (main refused status_text) = Exit 1.
Proof.
  split; [apply in_outbound_calls; vm_compute; left; reflexivity | ].
  repeat split; vm_compute; reflexivity.
Qed.

(** C4, as amended.  For every parsed request: if it has no [tool] field the
    output carries invalid_request, "Missing tool field"; if [tool] is there
    with a truthy value but has no [args] field, and [tool.name] can be
    printed (it is absent, or anything but an object or array holding a
    [toString] entry of its own), the output carries invalid_request,
    "Missing args field".  In both cases the exit code is 1 and no call is
    issued. *)
Theorem missing_fields_are_rejected (w : World) (inputData : string) (request : value) :
  trim inputData <> "" ->
  JSON_parse w inputData = inl request ->
  (field request "tool" = None ->
   rejected (main w inputData)
            "Error: Invalid request format - missing tool field"
            "invalid_request" "Missing tool field")
  /\ (forall tool,
        field request "tool" = Some tool ->
        truthy tool = true ->
        field tool "args" = None ->
        ToString (member tool "name") <> None ->
        rejected (main w inputData)
                 "Error: Invalid request format - missing args field"
                 "invalid_request" "Missing args field").
Proof.
  intros H P. split.
  - intros F. apply main_rejected.
    rewrite (handler_missing_tool w inputData request H P).
    + repeat split; reflexivity.
    + rewrite (field_absent request "tool" (or_introl eq_refl) F). apply andb_false_r.
  - intros tool F T A N. apply main_rejected.
    pose proof (field_member _ _ _ F) as M.
    assert (V : truthy (member request "tool") = true) by now rewrite M.
    rewrite (handler_valid w inputData request H P V). cbv zeta. rewrite M.
    destruct (ToString (member tool "name")) as [s|]; [ | contradiction].
    rewrite (field_absent tool "args" (or_intror eq_refl) A). cbn [truthy].
    repeat split; reflexivity.
Qed.

Lemma missing_fields_are_rejected_witness :
  rejected (main offline no_tool_text)
           "Error: Invalid request format - missing tool field"
           "invalid_request" "Missing tool field"
  /\ rejected (main offline no_args_text)
              "Error: Invalid request format - missing args field"
              "invalid_request" "Missing args field".
Proof.
  split.
  - apply (missing_fields_are_rejected offline no_tool_text no_tool_request).
    + vm_compute. discriminate.
    + reflexivity.
    + reflexivity.
  - apply (proj2 (missing_fields_are_rejected offline no_args_text no_args_request
                    ltac:(vm_compute; discriminate) eq_refl)
             (VObj [("name", VStr "agentforce_reset")])).
    + reflexivity.
    + reflexivity.
    + reflexivity.
    + vm_compute. discriminate.
Defined.

(** C4 as stated fails: this request has a [tool] without [args], yet its
    name cannot be printed, so the handler's catch-all answers with
    processing_error instead of invalid_request. *)
Lemma unprintable_name_without_args :
  field odd_name_request "tool" = Some (VObj [("name", odd_name)])
  /\ field (VObj [("name", odd_name)]) "args" = None
  /\ JSON_parse offline odd_name_text = inl odd_name_request
  /\ rejected (main offline odd_name_text)
              "Error: Cannot convert object to primitive value"
              "processing_error" "Cannot convert object to primitive value"
  /\ ~ rejected (main offline odd_name_text)
                "Error: Invalid request format - missing args field"
                "invalid_request" "Missing args field".
Proof.
  repeat split; try reflexivity.
  intros (W & _). vm_compute in W. discriminate W.
Qed.

(** C5.  A request that passes the checks and whose name is none of the five
    operation names (compared exactly, as strings) is answered with
    unknown_tool and "Unknown tool: <name>", exit code 1, and no call. *)
Theorem unknown_tool_is_rejected (w : World) (inputData : string) (request name args : value)
  (s : string) :
  trim inputData <> "" ->
  JSON_parse w inputData = inl request ->
  envelope request name args ->
  (forall op, name <> VStr (op_name op)) ->
  ToString name = Some s ->
  rejected (main w inputData)
           ("Error: Unknown tool: " ++ s) "unknown_tool" ("Unknown tool: " ++ s).
Proof.
  intros H P (V & N & A & T) U S. apply main_rejected.
  rewrite (handler_valid w inputData request H P V). cbv zeta.
  rewrite N, A, S, T, (dispatch_unknown w name args s U S).
  repeat split; reflexivity.
Qed.

Lemma unknown_tool_is_rejected_witness :
  rejected (main offline bogus_text)
           "Error: Unknown tool: bogus_tool" "unknown_tool" "Unknown tool: bogus_tool"
  /\ JSON_stringify (error_envelope "Error: Unknown tool: bogus_tool" "unknown_tool"
                                    "Unknown tool: bogus_tool")
     = dq ("{'result':{'content':[{'type':'text','text':'Error: Unknown tool: bogus_tool'}],"
           ++ "'error':{'code':'unknown_tool','message':'Unknown tool: bogus_tool'}}}").
Proof.
  split; [ | reflexivity].
  apply (unknown_tool_is_rejected offline bogus_text bogus_request (VStr "bogus_tool") (VObj [])).
  - vm_compute. discriminate.
  - reflexivity.
  - repeat split; reflexivity.
  - intros op. destruct op; discriminate.
  - reflexivity.
Defined.

(** C6.  Input that is not blank and that JSON.parse refuses is answered with
    parse_error and the message of the parse failure, exit code 1. *)
Theorem parse_failure_is_reported (w : World) (inputData : string) (e : js_error) :
  trim inputData <> "" ->
  JSON_parse w inputData = inr e ->
  rejected (main w inputData)
           ("Error: Failed to parse input - " ++ message e) "parse_error" (message e).
Proof.
  intros H P. apply main_rejected.
  rewrite (handler_parse_error w inputData e H P). repeat split; reflexivity.
Qed.

Lemma parse_failure_is_reported_witness :
  rejected (main offline "not json")
           "Error: Failed to parse input - Unexpected token o in JSON at position 1"
           "parse_error" "Unexpected token o in JSON at position 1".
Proof.
  apply (parse_failure_is_reported offline "not json"
           (SyntaxError "Unexpected token o in JSON at position 1")).
  - vm_compute. discriminate.
  - reflexivity.
Defined.

(** C7, as amended.  Standard input is accumulated chunk by chunk, each chunk
    decoded on its own.  When the accumulated text is empty or white space
    only (as it is when every chunk is), the handler prints one line on the
    error stream and leaves with exit code 1: the process writes no response
    and calls nobody, and standard output holds nothing but the line that
    [setupLogging] printed when it could set up the log. *)
Theorem blank_input_exits (w : World) (chunks : list string) :
  Forall whitespace_only chunks \/ whitespace_only (accumulate chunks) ->
  processStdinRequest w (accumulate chunks)
  = ([ConsoleError [VStr "Error: No input received"]], Exit 1)
  /\ standard_output (fst (main w (accumulate chunks)))
     = (if log_mirror w then [ConsoleLog [VStr ("Logging initialized to " ++ LOG_PATH w)]]
        else [])
  /\ stdout_writes (fst (main w (accumulate chunks))) = []
  /\ outbound_calls (fst (main w (accumulate chunks))) = []
  /\ snd (main w (accumulate chunks)) = Exit 1.
Proof.
  intros B.
  assert (T : trim (accumulate chunks) = "").
  { apply trim_whitespace_only. destruct B as [B | B]; [exact (accumulate_blank chunks B) | exact B]. }
  pose proof (handler_blank w (accumulate chunks) T) as H.
  destruct (main_is_handler w (accumulate chunks)) as (W & O & X).
  rewrite W, O, X, main_trace, H. unfold prefix. cbn [fst snd].
  rewrite standard_output_app, setupLogging_output. cbn. rewrite app_nil_r.
  repeat split; reflexivity.
Qed.

(** Three chunks: a space and a line feed, a no-break space, a tab. *)
Lemma blank_input_exits_witness :
  processStdinRequest offline
    (accumulate [String "032" (String "010" ""); String "194" (String "160" ""); String "009" ""])
  = ([ConsoleError [VStr "Error: No input received"]], Exit 1)
  /\ standard_output
       (fst (main offline
               (accumulate [String "032" (String "010" ""); String "194" (String "160" "");
                            String "009" ""])))
     = [ConsoleLog [VStr ("Logging initialized to " ++ LOG_PATH offline)]]
  /\ stdout_writes
       (fst (main offline
               (accumulate [String "032" (String "010" ""); String "194" (String "160" "");
                            String "009" ""]))) = []
  /\ outbound_calls
       (fst (main offline
               (accumulate [String "032" (String "010" ""); String "194" (String "160" "");
                            String "009" ""]))) = []
  /\ snd (main offline
            (accumulate [String "032" (String "010" ""); String "194" (String "160" "");
                         String "009" ""])) = Exit 1.
Proof.
  apply (blank_input_exits offline
           [String "032" (String "010" ""); String "194" (String "160" ""); String "009" ""]).
  right.
  change (whitespace_only
            (" " ++ String "010" "" ++ String "194" (String "160" "") ++ String "009" "" ++ "")).
  repeat (apply blank_space; [simpl; tauto | ]).
  apply blank_empty.
Defined.

(** C7 as stated fails.  On the empty stream the process does write to
    standard output: the line of [setupLogging], printed with [console.log].
    And a stream that is white space only as a whole, the two bytes of a
    no-break space, is not so for the handler when the bytes come in two
    chunks: each decodes to U+FFFD, and the process answers with parse_error
    on standard output. *)
Lemma blank_input_reaches_standard_output :
  whitespace_only (String.concat "" [])
  /\ standard_output (fst (main offline (accumulate [])))
     = [ConsoleLog [VStr ("Logging initialized to /home/user/.agentforce-reliable-client/logs/"
                          ++ "client-2023-11-14T22-13-20-000Z.log")]]
  /\ standard_output (fst (main offline (accumulate []))) <> []
  /\ whitespace_only (String.concat "" split_space)
  /\ accumulate split_space = replacement_character ++ replacement_character
  /\ stdout_writes (fst (main garbled (accumulate split_space)))
     = [JSON_stringify
          (error_envelope
             ("Error: Failed to parse input - Unexpected token " ++ replacement_character
              ++ " in JSON at position 0")
             "parse_error"
             ("Unexpected token " ++ replacement_character ++ " in JSON at position 0"))]
  /\ stdout_writes (fst (main garbled (accumulate split_space))) <> [].
Proof.
  split; [apply blank_empty | ].
  split; [vm_compute; reflexivity | ].
  split; [vm_compute; discriminate | ].
  split.
  { change (whitespace_only (String "194" (String "160" "") ++ "")).
    apply blank_space; [simpl; tauto | apply blank_empty]. }
  split; [reflexivity | ].
  split; [vm_compute; reflexivity | ].
  vm_compute. discriminate.
Qed.



(** C9, as amended.  For a request that passes the checks and names
    agentforce_send_message with arguments whose [message] is missing or
    null, or agentforce_authenticate with arguments whose [config] is missing
    or null, a diagnostic printed before the [try] block throws; the fault
    leaves the tool function, the handler's catch-all writes processing_error
    with the fault's message, the exit code is 1 and no call is issued. *)
Theorem diagnostic_fault_escapes (w : World) (inputData : string) (request : value)
  (op : operation) (args : value) :
  trim inputData <> "" ->
  JSON_parse w inputData = inl request ->
  envelope request (VStr (op_name op)) args ->
  (op = SendMessage /\ nullish (member args "message") = true)
  \/ (op = Authenticate /\ nullish (member args "config") = true) ->
  exists e,
    snd (run_operation w op args) = Throw e
    /\ rejected (main w inputData)
                ("Error: " ++ message e) "processing_error" (message e).
Proof.
  intros H P E F.
  destruct (operation_fault w op args F) as (e & T & O).
  exists e. split; [exact T | ].
  exact (main_rejected _ _ _ _ _ (handler_thrown w inputData request op args e H P E T O)).
Qed.

Lemma diagnostic_fault_escapes_witness :
  exists e,
    snd (run_operation (online ok_reply) SendMessage status_args) = Throw e
    /\ rejected (main (online ok_reply) no_message_text)
                ("Error: " ++ message e) "processing_error" (message e).
Proof.
  apply (diagnostic_fault_escapes (online ok_reply) no_message_text no_message_request
           SendMessage status_args).
  - vm_compute. discriminate.
  - reflexivity.
  - repeat split; reflexivity.
  - left. split; reflexivity.
Defined.

(** C9 as stated fails: a [message] that is the number 5 has no length, and
    a [config] that is the text "x" is no object, yet neither diagnostic
    throws; the call is made and its result is written with exit code 0. *)
Lemma present_values_raise_no_fault :
  field number_message_args "message" = Some (VNum "5")
  /\ member (VNum "5") "length" = VUndefined
  /\ snd (run_operation (online ok_reply) SendMessage number_message_args)
     = Ret (member ok_reply "result")
  /\ stdout_writes (fst (main (online ok_reply) number_message_text))
     = [dq "{'result':{'content':[{'type':'text','text':'ok'}]}}"]
  /\ snd (main (online ok_reply) number_message_text) = Exit 0
  /\ field text_config_args "config" = Some (VStr "x")
  /\ snd (run_operation (online ok_reply) Authenticate text_config_args)
     = Ret (member ok_reply "result")
  /\ stdout_writes (fst (main (online ok_reply) text_config_text))
     = [dq "{'result':{'content':[{'type':'text','text':'ok'}]}}"]
  /\ snd (main (online ok_reply) text_config_text) = Exit 0.
Proof. repeat split; vm_compute; reflexivity. Qed.

(** C10, as amended.  The presence checks test truthiness.  A request whose
    [tool] is there but falsy is answered with invalid_request, "Missing tool
    field"; a request whose [tool.args] is there but falsy, and whose
    [tool.name] can be printed (it is absent, or anything but an object or
    array holding a [toString] entry of its own), is answered with
    invalid_request, "Missing args field".  In both cases the exit code is 1
    and no call is issued. *)
Theorem falsy_fields_are_rejected (w : World) (inputData : string) (request : value) :
  trim inputData <> "" ->
  JSON_parse w inputData = inl request ->
  (forall tool,
     field request "tool" = Some tool ->
     truthy tool = false ->
     rejected (main w inputData)
              "Error: Invalid request format - missing tool field"
              "invalid_request" "Missing tool field")
  /\ (forall tool args,
        field request "tool" = Some tool ->
        field tool "args" = Some args ->
        truthy args = false ->
        ToString (member tool "name") <> None ->
        rejected (main w inputData)
                 "Error: Invalid request format - missing args field"
                 "invalid_request" "Missing args field").
Proof.
  intros H P. split.
  - intros tool F T. apply main_rejected.
    rewrite (handler_missing_tool w inputData request H P).
    + repeat split; reflexivity.
    + rewrite (field_member _ _ _ F), T. apply andb_false_r.
  - intros tool args F A T N. apply main_rejected.
    pose proof (field_member _ _ _ F) as M.
    assert (V : truthy (member request "tool") = true)
      by (rewrite M; exact (field_object _ _ _ A)).
    rewrite (handler_valid w inputData request H P V). cbv zeta. rewrite M.
    destruct (ToString (member tool "name")) as [s|]; [ | contradiction].
    rewrite (field_member _ _ _ A), T.
    repeat split; reflexivity.
Qed.

Lemma falsy_fields_are_rejected_witness :
  rejected (main offline null_tool_text)
           "Error: Invalid request format - missing tool field"
           "invalid_request" "Missing tool field"
  /\ rejected (main offline null_args_text)
              "Error: Invalid request format - missing args field"
              "invalid_request" "Missing args field".
Proof.
  split.
  - apply (proj1 (falsy_fields_are_rejected offline null_tool_text null_tool_request
                    ltac:(vm_compute; discriminate) eq_refl) VNull).
    + reflexivity.
    + reflexivity.
  - apply (proj2 (falsy_fields_are_rejected offline null_args_text null_args_request
                    ltac:(vm_compute; discriminate) eq_refl)
             (VObj [("name", VStr "agentforce_reset"); ("args", VNull)]) VNull).
    + reflexivity.
    + reflexivity.
    + reflexivity.
    + vm_compute. discriminate.
Defined.

(** C10 as stated fails: [tool.args] is there and null, yet the name cannot
    be printed, so the answer is processing_error instead of
    invalid_request. *)
Lemma unprintable_name_with_null_args :
  field odd_name_null_args_request "tool" = Some (VObj [("name", odd_name); ("args", VNull)])
  /\ field (VObj [("name", odd_name); ("args", VNull)]) "args" = Some VNull
  /\ truthy VNull = false
  /\ JSON_parse offline odd_name_null_args_text = inl odd_name_null_args_request
  /\ rejected (main offline odd_name_null_args_text)
              "Error: Cannot convert object to primitive value"
              "processing_error" "Cannot convert object to primitive value"
  /\ ~ rejected (main offline odd_name_null_args_text)
                "Error: Invalid request format - missing args field"
                "invalid_request" "Missing args field".
Proof.
  repeat split; try reflexivity.
  intros (W & _). vm_compute in W. discriminate W.
Qed.

(** ** Every run of the process *)

(** What a run of the process can be: blank input, a rejection by the handler
    itself, or the run of a tool function and what the handler makes of its
    ending. *)
Lemma main_cases (w : World) (inputData : string) :
  (trim inputData = ""
   /\ stdout_writes (fst (main w inputData)) = []
   /\ outbound_calls (fst (main w inputData)) = []
   /\ snd (main w inputData) = Exit 1)
  \/ (trim inputData <> ""
      /\ (forall op args, ~ dispatched w inputData op args)
      /\ exists text code msg, rejected (main w inputData) text code msg)
  \/ (exists op args,
        dispatched w inputData op args
        /\ outbound_calls (fst (main w inputData))
           = outbound_calls (fst (run_operation w op args))
        /\ ((exists r,
               snd (run_operation w op args) = Ret r
               /\ stdout_writes (fst (main w inputData))
                  = [JSON_stringify (VObj [("result", r)])]
               /\ snd (main w inputData) = Exit 0)
            \/ (exists e,
                  snd (run_operation w op args) = Throw e
                  /\ stdout_writes (fst (main w inputData))
                     = [JSON_stringify (error_envelope ("Error: " ++ message e)
                                                       "processing_error" (message e))]
                  /\ snd (main w inputData) = Exit 1))).
Proof.
  destruct (main_is_handler w inputData) as (MW & MO & MX).
  destruct (String.eqb_spec (trim inputData) "") as [B | B].
  { left. rewrite MW, MO, MX, (handler_blank w inputData B).
    split; [exact B | repeat split; reflexivity]. }
  right.
  destruct (JSON_parse w inputData) as [request | e] eqn:P.
  2: { left. split; [exact B | ]. split.
       - intros op args (request & _ & P' & _). congruence.
       - exists ("Error: Failed to parse input - " ++ message e), "parse_error", (message e).
         apply main_rejected.
         rewrite (handler_parse_error w inputData e B P). repeat split; reflexivity. }
  destruct (truthy request && truthy (member request "tool")) eqn:V.
  2: { left. split; [exact B | ]. split.
       - intros op args (request' & _ & P' & (V' & _)).
         assert (request' = request) by congruence. subst request'.
         rewrite V', (truthy_member _ _ V') in V. discriminate V.
       - exists "Error: Invalid request format - missing tool field", "invalid_request",
           "Missing tool field".
         apply main_rejected.
         rewrite (handler_missing_tool w inputData request B P V). repeat split; reflexivity. }
  apply andb_prop in V. destruct V as [_ V].
  pose proof (handler_valid w inputData request B P V) as HV. cbv zeta in HV.
  destruct (ToString (member (member request "tool") "name")) as [s|] eqn:S.
  2: { left. split; [exact B | ]. split.
       - intros op args (request' & _ & P' & (_ & N & _)).
         assert (request' = request) by congruence. subst request'.
         rewrite N in S. discriminate S.
       - exists "Error: Cannot convert object to primitive value", "processing_error",
           "Cannot convert object to primitive value".
         apply main_rejected. rewrite HV. repeat split; reflexivity. }
  destruct (truthy (member (member request "tool") "args")) eqn:T.
  2: { left. split; [exact B | ]. split.
       - intros op args (request' & _ & P' & (_ & _ & A & T')).
         assert (request' = request) by congruence. subst request'.
         rewrite A, T' in T. discriminate T.
       - exists "Error: Invalid request format - missing args field", "invalid_request",
           "Missing args field".
         apply main_rejected. rewrite HV. repeat split; reflexivity. }
  destruct (name_cases (member (member request "tool") "name")) as [(op & N) | U].
  - right. exists op, (member (member request "tool") "args").
    assert (D : envelope request (VStr (op_name op)) (member (member request "tool") "args"))
      by (repeat split; assumption).
    split; [exists request; repeat split; assumption | ].
    rewrite MW, MO, MX.
    split; [exact (handler_known_calls w inputData request op _ B P D) | ].
    rewrite (handler_known w inputData request op _ B P D).
    pose proof (operation_writes_nothing w op (member (member request "tool") "args")) as W.
    pose proof (operation_stays w op (member (member request "tool") "args")) as X.
    destruct (run_operation w op _) as [t [r|e|c]]; cbn [fst snd] in *.
    + left. exists r. traces. repeat split; reflexivity.
    + right. exists e. traces. repeat split; reflexivity.
    + exfalso. exact (X c eq_refl).
  - left. split; [exact B | ]. split.
    + intros op args (request' & _ & P' & (_ & N & _)).
      assert (request' = request) by congruence. subst request'.
      exact (U op N).
    + exists ("Error: Unknown tool: " ++ s), "unknown_tool", ("Unknown tool: " ++ s).
      apply main_rejected.
      rewrite HV, (dispatch_unknown w _ _ s U S). repeat split; reflexivity.
Qed.

(** The tool function a run reaches is determined by the input. *)
Lemma dispatched_unique (w : World) (inputData : string) (op op' : operation)
  (args args' : value) :
  dispatched w inputData op args -> dispatched w inputData op' args' -> op = op' /\ args = args'.
Proof.
  intros (request & _ & P & (_ & N & A & _)) (request' & _ & P' & (_ & N' & A' & _)).
  assert (request' = request) by congruence. subst request'.
  rewrite N in N'. rewrite A in A'. split; [ | exact A'].
  destruct op, op'; try reflexivity; discriminate N'.
Qed.

(** X1.  Whatever the input and the environment, the process ends by leaving
    with exit code 0 or 1, having written at most one response and issued at
    most one call. *)
Theorem process_always_exits (w : World) (inputData : string) :
  exists c,
    snd (main w inputData) = Exit c
    /\ (c = 0 \/ c = 1)%Z
    /\ List.length (stdout_writes (fst (main w inputData))) <= 1
    /\ List.length (outbound_calls (fst (main w inputData))) <= 1.
Proof.
  destruct (main_is_handler w inputData) as (-> & -> & ->).
  apply handler_always_exits.
Qed.

(** X2.  Blank input gets no response; any other input gets exactly one, and
    it is always [JSON.stringify({ result: r })] for some value [r] (which
    prints as an empty object when [r] is undefined). *)
Theorem one_response_unless_blank (w : World) (inputData : string) :
  (trim inputData = "" /\ stdout_writes (fst (main w inputData)) = [])
  \/ (trim inputData <> ""
      /\ exists r, stdout_writes (fst (main w inputData)) = [JSON_stringify (VObj [("result", r)])]).
Proof.
  destruct (main_cases w inputData)
    as [(B & W & _) | [(B & _ & text & code & msg & W & _)
                      | (op & args & (request & B & _) & _ & [(r & _ & W & _) | (e & _ & W & _)])]].
  - left. split; assumption.
  - right. split; [exact B | ]. eexists. exact W.
  - right. split; [exact B | ]. eexists. exact W.
  - right. split; [exact B | ]. eexists. exact W.
Qed.

(** X3.  The exit code is 0 exactly when the input reached a tool function
    and that function returned; the response is then what it returned. *)
Theorem exit_zero_iff_returned (w : World) (inputData : string) :
  snd (main w inputData) = Exit 0
  <-> exists op args result,
        dispatched w inputData op args
        /\ snd (run_operation w op args) = Ret result
        /\ stdout_writes (fst (main w inputData)) = [JSON_stringify (VObj [("result", result)])].
Proof.
  split.
  - intros X.
    destruct (main_cases w inputData)
      as [(_ & _ & _ & X') | [(_ & _ & text & code & msg & _ & X' & _)
                             | (op & args & D & _ & [(r & R & W & _) | (e & _ & _ & X')])]];
      try (rewrite X' in X; discriminate X).
    exists op, args, r. repeat split; assumption.
  - intros (op & args & result & (request & B & P & E) & R & _).
    exact (proj2 (main_returned w inputData request op args result B P E R)).
Qed.

(** X4.  The backend is called only for an input that reached a tool
    function, and the call then carries the name of that operation and the
    arguments of the request as they came. *)
Theorem calls_only_when_dispatched (w : World) (inputData u : string) (d : value)
  (c : axios_config) :
  In (AxiosPost u d c) (fst (main w inputData)) ->
  exists op args,
    dispatched w inputData op args
    /\ d = tool_call (op_name op) args
    /\ timeout c = op_timeout op
    /\ outbound_calls (fst (main w inputData)) = [AxiosPost u d c].
Proof.
  intros I. apply in_outbound_calls in I.
  destruct (main_cases w inputData)
    as [(_ & _ & O & _) | [(_ & _ & text & code & msg & _ & _ & O) | (op & args & D & O & _)]];
    try (rewrite O in I; contradiction).
  rewrite O in *. apply in_outbound_calls in I.
  destruct (operation_call w op args u d c I) as (config & s & _ & _ & E & C & _).
  exists op, args. inversion E; subst u d c. repeat split; assumption.
Qed.

Lemma calls_only_when_dispatched_witness :
  exists op args,
    dispatched offline status_text op args
    /\ tool_call "agentforce_get_status" status_args = tool_call (op_name op) args
    /\ timeout (sample_options GetStatus) = op_timeout op
    /\ outbound_calls (fst (main offline status_text))
       = [AxiosPost sample_url (tool_call "agentforce_get_status" status_args)
                    (sample_options GetStatus)].
Proof.
  apply (calls_only_when_dispatched offline status_text sample_url
           (tool_call "agentforce_get_status" status_args) (sample_options GetStatus)).
  apply (proj2 (in_outbound_calls _ _ _ _)). vm_compute. left. reflexivity.
Defined.

(** X5.  Whatever error leaves a tool function, the handler's catch-all
    answers it: one response with the code processing_error and the message
    of the error, and exit code 1. *)
Theorem escaped_error_is_answered (w : World) (inputData : string) (op : operation)
  (args : value) (e : js_error) :
  dispatched w inputData op args ->
  snd (run_operation w op args) = Throw e ->
  stdout_writes (fst (main w inputData))
  = [JSON_stringify (error_envelope ("Error: " ++ message e) "processing_error" (message e))]
  /\ snd (main w inputData) = Exit 1.
Proof.
  intros D T.
  destruct (main_cases w inputData)
    as [(B & _) | [(_ & N & _) | (op' & args' & D' & _ & [(r & R & _) | (e' & T' & W & X)])]].
  - destruct D as (request & B' & _). contradiction.
  - exfalso. exact (N op args D).
  - destruct (dispatched_unique w inputData op op' args args' D D') as [<- <-]. congruence.
  - destruct (dispatched_unique w inputData op op' args args' D D') as [<- <-].
    assert (e' = e) by congruence. subst e'. split; assumption.
Qed.

Lemma escaped_error_is_answered_witness :
  stdout_writes (fst (main refused status_text))
  = [JSON_stringify (error_envelope "Error: Cannot convert object to primitive value"
                                    "processing_error" "Cannot convert object to primitive value")]
  /\ snd (main refused status_text) = Exit 1.
Proof.
  apply (escaped_error_is_answered refused status_text GetStatus status_args
           (TypeError "Cannot convert object to primitive value")).
  - exists status_request. split; [vm_compute; discriminate | ]. repeat split; reflexivity.
  - vm_compute. reflexivity.
Defined.

(** ** The profile *)

(** X6.  [loadConfig] throws only when the directory of the configuration is
    missing and cannot be created.  A configuration file that is missing,
    unreadable or not JSON never makes it fail: it answers with the default
    profile instead, and with the parsed file otherwise. *)
Theorem loadConfig_falls_back (w : World) :
  snd (loadConfig w)
  = match (if config_dir_exists w then None else mkdir_config_dir w) with
    | Some e => Throw e
    | None => Ret (profile w)
    end.
Proof.
  unfold loadConfig, ensureConfigDir, profile.
  destruct (config_dir_exists w); cbn [negb]; [ | destruct (mkdir_config_dir w) as [e|]];
    prims; norm; try reflexivity;
    (destruct (config_file_exists w); norm; [ | reflexivity]);
    (destruct (read_config_file w) as [text|e]; norm; [ | reflexivity]);
    (destruct (JSON_parse w text) as [config|e]; norm; reflexivity).
Qed.

(** ** The tool functions, further *)

(** The lines before the [try] block are printed when the arguments are
    [announced], and throw otherwise. *)
Lemma diagnostics_announced (w : World) (op : operation) (args : value) (k : M value) :
  if announced op args then
    exists t, diagnostics w op args k = prefix t k /\ stdout_writes t = [] /\ outbound_calls t = []
  else
    exists t e,
      diagnostics w op args k = (t, Throw e) /\ stdout_writes t = [] /\ outbound_calls t = [].
Proof.
  unfold diagnostics, announced, has_text.
  destruct op; prims; norm; repeat (stuck; norm); cbn [negb andb];
    first [ eexists; split; [reflexivity | split; reflexivity]
          | do 2 eexists; split; [reflexivity | split; reflexivity] ].
Qed.

Section Attempt.
Variable w : World.
Variables name what label code success : string.
Variable ms : Z.
Variable epilogue : value -> M value.
Variable args : value.

(** Without a usable profile the scheme calls nobody and ends in its catch
    block. *)
Lemma scheme_without_profile (e : js_error) :
  profile_fault w = Some e ->
  exists t,
    scheme w name what label code success ms epilogue args
    = (t, if report_fails w e then Throw (TypeError "Cannot convert object to primitive value")
          else Ret (failure_result label code e))
    /\ stdout_writes t = [] /\ outbound_calls t = [].
Proof.
  unfold scheme, profile_fault, has_text. prims. norm.
  pose proof (quiet_loadConfig w) as (LW & LO & LX).
  destruct (loadConfig w) as [tc [config|e0|c]]; cbn [fst snd] in *; norm.
  - destruct (nullish config) eqn:N; norm.
    + intros [= <-]. rewrite report_fails_TypeError. norm.
      eexists. split; [reflexivity | ]. traces. split; reflexivity.
    + destruct (ToString (member config "serverUrl")) as [s|]; norm; [discriminate | ].
      intros [= <-]. rewrite report_fails_TypeError. norm.
      eexists. split; [reflexivity | ]. traces. split; reflexivity.
  - intros [= <-]. destruct (report_fails w e0); norm;
      (eexists; split; [reflexivity | ]; traces; split; reflexivity).
  - discriminate.
Qed.

(** With a usable profile it issues its call. *)
Lemma scheme_with_profile :
  profile_fault w = None ->
  exists config s,
    snd (loadConfig w) = Ret config
    /\ ToString (member config "serverUrl") = Some s
    /\ In (AxiosPost (s ++ "/mcp/call-tool") (tool_call name args) (call_options w ms config))
          (fst (scheme w name what label code success ms epilogue args)).
Proof.
  unfold scheme, profile_fault, has_text. prims. norm.
  pose proof (quiet_loadConfig w) as (LW & LO & LX).
  destruct (loadConfig w) as [tc [config|e0|c]]; cbn [fst snd] in *; norm.
  - destruct (nullish config) eqn:N; norm; [discriminate | ].
    destruct (ToString (member config "serverUrl")) as [s|] eqn:S; norm; [ | discriminate].
    intros _. exists config, s. split; [reflexivity | ]. split; [exact S | ].
    unfold call_options.
    unfold prefix. cbn [fst]. apply in_or_app. left. apply in_or_app. right. left. reflexivity.
  - discriminate.
  - exfalso. exact (LX c eq_refl).
Qed.
End Attempt.

(** A tool function whose opening lines were printed is those lines followed
    by its scheme. *)
Lemma operation_announced (w : World) (op : operation) (args : value) :
  announced op args = true ->
  exists t,
    run_operation w op args
    = prefix t (scheme w (op_name op) (op_label op ++ " error:") (op_label op)
                       (op_error_code op) (success_line w op) (op_timeout op) (epilogue w op)
                       args)
    /\ stdout_writes t = [] /\ outbound_calls t = [].
Proof.
  intros A. rewrite run_operation_scheme.
  match goal with
  | |- context [diagnostics w op args ?k] =>
      pose proof (diagnostics_announced w op args k) as D
  end.
  rewrite A in D. exact D.
Qed.

(** X7.  A tool function whose opening lines were printed and that cannot
    get a usable profile ([loadConfig] throws, or the profile is null or its
    [serverUrl] has no text) calls nobody and returns its own failure result,
    with the error it met. *)
Theorem unusable_profile_is_a_failure (w : World) (op : operation) (args : value)
  (e : js_error) :
  announced op args = true ->
  profile_fault w = Some e ->
  report_fails w e = false ->
  snd (run_operation w op args) = Ret (failure_result (op_label op) (op_error_code op) e)
  /\ outbound_calls (fst (run_operation w op args)) = [].
Proof.
  intros A F R.
  destruct (operation_announced w op args A) as (t & -> & _ & O).
  destruct (scheme_without_profile w (op_name op) (op_label op ++ " error:") (op_label op)
              (op_error_code op) (success_line w op) (op_timeout op) (epilogue w op) args e F)
    as (t' & -> & _ & O').
  rewrite R. unfold prefix. cbn [fst snd]. rewrite outbound_calls_app, O, O'. split; reflexivity.
Qed.

Lemma unusable_profile_is_a_failure_witness :
  snd (run_operation null_profile GetStatus status_args)
  = Ret (failure_result "Status check" "status_check_error"
           (TypeError "Cannot read properties of null (reading 'serverUrl')"))
  /\ outbound_calls (fst (run_operation null_profile GetStatus status_args)) = [].
Proof.
  apply (unusable_profile_is_a_failure null_profile GetStatus status_args
           (TypeError "Cannot read properties of null (reading 'serverUrl')")).
  - reflexivity.
  - vm_compute. reflexivity.
  - reflexivity.
Defined.

(** With a usable profile the call is among the events of the run. *)
Lemma operation_calls (w : World) (op : operation) (args : value) :
  announced op args = true ->
  profile_fault w = None ->
  exists config s,
    snd (loadConfig w) = Ret config
    /\ ToString (member config "serverUrl") = Some s
    /\ In (AxiosPost (s ++ "/mcp/call-tool") (tool_call (op_name op) args)
                     (call_options w (op_timeout op) config))
          (fst (run_operation w op args)).
Proof.
  intros A F.
  destruct (scheme_with_profile w (op_name op) (op_label op ++ " error:") (op_label op)
              (op_error_code op) (success_line w op) (op_timeout op) (epilogue w op) args F)
    as (config & s & L & S & I).
  exists config, s. split; [exact L | ]. split; [exact S | ].
  destruct (operation_announced w op args A) as (t & -> & _).
  unfold prefix. cbn [fst]. apply in_or_app. right. exact I.
Qed.

(** X8.  A tool function whose opening lines were printed and that has a
    usable profile issues its call, to the profile's server. *)
Theorem usable_profile_is_called (w : World) (op : operation) (args : value) :
  announced op args = true ->
  profile_fault w = None ->
  exists config s,
    snd (loadConfig w) = Ret config
    /\ ToString (member config "serverUrl") = Some s
    /\ outbound_calls (fst (run_operation w op args))
       = [AxiosPost (s ++ "/mcp/call-tool") (tool_call (op_name op) args)
                    (call_options w (op_timeout op) config)].
Proof.
  intros A F.
  destruct (operation_calls w op args A F) as (config & s & L & S & I).
  exists config, s. split; [exact L | ]. split; [exact S | ].
  destruct (operation_call w op args _ _ _ I) as (_ & _ & _ & _ & _ & O & _). exact O.
Qed.

Lemma usable_profile_is_called_witness :
  exists config s,
    snd (loadConfig offline) = Ret config
    /\ ToString (member config "serverUrl") = Some s
    /\ outbound_calls (fst (run_operation offline ResetClient status_args))
       = [AxiosPost (s ++ "/mcp/call-tool") (tool_call (op_name ResetClient) status_args)
                    (call_options offline (op_timeout ResetClient) config)].
Proof.
  apply (usable_profile_is_called offline ResetClient status_args).
  - reflexivity.
  - vm_compute. reflexivity.
Defined.

(** X9.  A 2xx answer that does not deliver (it has no body or, for
    agentforce_send_message, no [result.content[0].text] whose length can be
    printed) is discarded: the tool function returns its own failure result,
    and the process answers with it and exit code 0. *)
Theorem undelivered_answer_is_a_failure (w : World) (op : operation) (args : value)
  (u : string) (d : value) (c : axios_config) (body : value) :
  In (AxiosPost u d c) (fst (run_operation w op args)) ->
  axios_post w u d c = Resolved body ->
  delivers op body = false ->
  exists e,
    snd (run_operation w op args) = Ret (failure_result (op_label op) (op_error_code op) e)
    /\ forall inputData,
         dispatched w inputData op args ->
         stdout_writes (fst (main w inputData))
         = [JSON_stringify (VObj [("result",
                                   failure_result (op_label op) (op_error_code op) e)])]
         /\ snd (main w inputData) = Exit 0.
Proof.
  intros I A D.
  destruct (operation_call w op args u d c I) as (config & s & _ & _ & _ & _ & R).
  rewrite A, D in R. destruct R as (e & R). exists e. split; [exact R | ].
  intros inputData (request & B & P & E).
  exact (main_returned w inputData request op args _ B P E R).
Qed.

Lemma undelivered_answer_is_a_failure_witness :
  exists e,
    snd (run_operation (online null_reply) GetStatus status_args)
    = Ret (failure_result (op_label GetStatus) (op_error_code GetStatus) e)
    /\ forall inputData,
         dispatched (online null_reply) inputData GetStatus status_args ->
         stdout_writes (fst (main (online null_reply) inputData))
         = [JSON_stringify (VObj [("result",
                                   failure_result (op_label GetStatus) (op_error_code GetStatus)
                                                  e)])]
         /\ snd (main (online null_reply) inputData) = Exit 0.
Proof.
  apply (undelivered_answer_is_a_failure (online null_reply) GetStatus status_args sample_url
           (tool_call "agentforce_get_status" status_args) (sample_options GetStatus) null_reply).
  - apply (proj2 (in_outbound_calls _ _ _ _)). vm_compute. left. reflexivity.
  - reflexivity.
  - reflexivity.
Defined.

(** X10.  When the backend answers 2xx with a body that is not null and has
    no [result], the tool function returns undefined, [JSON.stringify] drops
    the property, and the response of the process is the empty object, with
    exit code 0.  That is so for every tool but agentforce_send_message,
    which reads [result.content] of the body: it returns its failure result,
    and the process answers with it, with exit code 0 as well. *)
Theorem missing_result_is_an_empty_response (w : World) (inputData : string) (op : operation)
  (args : value) (u : string) (d : value) (c : axios_config) (body : value) :
  dispatched w inputData op args ->
  In (AxiosPost u d c) (fst (run_operation w op args)) ->
  axios_post w u d c = Resolved body ->
  nullish body = false ->
  member body "result" = VUndefined ->
  snd (main w inputData) = Exit 0
  /\ match op with
     | SendMessage =>
         exists e,
           snd (run_operation w op args)
           = Ret (failure_result "Message sending" "message_sending_error" e)
           /\ stdout_writes (fst (main w inputData))
              = [JSON_stringify
                   (VObj [("result",
                           failure_result "Message sending" "message_sending_error" e)])]
     | _ =>
         snd (run_operation w op args) = Ret VUndefined
         /\ stdout_writes (fst (main w inputData)) = ["{}"]
     end.
Proof.
  intros (request & B & P & E) I A N U.
  destruct (operation_call w op args u d c I) as (config & s & _ & _ & _ & _ & R).
  rewrite A in R.
  assert (D : delivers op body = match op with SendMessage => false | _ => true end).
  { unfold delivers, responseText. rewrite N, U. destruct op; reflexivity. }
  rewrite D in R.
  destruct op;
    try (rewrite U in R;
         destruct (main_returned w inputData request _ args VUndefined B P E R) as (W & X);
         split; [exact X | split; [exact R | exact W]]).
  destruct R as (e & R).
  destruct (main_returned w inputData request SendMessage args _ B P E R) as (W & X).
  split; [exact X | ]. exists e. split; [exact R | exact W].
Qed.

Lemma missing_result_is_an_empty_response_witness :
  snd (main (online bare_reply) status_text) = Exit 0
  /\ snd (run_operation (online bare_reply) GetStatus status_args) = Ret VUndefined
  /\ stdout_writes (fst (main (online bare_reply) status_text)) = ["{}"].
Proof.
  apply (missing_result_is_an_empty_response (online bare_reply) status_text GetStatus
           status_args sample_url (tool_call "agentforce_get_status" status_args)
           (sample_options GetStatus) bare_reply).
  - exists status_request. split; [vm_compute; discriminate | ]. repeat split; reflexivity.
  - apply (proj2 (in_outbound_calls _ _ _ _)). vm_compute. left. reflexivity.
  - reflexivity.
  - reflexivity.
  - reflexivity.
Defined.

(** X11.  With the console not mirrored to the log file, a tool function
    whose opening lines were printed always returns a result: no failure of
    the profile, of the call or of the answer makes it throw. *)
Theorem unmirrored_operation_returns (w : World) (op : operation) (args : value) :
  announced op args = true ->
  log_mirror w = false ->
  exists result, snd (run_operation w op args) = Ret result.
Proof.
  intros A L.
  assert (F : forall e, report_fails w e = false) by (intros e; unfold report_fails; now rewrite L).
  destruct (profile_fault w) as [e|] eqn:P.
  - destruct (operation_announced w op args A) as (t & -> & _).
    destruct (scheme_without_profile w (op_name op) (op_label op ++ " error:") (op_label op)
                (op_error_code op) (success_line w op) (op_timeout op) (epilogue w op) args e P)
      as (t' & -> & _).
    rewrite F. eexists. reflexivity.
  - destruct (operation_calls w op args A P) as (config & s & _ & _ & I).
    destruct (operation_call w op args _ _ _ I) as (_ & _ & _ & _ & _ & _ & R).
    destruct (axios_post w _ _ _) as [body | e].
    + destruct (delivers op body); [eexists; exact R | ].
      destruct R as (e & R). eexists. exact R.
    + rewrite F in R. eexists. exact R.
Qed.

Lemma unmirrored_operation_returns_witness :
  exists result, snd (run_operation unlogged GetStatus status_args) = Ret result.
Proof.
  apply (unmirrored_operation_returns unlogged GetStatus status_args); reflexivity.
Defined.

(** ** The configuration file and the questions, on samples *)

Example stringify_indented_sample :
  JSON_stringify_indented
    (VObj [("a", VObj [("b", VNum "1")]);
           ("c", VArr []);
           ("d", VArr [VNull; VUndefined]);
           ("e", VUndefined)])
  = Some (dq ("{" ++ newline
              ++ "  'a': {" ++ newline
              ++ "    'b': 1" ++ newline
              ++ "  }," ++ newline
              ++ "  'c': []," ++ newline
              ++ "  'd': [" ++ newline
              ++ "    null," ++ newline
              ++ "    null" ++ newline
              ++ "  ]" ++ newline
              ++ "}")).
Proof. reflexivity. Qed.

Example stringify_indented_profile : JSON_stringify_indented saved_profile = Some saved_text.
Proof. reflexivity. Qed.

(** The last sample ends in U+1F600, which the cut splits. *)
Example substring_samples :
  substring_from_start 8 "0123456789abcdef" = "01234567"
  /\ substring_from_start 8 "abc" = "abc"
  /\ substring_from_start 8 ("abcdefg" ++ String "240" (String "159" (String "152" (String "128" ""))))
     = "abcdefg" ++ replacement_character.
Proof. repeat split. Qed.

(** ** Laws of the runs of the command *)

Section RunLaws.
Context {A B : Type}.

Lemma and_then_Returned (t : list action) (a : A) (f : A -> Run B) :
  and_then (t, Returned a) f = after t (f a).
Proof. unfold and_then, after. destruct (f a). reflexivity. Qed.

Lemma and_then_Thrown (t : list action) (e : js_error) (f : A -> Run B) :
  and_then (t, Thrown e) f = (t, Thrown e).
Proof. reflexivity. Qed.

Lemma and_then_Exited (t : list action) (c : Z) (f : A -> Run B) :
  and_then (t, Exited c) f = (t, Exited c).
Proof. reflexivity. Qed.

Lemma and_then_Waiting (t : list action) (f : A -> Run B) :
  and_then (t, Waiting) f = (t, Waiting).
Proof. reflexivity. Qed.

Lemma and_then_after (t : list action) (m : Run A) (f : A -> Run B) :
  and_then (after t m) f = after t (and_then m f).
Proof.
  unfold after. destruct m as [u [a|e|c|]]; cbn [fst snd and_then]; try reflexivity.
  destruct (f a) as [v o]. cbn [fst snd]. now rewrite app_assoc.
Qed.

Lemma attempt_Returned (t : list action) (a : A) (h : js_error -> Run A) :
  attempt (t, Returned a) h = (t, Returned a).
Proof. reflexivity. Qed.

Lemma attempt_Thrown (t : list action) (e : js_error) (h : js_error -> Run A) :
  attempt (t, Thrown e) h = after t (h e).
Proof. unfold attempt, after. destruct (h e). reflexivity. Qed.

Lemma attempt_Exited (t : list action) (c : Z) (h : js_error -> Run A) :
  attempt (t, Exited c) h = (t, Exited c).
Proof. reflexivity. Qed.

Lemma attempt_Waiting (t : list action) (h : js_error -> Run A) :
  attempt (t, Waiting) h = (t, Waiting).
Proof. reflexivity. Qed.

Lemma attempt_after (t : list action) (m : Run A) (h : js_error -> Run A) :
  attempt (after t m) h = after t (attempt m h).
Proof.
  unfold after. destruct m as [u [a|e|c|]]; cbn [fst snd attempt]; try reflexivity.
  destruct (h e) as [v o]. cbn [fst snd]. now rewrite app_assoc.
Qed.

Lemma after_pair (t u : list action) (o : ending A) : after t (u, o) = ((t ++ u)%list, o).
Proof. reflexivity. Qed.

Lemma after_nil (m : Run A) : after [] m = m.
Proof. destruct m. reflexivity. Qed.

Lemma after_after (t u : list action) (m : Run A) : after t (after u m) = after (t ++ u) m.
Proof. unfold after. cbn [fst snd]. now rewrite app_assoc. Qed.

Lemma lift_Ret (t : list event) (a : A) : lift (t, Ret a) = (map Console t, Returned a).
Proof. reflexivity. Qed.

Lemma lift_Throw (t : list event) (e : js_error) : lift (A := A) (t, Throw e) = (map Console t, Thrown e).
Proof. reflexivity. Qed.

Lemma lift_Exit (t : list event) (c : Z) : lift (A := A) (t, Exit c) = (map Console t, Exited c).
Proof. reflexivity. Qed.

Lemma lift_prefix (t : list event) (m : M A) : lift (prefix t m) = after (map Console t) (lift m).
Proof. unfold lift, prefix, after. cbn [fst snd]. now rewrite map_app. Qed.
End RunLaws.

Lemma lift_bind {A B : Type} (m : M A) (f : A -> M B) :
  lift (bind m f) = and_then (lift m) (fun a => lift (f a)).
Proof.
  destruct m as [t [a|e|c]]; try reflexivity.
  rewrite bind_Ret, lift_prefix, lift_Ret, and_then_Returned. reflexivity.
Qed.

Lemma and_then_and_then {A B C : Type} (m : Run A) (f : A -> Run B) (g : B -> Run C) :
  and_then (and_then m f) g = and_then m (fun x => and_then (f x) g).
Proof.
  destruct m as [t [a|e|c|]]; try reflexivity.
  rewrite !and_then_Returned. apply and_then_after.
Qed.

Lemma lift_log_text (w : World) (s : string) :
  lift (console_log w [VStr s]) = ([Console (ConsoleLog [VStr s])], Returned tt).
Proof. now rewrite console_log_text. Qed.

Lemma lift_error_text (w : World) (s : string) :
  lift (console_error w [VStr s]) = ([Console (ConsoleError [VStr s])], Returned tt).
Proof. now rewrite console_error_text. Qed.

Lemma lift_error_texts (w : World) (a b : string) :
  lift (console_error w [VStr a; VStr b]) = ([Console (ConsoleError [VStr a; VStr b])], Returned tt).
Proof. now rewrite console_error_texts. Qed.

(** Run the command as far as its branches are decided. *)
Ltac run_step :=
  match goal with
  | |- context [lift (console_log ?w [VStr ?s])] => rewrite (lift_log_text w s)
  | |- context [lift (console_error ?w [VStr ?s])] => rewrite (lift_error_text w s)
  | |- context [lift (console_error ?w [VStr ?a; VStr ?b])] => rewrite (lift_error_texts w a b)
  | |- context [lift (?t, Ret ?a)] => rewrite (lift_Ret t a)
  | |- context [lift (?t, Throw ?e)] => rewrite (lift_Throw t e)
  | |- context [and_then (and_then ?m ?f) ?g] => rewrite (and_then_and_then m f g)
  | |- context [and_then (?t, Returned ?a) ?f] => rewrite (and_then_Returned t a f)
  | |- context [and_then (?t, Thrown ?e) ?f] => rewrite (and_then_Thrown t e f)
  | |- context [and_then (?t, Exited ?c) ?f] => rewrite (and_then_Exited t c f)
  | |- context [and_then (?t, Waiting) ?f] => rewrite (and_then_Waiting t f)
  | |- context [and_then (after ?t ?m) ?f] => rewrite (and_then_after t m f)
  | |- context [attempt (?t, Returned ?a) ?h] => rewrite (attempt_Returned t a h)
  | |- context [attempt (?t, Thrown ?e) ?h] => rewrite (attempt_Thrown t e h)
  | |- context [attempt (?t, Exited ?c) ?h] => rewrite (attempt_Exited t c h)
  | |- context [attempt (?t, Waiting) ?h] => rewrite (attempt_Waiting t h)
  | |- context [attempt (after ?t ?m) ?h] => rewrite (attempt_after t m h)
  | |- context [after ?t (?u, ?o)] => rewrite (after_pair t u o)
  | |- context [after [] ?m] => rewrite (after_nil m)
  | |- context [after ?t (after ?u ?m)] => rewrite (after_after t u m)
  end.

Ltac run :=
  repeat (run_step; cbv beta iota; cbn [app map detail message stack TypeError]).

(** ** Reading the actions of a run *)

Lemma writes_app (t u : list action) : writes (t ++ u) = (writes t ++ writes u)%list.
Proof. apply flat_map_app. Qed.

Lemma verifications_app (t u : list action) :
  verifications (t ++ u) = (verifications t ++ verifications u)%list.
Proof. apply filter_app. Qed.

Lemma writes_console (t : list event) : writes (map Console t) = [].
Proof. induction t as [|e t IH]; [reflexivity | exact IH]. Qed.

Lemma verifications_console (t : list event) : verifications (map Console t) = [].
Proof. induction t as [|e t IH]; [reflexivity | exact IH]. Qed.

Lemma handles_no_request_app (t u : list action) :
  handles_no_request t -> handles_no_request u -> handles_no_request (t ++ u).
Proof.
  unfold handles_no_request. intros T U e I. apply in_app_or in I.
  destruct I as [I | I]; [exact (T e I) | exact (U e I)].
Qed.

Lemma handles_no_request_console (t : list event) :
  stdout_writes t = [] -> outbound_calls t = [] -> handles_no_request (map Console t).
Proof.
  unfold handles_no_request. intros W O e H.
  apply in_map_iff in H. destruct H as (e' & E & H). injection E as ->.
  destruct e as [a|a|s|u d c]; try exact I.
  - assert (J : In s (stdout_writes t)).
    { unfold stdout_writes. apply in_flat_map. exists (StdoutWrite s).
      split; [exact H | left; reflexivity]. }
    rewrite W in J. exact J.
  - apply in_outbound_calls in H. rewrite O in H. exact H.
Qed.

Lemma handles_no_request_other (a : action) :
  (forall e, a <> Console e) -> handles_no_request [a].
Proof.
  unfold handles_no_request. intros N e [H | []]. exfalso. exact (N e H).
Qed.

(** ** The profile while the command fills it in *)

Lemma lookup_store_same (key : string) (x : value) (props : list (string * value)) :
  lookup key (store key x props) = Some x.
Proof.
  induction props as [|[k v] rest IH]; cbn [store lookup].
  - now rewrite String.eqb_refl.
  - destruct (k =? key) eqn:E; cbn [lookup]; rewrite E; [reflexivity | exact IH].
Qed.

Lemma lookup_store_other (key other : string) (x : value) (props : list (string * value)) :
  other <> key -> lookup other (store key x props) = lookup other props.
Proof.
  intros N. induction props as [|[k v] rest IH]; cbn [store lookup].
  - destruct (String.eqb_spec key other); [congruence | reflexivity].
  - destruct (String.eqb_spec k key) as [-> | K]; cbn [lookup].
    + destruct (String.eqb_spec key other); [congruence | reflexivity].
    + destruct (k =? other); [reflexivity | exact IH].
Qed.

Lemma read_object (props : list (string * value)) (key : string) :
  read (mkFilled (VObj props) []) key = ([], Ret (member (VObj props) key)).
Proof. reflexivity. Qed.

Lemma assign_object (props : list (string * value)) (key : string) (x : value) :
  assign (mkFilled (VObj props) []) key x = ([], Ret (mkFilled (VObj (store key x props)) [])).
Proof. reflexivity. Qed.

(** The question on the server shows the address the profile has, if any. *)
Lemma serverUrl_question_object (props : list (string * value)) :
  serverUrl_question (mkFilled (VObj props) [])
  = ([], let current := member (VObj props) "serverUrl" in
         if truthy current then
           match ToString current with
           | Some s => Ret ("Server URL " ++ ("[" ++ s ++ "]") ++ ": ")
           | None => Throw (TypeError "Cannot convert object to primitive value")
           end
         else Ret "Server URL : ").
Proof.
  unfold serverUrl_question. rewrite read_object. cbv zeta. norm.
  destruct (truthy (member (VObj props) "serverUrl")); norm; [ | reflexivity].
  unfold interpolate. destruct (ToString (member (VObj props) "serverUrl")); prims; norm; reflexivity.
Qed.

(** The question on the key shows the first eight characters of the key the
    profile has, if any. *)
Lemma apiKey_question_object (props : list (string * value)) :
  apiKey_question (mkFilled (VObj props) [])
  = ([], let current := member (VObj props) "apiKey" in
         if truthy current then
           match current with
           | VStr s => Ret ("Server API Key " ++ ("[" ++ substring_from_start 8 s ++ "...]") ++ ": ")
           | _ => Throw (TypeError "config.apiKey.substring is not a function")
           end
         else Ret "Server API Key : ").
Proof.
  unfold apiKey_question. rewrite read_object. cbv zeta. norm.
  destruct (truthy (member (VObj props) "apiKey")); norm; [ | reflexivity].
  destruct (member (VObj props) "apiKey"); prims; norm; reflexivity.
Qed.

(** Once the question on the server is answered, the address of the profile
    has a text. *)
Lemma settled_serverUrl (props : list (string * value)) (serverUrl apiKey q : string) :
  snd (serverUrl_question (mkFilled (VObj props) [])) = Ret q ->
  exists s, ToString (member (VObj (settled props serverUrl apiKey)) "serverUrl") = Some s.
Proof.
  rewrite serverUrl_question_object. cbn [snd]. cbv zeta. intros Q.
  assert (K : forall p, member (VObj (if truthy (VStr apiKey) then store "apiKey" (VStr apiKey) p else p))
                               "serverUrl"
                        = member (VObj p) "serverUrl").
  { intros p. destruct (truthy (VStr apiKey)); [ | reflexivity].
    cbn [member]. rewrite lookup_store_other; [reflexivity | discriminate]. }
  unfold settled. rewrite K.
  destruct (truthy (VStr serverUrl)).
  - cbn [member]. rewrite lookup_store_same. eexists. reflexivity.
  - destruct (truthy (member (VObj props) "serverUrl")).
    + destruct (ToString (member (VObj props) "serverUrl")) as [s|]; [ | discriminate Q].
      exists s. reflexivity.
    + cbn [member]. rewrite lookup_store_same. eexists. reflexivity.
Qed.

Lemma print_lines_run (w : World) (l : list string) :
  print_lines w l = (map (fun line => ConsoleLog [VStr line]) l, Ret tt).
Proof.
  induction l as [|line rest IH]; [reflexivity | ].
  cbn [print_lines map]. rewrite console_log_text, bind_Ret, IH. reflexivity.
Qed.

Lemma print_lines_quiet (l : list string) :
  stdout_writes (map (fun line => ConsoleLog [VStr line]) l) = []
  /\ outbound_calls (map (fun line => ConsoleLog [VStr line]) l) = [].
Proof. induction l as [|line rest [W O]]; split; try reflexivity; assumption. Qed.

Lemma request_free_sound (t : list action) : request_free t = true -> handles_no_request t.
Proof.
  unfold request_free, handles_no_request. intros F e H.
  rewrite forallb_forall in F. specialize (F _ H). destruct e; [exact I | exact I | | ]; discriminate F.
Qed.

Lemma lift_get (v : value) (key : string) :
  lift (get v key)
  = ([], if nullish v then
           Thrown (TypeError ("Cannot read properties of "
                              ++ match v with VNull => "null" | _ => "undefined" end
                              ++ " (reading '" ++ key ++ "')"))
         else Returned (member v key)).
Proof. unfold get. destruct (nullish v); reflexivity. Qed.

Lemma lift_get_text (v : value) (key : string) :
  lift (bind (get v key) interpolate)
  = ([], if nullish v then
           Thrown (TypeError ("Cannot read properties of "
                              ++ match v with VNull => "null" | _ => "undefined" end
                              ++ " (reading '" ++ key ++ "')"))
         else match ToString (member v key) with
              | Some s => Returned s
              | None => Thrown (TypeError "Cannot convert object to primitive value")
              end).
Proof.
  unfold get, interpolate. destruct (nullish v); [reflexivity | ].
  unfold ret at 1. rewrite bind_Ret, prefix_nil.
  destruct (ToString (member v key)); reflexivity.
Qed.

Lemma lift_read_text (props : list (string * value)) (key s : string) :
  ToString (member (VObj props) key) = Some s ->
  lift (bind (read (mkFilled (VObj props) []) key) interpolate) = ([], Returned s).
Proof. intros T. rewrite read_object, bind_Ret. unfold interpolate. rewrite T. reflexivity. Qed.

Lemma lift_read_object (props : list (string * value)) (key : string) :
  lift (read (mkFilled (VObj props) []) key) = ([], Returned (member (VObj props) key)).
Proof. reflexivity. Qed.

Ltac run_stuck :=
  match goal with
  | |- context [match axios_get ?t ?u ?c with _ => _ end] => destruct (axios_get t u c) eqn:?
  | |- context [if nullish ?v then _ else _] => destruct (nullish v) eqn:?
  | |- context [match ToString ?v with _ => _ end] => destruct (ToString v) eqn:?
  | |- context [if is_string ?v ?s then _ else _] => destruct (is_string v s) eqn:?
  | |- context [match detail ?e with _ => _ end] =>
      destruct (detail e) as [ | [[? ?] | ] [ | ]] eqn:?
  end.

Lemma lift_read (config : filled) (key : string) :
  nullish (held config) = false ->
  lift (read config key) = ([], Returned (view config key)).
Proof.
  intros N. unfold read, view. destruct (lookup key (aside config)); [reflexivity | ].
  rewrite lift_get, N. reflexivity.
Qed.

Lemma lift_read_shown (config : filled) (key s : string) :
  nullish (held config) = false ->
  ToString (view config key) = Some s ->
  lift (bind (read config key) interpolate) = ([], Returned s).
Proof.
  intros N T. rewrite lift_bind, (lift_read config key N), and_then_Returned, after_nil.
  unfold interpolate. rewrite T. reflexivity.
Qed.

(** The verification of the connection: it sends its one request and
    returns, whatever the answer. *)
Lemma verify_connection_runs (w : World) (t : Terminal) (config : filled) (s : string) :
  nullish (held config) = false ->
  ToString (view config "serverUrl") = Some s ->
  exists tv,
    verify_connection w t config = (tv, Returned tt)
    /\ verifications tv
       = [AxiosGet (view config "serverUrl")
                   (mkConfig [("x-api-key", view config "apiKey");
                              ("x-request-id", VStr (uuidv4 w))] 5000)]
    /\ forallb line_or_get tv = true.
Proof.
  intros N T. unfold verify_connection. unfold act, done, raise.
  repeat first
    [ progress run
    | rewrite (lift_read_shown config "serverUrl" s N T)
    | rewrite (lift_read config _ N)
    | rewrite lift_get_text
    | rewrite lift_get
    | rewrite print_lines_run
    | run_stuck ];
    (eexists; split; [reflexivity | ]; split; reflexivity).
Qed.

Lemma verify_connection_returns (w : World) (t : Terminal) (props : list (string * value))
  (s : string) :
  ToString (member (VObj props) "serverUrl") = Some s ->
  exists tv,
    verify_connection w t (mkFilled (VObj props) []) = (tv, Returned tt)
    /\ verifications tv = [verification w (VObj props)]
    /\ forallb line_or_get tv = true.
Proof. intros T. exact (verify_connection_runs w t (mkFilled (VObj props) []) s eq_refl T). Qed.

Lemma line_or_get_spec (t : list action) :
  forallb line_or_get t = true ->
  writes t = [] /\ ~ In Close t /\ handles_no_request t.
Proof.
  intros F. rewrite forallb_forall in F. split; [ | split].
  - induction t as [|a t IH]; [reflexivity | ].
    assert (A : line_or_get a = true) by (apply F; left; reflexivity).
    destruct a as [[ | | | ] | | | | | ]; try discriminate A; apply IH; intros x H; apply F; right; exact H.
  - intros H. specialize (F _ H). discriminate F.
  - intros e H. specialize (F _ H). destruct e; [exact I | exact I | | ]; discriminate F.
Qed.

(** [saveConfig], the directory being there: it attempts the write, prints
    how that went and returns whether it succeeded. *)
Lemma saveConfig_run (w : World) (t : Terminal) (config : value) :
  config_dir_exists w = true ->
  saveConfig w t config
  = ([WriteFile (CONFIG_PATH w) (JSON_stringify_indented config);
      Console (match write_config_file t (JSON_stringify_indented config) with
               | None => ConsoleLog [VStr ("Configuration saved to " ++ CONFIG_PATH w)]
               | Some e => ConsoleError [VStr ("Error saving configuration: " ++ message e)]
               end)],
     Returned (match write_config_file t (JSON_stringify_indented config) with
               | None => true
               | Some _ => false
               end)).
Proof.
  intros D. unfold saveConfig, ensureConfigDir. rewrite D. cbn [negb]. cbv zeta.
  unfold act, done, raise, ret. run.
  destruct (write_config_file t (JSON_stringify_indented config)); run; reflexivity.
Qed.

Lemma serverUrl_step (props : list (string * value)) (a : string) :
  (if truthy (VStr a) then lift (assign (mkFilled (VObj props) []) "serverUrl" (VStr a))
   else
     and_then (lift (read (mkFilled (VObj props) []) "serverUrl")) (fun current =>
     if negb (truthy current) then
       lift (assign (mkFilled (VObj props) []) "serverUrl" (VStr "http://localhost:3000"))
     else done (mkFilled (VObj props) [])))
  = ([], Returned (mkFilled (VObj (settled props a "")) [])).
Proof.
  unfold settled. cbn [truthy String.eqb negb]. destruct (negb (a =? "")).
  - reflexivity.
  - rewrite lift_read_object, and_then_Returned, after_nil.
    destruct (truthy (member (VObj props) "serverUrl")); reflexivity.
Qed.

Lemma apiKey_step (props : list (string * value)) (a b : string) :
  (if truthy (VStr b) then
     lift (assign (mkFilled (VObj (settled props a "")) []) "apiKey" (VStr b))
   else done (mkFilled (VObj (settled props a "")) []))
  = ([], Returned (mkFilled (VObj (settled props a b)) [])).
Proof.
  unfold settled. cbn [truthy String.eqb negb]. destruct (negb (b =? "")); reflexivity.
Qed.

(** The run of the command when its two questions are answered: it asks,
    saves, verifies the connection, closes the readline interface and
    returns. *)
Lemma configureClient_interview (w : World) (t : Terminal) (props : list (string * value))
  (a b : string) :
  interview w t props a b ->
  exists q1 q2 tv,
    configureClient w t
    = ((opening (fst (loadConfig w)) q1 q2
        ++ saving w t (VObj (settled props a b))
        ++ tv ++ [Close])%list,
       Returned tt)
    /\ verifications tv = [verification w (VObj (settled props a b))]
    /\ forallb line_or_get tv = true.
Proof.
  intros (L & q1 & q2 & Q1 & A1 & Q2 & A2).
  destruct (settled_serverUrl props a b q1 Q1) as (s & S).
  destruct (verify_connection_returns w t (settled props a b) s S) as (tv & V & VV & VF).
  exists q1, q2, tv.
  split; [ | split; [exact VV | exact VF]].
  unfold configureClient.
  destruct (loadConfig w) as [tc o]. cbn [fst snd] in *. subst o.
  rewrite serverUrl_question_object in Q1. cbn [snd] in Q1. cbv zeta in Q1.
  rewrite apiKey_question_object in Q2. cbn [snd] in Q2. cbv zeta in Q2.
  unfold prompt, act. run.
  rewrite serverUrl_question_object. cbv zeta. rewrite Q1. run. rewrite A1. run.
  rewrite serverUrl_step. run.
  rewrite apiKey_question_object. cbv zeta. rewrite Q2. run. rewrite A2. run.
  rewrite apiKey_step. run.
  rewrite (saveConfig_run (with_config_dir w) t _ eq_refl). run.
  rewrite V. run.
  unfold opening, saving. cbn [held]. rewrite <- ?app_assoc. cbn [app].
  reflexivity.
Qed.

Lemma opening_calm (loading : list event) (q1 q2 : string) :
  stdout_writes loading = [] ->
  outbound_calls loading = [] ->
  writes (opening loading q1 q2) = []
  /\ verifications (opening loading q1 q2) = []
  /\ ~ In Close (opening loading q1 q2)
  /\ handles_no_request (opening loading q1 q2).
Proof.
  intros W O. unfold opening.
  rewrite !writes_app, !verifications_app, writes_console, verifications_console.
  split; [reflexivity | ]. split; [reflexivity | ].
  split.
  { intros H. apply in_app_or in H. destruct H as [H | H]; [cbn [In] in H; intuition discriminate | ].
    apply in_app_or in H. destruct H as [H | H]; [ | cbn [In] in H; intuition discriminate].
    apply in_map_iff in H. destruct H as (e & X & _). discriminate X. }
  repeat apply handles_no_request_app;
    first [ apply handles_no_request_console; assumption
          | apply request_free_sound; reflexivity ].
Qed.

Lemma saving_calm (w : World) (t : Terminal) (config : value) :
  writes (saving w t config) = [(CONFIG_PATH w, JSON_stringify_indented config)]
  /\ verifications (saving w t config) = []
  /\ ~ In Close (saving w t config)
  /\ handles_no_request (saving w t config).
Proof.
  split; [reflexivity | ]. split; [reflexivity | ].
  split; [unfold saving; cbn [In]; intuition discriminate | ].
  apply request_free_sound. unfold saving, request_free. cbn [forallb].
  destruct (write_config_file t (JSON_stringify_indented config)); reflexivity.
Qed.

(** ** Calm runs *)

Lemma calm_and_then {A B : Type} (m : Run A) (f : A -> Run B) :
  calm m -> (forall a, calm (f a)) -> calm (and_then m f).
Proof.
  unfold calm. destruct m as [t [a|e|c|]]; cbn [fst and_then]; intros M F; try exact M.
  specialize (F a). destruct (f a) as [u o]. cbn [fst] in *.
  now apply handles_no_request_app.
Qed.

Lemma calm_attempt {A : Type} (m : Run A) (h : js_error -> Run A) :
  calm m -> (forall e, calm (h e)) -> calm (attempt m h).
Proof.
  unfold calm. destruct m as [t [a|e|c|]]; cbn [fst attempt]; intros M H; try exact M.
  specialize (H e). destruct (h e) as [u o]. cbn [fst] in *.
  now apply handles_no_request_app.
Qed.

Lemma calm_lift {A : Type} (m : M A) : quiet m -> calm (lift m).
Proof. intros (W & O & _). apply handles_no_request_console; assumption. Qed.

Lemma calm_pure {A : Type} (o : ending A) : calm ([], o).
Proof. intros e []. Qed.

Lemma calm_act (a : action) : (forall e, a <> Console e) -> calm (act a).
Proof. apply handles_no_request_other. Qed.

Lemma calm_prompt (t : Terminal) (question : string) : calm (prompt t question).
Proof. apply handles_no_request_other. discriminate. Qed.

Lemma quiet_read (config : filled) (key : string) : quiet (read config key).
Proof. unfold read. destruct (lookup key (aside config)); [apply quiet_ret | apply quiet_get]. Qed.

Lemma quiet_assign (config : filled) (key : string) (x : value) : quiet (assign config key x).
Proof. unfold assign. destruct (held config); first [apply quiet_ret | apply quiet_throw]. Qed.

Lemma quiet_print_lines (w : World) (l : list string) : quiet (print_lines w l).
Proof.
  rewrite print_lines_run. destruct (print_lines_quiet l) as [W O].
  repeat split; try assumption. discriminate.
Qed.

Lemma quiet_ensureConfigDir (w : World) : quiet (ensureConfigDir w).
Proof. unfold ensureConfigDir. repeat quiet_step. Qed.

Lemma quiet_setupLogging (w : World) : quiet (setupLogging w).
Proof. unfold setupLogging. repeat quiet_step. Qed.

Ltac calm_step :=
  first
    [ apply calm_pure | apply calm_prompt
    | apply calm_act; intros ?; discriminate
    | apply calm_and_then; [ | intros ? ]
    | apply calm_attempt; [ | intros ? ]
    | apply calm_lift;
      repeat first [ apply quiet_loadConfig | apply quiet_print_lines
                   | apply quiet_ensureConfigDir | apply quiet_read | apply quiet_assign
                   | quiet_step ];
      fail
    | match goal with
      | |- calm (if ?c then _ else _) => destruct c
      | |- calm (match ?x with _ => _ end) => destruct x
      | |- calm (let (_, _) := ?x in _) => destruct x
      end ].

Lemma calm_saveConfig (w : World) (t : Terminal) (config : value) : calm (saveConfig w t config).
Proof. unfold saveConfig, done, raise. repeat calm_step. Qed.

Lemma calm_verify_connection (w : World) (t : Terminal) (config : filled) :
  calm (verify_connection w t config).
Proof. unfold verify_connection, done, raise. repeat calm_step. Qed.

(** The command neither answers a request nor calls a tool of the backend. *)
Lemma calm_configureClient (w : World) (t : Terminal) : calm (configureClient w t).
Proof.
  unfold configureClient, serverUrl_question, apiKey_question, done, raise.
  repeat first [ apply calm_saveConfig | apply calm_verify_connection | calm_step ].
Qed.

(** ** The command [configure] *)

Lemma settled_fields (props : list (string * value)) (a b : string) :
  field (VObj (settled props a b)) "serverUrl"
  = Some (if a =? "" then
            if truthy (member (VObj props) "serverUrl") then member (VObj props) "serverUrl"
            else VStr "http://localhost:3000"
          else VStr a)
  /\ field (VObj (settled props a b)) "apiKey"
     = (if b =? "" then field (VObj props) "apiKey" else Some (VStr b))
  /\ (forall key,
        key <> "serverUrl" -> key <> "apiKey" ->
        field (VObj (settled props a b)) key = field (VObj props) key)
  /\ (a = "" -> b = "" -> truthy (member (VObj props) "serverUrl") = true ->
      settled props a b = props).
Proof.
  unfold settled. cbn [truthy field member].
  destruct (a =? "") eqn:A; destruct (b =? "") eqn:B; cbn [negb];
    try (apply String.eqb_neq in A); try (apply String.eqb_neq in B);
    try (apply String.eqb_eq in A); try (apply String.eqb_eq in B).
  - destruct (lookup "serverUrl" props) as [x|] eqn:L.
    + destruct (truthy x) eqn:T.
      * repeat split; auto.
      * rewrite lookup_store_same.
        repeat split; try (rewrite lookup_store_other by discriminate; reflexivity);
          try discriminate.
        intros key N _. rewrite lookup_store_other by congruence. reflexivity.
    + cbn [truthy]. rewrite lookup_store_same.
      repeat split; try (rewrite lookup_store_other by discriminate; reflexivity);
        try discriminate.
      intros key N _. rewrite lookup_store_other by congruence. reflexivity.
  - assert (S : forall p, lookup "serverUrl" (store "apiKey" (VStr b) p) = lookup "serverUrl" p)
      by (intros p; apply lookup_store_other; discriminate).
    assert (O : forall p key, key <> "apiKey" ->
                              lookup key (store "apiKey" (VStr b) p) = lookup key p)
      by (intros p key N; apply lookup_store_other; congruence).
    rewrite S, lookup_store_same.
    destruct (lookup "serverUrl" props) as [x|] eqn:L; [destruct (truthy x) eqn:T | cbn [truthy]];
      rewrite ?L, ?lookup_store_same; (split; [reflexivity | ]); (split; [reflexivity | ]);
      (split; [ | intros _ E; congruence]);
      intros key N1 N2; rewrite O by exact N2; try reflexivity;
      rewrite lookup_store_other by congruence; reflexivity.
  - rewrite lookup_store_same.
    repeat split; try (rewrite lookup_store_other by discriminate; reflexivity); try congruence.
    intros key N _. rewrite lookup_store_other by congruence. reflexivity.
  - rewrite lookup_store_same, lookup_store_other, lookup_store_same by discriminate.
    repeat split; try congruence.
    intros key N1 N2. rewrite !lookup_store_other by congruence. reflexivity.
Qed.

(** X14.  When the profile is an object and the user answers both questions,
    the command writes the configuration file once, with the profile in
    which an answer replaces the server address or the key, an empty answer
    keeps what was there (the server address becoming the default one when
    there was none), and every other property stays. *)
Theorem answers_are_saved (w : World) (t : Terminal) (props : list (string * value))
  (a b : string) :
  interview w t props a b ->
  exists saved,
    writes (fst (configureClient w t))
    = [(CONFIG_PATH w, JSON_stringify_indented (VObj saved))]
    /\ field (VObj saved) "serverUrl"
       = Some (if a =? "" then
                 if truthy (member (VObj props) "serverUrl") then member (VObj props) "serverUrl"
                 else VStr "http://localhost:3000"
               else VStr a)
    /\ field (VObj saved) "apiKey"
       = (if b =? "" then field (VObj props) "apiKey" else Some (VStr b))
    /\ (forall key,
          key <> "serverUrl" -> key <> "apiKey" -> field (VObj saved) key = field (VObj props) key)
    /\ (a = "" -> b = "" -> truthy (member (VObj props) "serverUrl") = true -> saved = props).
Proof.
  intros H. exists (settled props a b).
  split; [ | apply settled_fields].
  destruct (configureClient_interview w t props a b H) as (q1 & q2 & tv & -> & _ & VF).
  destruct (quiet_loadConfig w) as (LW & LO & _).
  destruct (opening_calm (fst (loadConfig w)) q1 q2 LW LO) as (OW & _).
  destruct (saving_calm w t (VObj (settled props a b))) as (SW & _).
  destruct (line_or_get_spec tv VF) as (VW & _).
  cbn [fst]. rewrite !writes_app, OW, SW, VW. reflexivity.
Qed.

Lemma answers_are_saved_witness :
  exists saved,
    writes (fst (configureClient (configured saved_text saved_profile)
                                 (typing "http://example.org:4000" "" None)))
    = [(CONFIG_PATH (configured saved_text saved_profile), JSON_stringify_indented (VObj saved))]
    /\ field (VObj saved) "serverUrl"
       = Some (if "http://example.org:4000" =? "" then
                 if truthy (member saved_profile "serverUrl") then member saved_profile "serverUrl"
                 else VStr "http://localhost:3000"
               else VStr "http://example.org:4000")
    /\ field (VObj saved) "apiKey"
       = (if "" =? "" then field saved_profile "apiKey" else Some (VStr ""))
    /\ (forall key,
          key <> "serverUrl" -> key <> "apiKey" -> field (VObj saved) key = field saved_profile key)
    /\ ("http://example.org:4000" = "" -> "" = "" ->
        truthy (member saved_profile "serverUrl") = true ->
        saved = [("serverUrl", VStr "http://localhost:3000");
                 ("apiKey", VStr "0123456789abcdef");
                 ("clientId", VStr "client-1700000000000")]).
Proof.
  apply (answers_are_saved (configured saved_text saved_profile)
           (typing "http://example.org:4000" "" None)
           [("serverUrl", VStr "http://localhost:3000");
            ("apiKey", VStr "0123456789abcdef");
            ("clientId", VStr "client-1700000000000")]
           "http://example.org:4000" "").
  split; [vm_compute; reflexivity | ].
  exists "Server URL [http://localhost:3000]: ", "Server API Key [01234567...]: ".
  repeat split; vm_compute; reflexivity.
Defined.

(** X15.  When the profile is an object and the user answers both questions,
    the command completes whether or not the file could be written and
    whatever the server answers: it sends one request, a GET to the server
    address just settled with the key just settled, a request id and a
    timeout of five seconds, closes the readline interface last, and
    returns. *)
Theorem command_completes (w : World) (t : Terminal) (props : list (string * value))
  (a b : string) :
  interview w t props a b ->
  exists saved before,
    writes (fst (configureClient w t))
    = [(CONFIG_PATH w, JSON_stringify_indented (VObj saved))]
    /\ verifications (fst (configureClient w t))
       = [AxiosGet (member (VObj saved) "serverUrl")
                   (mkConfig [("x-api-key", member (VObj saved) "apiKey");
                              ("x-request-id", VStr (uuidv4 w))] 5000)]
    /\ configureClient w t = ((before ++ [Close])%list, Returned tt)
    /\ ~ In Close before.
Proof.
  intros H.
  destruct (configureClient_interview w t props a b H) as (q1 & q2 & tv & E & VV & VF).
  destruct (quiet_loadConfig w) as (LW & LO & _).
  destruct (opening_calm (fst (loadConfig w)) q1 q2 LW LO) as (OW & OV & OC & _).
  destruct (saving_calm w t (VObj (settled props a b))) as (SW & SV & SC & _).
  destruct (line_or_get_spec tv VF) as (VW & VC & _).
  exists (settled props a b),
    (opening (fst (loadConfig w)) q1 q2 ++ saving w t (VObj (settled props a b)) ++ tv)%list.
  rewrite E. cbn [fst].
  rewrite !writes_app, !verifications_app, OW, SW, VW, OV, SV, VV.
  split; [reflexivity | ]. split; [reflexivity | ].
  split; [now rewrite <- !app_assoc | ].
  intros I. apply in_app_or in I. destruct I as [I | I]; [exact (OC I) | ].
  apply in_app_or in I. destruct I as [I | I]; [exact (SC I) | exact (VC I)].
Qed.

Lemma command_completes_witness :
  exists saved before,
    writes (fst (configureClient (configured saved_text saved_profile)
                                 (typing "" "" (Some EROFS))))
    = [(CONFIG_PATH (configured saved_text saved_profile), JSON_stringify_indented (VObj saved))]
    /\ verifications (fst (configureClient (configured saved_text saved_profile)
                                           (typing "" "" (Some EROFS))))
       = [AxiosGet (member (VObj saved) "serverUrl")
                   (mkConfig [("x-api-key", member (VObj saved) "apiKey");
                              ("x-request-id",
                               VStr (uuidv4 (configured saved_text saved_profile)))] 5000)]
    /\ configureClient (configured saved_text saved_profile) (typing "" "" (Some EROFS))
       = ((before ++ [Close])%list, Returned tt)
    /\ ~ In Close before.
Proof.
  apply (command_completes (configured saved_text saved_profile) (typing "" "" (Some EROFS))
           [("serverUrl", VStr "http://localhost:3000");
            ("apiKey", VStr "0123456789abcdef");
            ("clientId", VStr "client-1700000000000")]
           "" "").
  split; [vm_compute; reflexivity | ].
  exists "Server URL [http://localhost:3000]: ", "Server API Key [01234567...]: ".
  repeat split; vm_compute; reflexivity.
Defined.

(** X16.  The command confirms the save whether or not it happened: when the
    write fails, [saveConfig] reports the error and the command prints its
    line "Configuration saved to ..." right after. *)
Theorem save_is_confirmed_even_if_it_failed (w : World) (t : Terminal)
  (props : list (string * value)) (a b : string) (e : js_error) :
  interview w t props a b ->
  write_config_file t (JSON_stringify_indented (VObj (settled props a b))) = Some e ->
  exists before later,
    fst (configureClient w t)
    = (before
       ++ [Console (ConsoleError [VStr ("Error saving configuration: " ++ message e)]);
           Console (ConsoleLog [VStr ""]);
           Console (ConsoleLog [VStr (green ++ "Configuration saved to " ++ CONFIG_PATH w
                                      ++ reset)])]
       ++ later)%list
    /\ snd (configureClient w t) = Returned tt.
Proof.
  intros H F.
  destruct (configureClient_interview w t props a b H) as (q1 & q2 & tv & -> & _).
  cbn [fst snd]. split with
    (opening (fst (loadConfig w)) q1 q2
     ++ [WriteFile (CONFIG_PATH w) (JSON_stringify_indented (VObj (settled props a b)))])%list.
  exists (Console (ConsoleLog [VStr ""]) :: tv ++ [Close])%list.
  split; [ | reflexivity].
  unfold saving. rewrite F. rewrite <- !app_assoc. reflexivity.
Qed.

Lemma save_is_confirmed_even_if_it_failed_witness :
  exists before later,
    fst (configureClient (configured saved_text saved_profile) (typing "" "" (Some EROFS)))
    = (before
       ++ [Console (ConsoleError [VStr ("Error saving configuration: " ++ message EROFS)]);
           Console (ConsoleLog [VStr ""]);
           Console (ConsoleLog
                      [VStr (green ++ "Configuration saved to "
                             ++ CONFIG_PATH (configured saved_text saved_profile) ++ reset)])]
       ++ later)%list
    /\ snd (configureClient (configured saved_text saved_profile) (typing "" "" (Some EROFS)))
       = Returned tt.
Proof.
  apply (save_is_confirmed_even_if_it_failed (configured saved_text saved_profile)
           (typing "" "" (Some EROFS))
           [("serverUrl", VStr "http://localhost:3000");
            ("apiKey", VStr "0123456789abcdef");
            ("clientId", VStr "client-1700000000000")]
           "" "" EROFS).
  - split; [vm_compute; reflexivity | ].
    exists "Server URL [http://localhost:3000]: ", "Server API Key [01234567...]: ".
    repeat split; vm_compute; reflexivity.
  - reflexivity.
Defined.

Lemma serverUrl_question_scalar (loaded : value) :
  scalar loaded = true ->
  serverUrl_question (mkFilled loaded [])
  = ([], if nullish loaded then
           Throw (TypeError ("Cannot read properties of "
                             ++ match loaded with VNull => "null" | _ => "undefined" end
                             ++ " (reading 'serverUrl')"))
         else Ret "Server URL : ").
Proof. destruct loaded; try discriminate; reflexivity. Qed.

Lemma assign_scalar (loaded : value) (key : string) (x : value) :
  scalar loaded = true -> exists e, assign (mkFilled loaded []) key x = ([], Throw e).
Proof. destruct loaded; try discriminate; intros _; eexists; reflexivity. Qed.

Lemma read_scalar (loaded : value) :
  scalar loaded = true -> nullish loaded = false ->
  read (mkFilled loaded []) "serverUrl" = ([], Ret VUndefined).
Proof. destruct loaded; try discriminate; reflexivity. Qed.

Lemma writes_cons (a : action) (t : list action) :
  writes (a :: t)
  = (match a with WriteFile path data => [(path, data)] | _ => [] end ++ writes t)%list.
Proof. reflexivity. Qed.

Lemma verifications_cons (a : action) (t : list action) :
  verifications (a :: t)
  = (match a with AxiosGet _ _ => [a] | _ => [] end ++ verifications t)%list.
Proof. destruct a; reflexivity. Qed.

Ltac actions :=
  cbn [fst snd];
  repeat first [ rewrite writes_app | rewrite verifications_app | rewrite writes_console
               | rewrite verifications_console | rewrite writes_cons
               | rewrite verifications_cons ];
  cbv beta iota; cbn [app].

(** X17.  When the configuration file holds a scalar (null, a boolean, a
    number or a string) the command cannot fill it in: it throws, at the
    question on the server for null and at the assignment of the answer for
    the others, without writing the file or verifying a connection. *)
Theorem scalar_profile_stops_the_command (w : World) (t : Terminal) (loaded : value) :
  snd (loadConfig w) = Ret loaded ->
  scalar loaded = true ->
  writes (fst (configureClient w t)) = []
  /\ verifications (fst (configureClient w t)) = []
  /\ ((exists e, snd (configureClient w t) = Thrown e)
      \/ (answer t "Server URL : " = None /\ snd (configureClient w t) = Waiting)).
Proof.
  intros L S. unfold configureClient.
  destruct (loadConfig w) as [tc o]. cbn [fst snd] in *. subst o.
  unfold prompt, act. run.
  rewrite (serverUrl_question_scalar loaded S).
  destruct (nullish loaded) eqn:N; run.
  { actions.
    repeat split. left. eexists. reflexivity. }
  destruct (answer t "Server URL : ") as [line|] eqn:A; run.
  2: { actions.
       repeat split. right. split; reflexivity. }
  destruct (truthy (VStr line)).
  - destruct (assign_scalar loaded "serverUrl" (VStr line) S) as (e & ->). run.
    actions.
    repeat split. left. eexists. reflexivity.
  - rewrite (read_scalar loaded S N). run. cbn [truthy negb].
    destruct (assign_scalar loaded "serverUrl" (VStr "http://localhost:3000") S) as (e & ->). run.
    actions.
    repeat split. left. eexists. reflexivity.
Qed.

Lemma scalar_profile_stops_the_command_witness :
  writes (fst (configureClient null_profile (typing "http://example.org" "key" None))) = []
  /\ verifications (fst (configureClient null_profile (typing "http://example.org" "key" None)))
     = []
  /\ ((exists e,
         snd (configureClient null_profile (typing "http://example.org" "key" None)) = Thrown e)
      \/ (answer (typing "http://example.org" "key" None) "Server URL : " = None
          /\ snd (configureClient null_profile (typing "http://example.org" "key" None))
             = Waiting)).
Proof.
  apply (scalar_profile_stops_the_command null_profile (typing "http://example.org" "key" None)
           VNull).
  - vm_compute. reflexivity.
  - reflexivity.
Defined.

(** X18.  When the key of the profile is there but is no text (a number,
    say), the command throws on building its second question, the first
    being answered already, and writes nothing. *)
Theorem key_without_text_stops_the_command (w : World) (t : Terminal)
  (props : list (string * value)) (q1 a : string) :
  snd (loadConfig w) = Ret (VObj props) ->
  snd (serverUrl_question (mkFilled (VObj props) [])) = Ret q1 ->
  answer t q1 = Some a ->
  truthy (member (VObj props) "apiKey") = true ->
  (forall s, member (VObj props) "apiKey" <> VStr s) ->
  snd (configureClient w t) = Thrown (TypeError "config.apiKey.substring is not a function")
  /\ writes (fst (configureClient w t)) = []
  /\ In (Question q1) (fst (configureClient w t)).
Proof.
  intros L Q1 A1 T N.
  assert (K : member (VObj (settled props a "")) "apiKey" = member (VObj props) "apiKey").
  { destruct (settled_fields props a "") as (_ & F & _). cbn [field String.eqb] in F.
    cbn [member]. now rewrite F. }
  unfold configureClient.
  destruct (loadConfig w) as [tc o]. cbn [fst snd] in *. subst o.
  rewrite serverUrl_question_object in Q1. cbn [snd] in Q1. cbv zeta in Q1.
  unfold prompt, act. run.
  rewrite serverUrl_question_object. cbv zeta. rewrite Q1. run. rewrite A1. run.
  rewrite serverUrl_step. run.
  rewrite apiKey_question_object. cbv zeta. rewrite K, T.
  assert (X : match member (VObj props) "apiKey" with
              | VStr s =>
                  Ret ("Server API Key " ++ ("[" ++ substring_from_start 8 s ++ "...]") ++ ": ")
              | _ => Throw (TypeError "config.apiKey.substring is not a function")
              end
              = Throw (TypeError "config.apiKey.substring is not a function")).
  { destruct (member (VObj props) "apiKey") as [ | | | | s | | ]; try reflexivity.
    exfalso. exact (N s eq_refl). }
  rewrite X. run. actions.
  split; [reflexivity | ]. split; [reflexivity | ].
  right. right. apply in_or_app. left. apply in_or_app. right. left. reflexivity.
Qed.

Lemma key_without_text_stops_the_command_witness :
  snd (configureClient (configured "{}" numeric_key_profile) (typing "" "" None))
  = Thrown (TypeError "config.apiKey.substring is not a function")
  /\ writes (fst (configureClient (configured "{}" numeric_key_profile) (typing "" "" None)))
     = []
  /\ In (Question "Server URL [http://localhost:3000]: ")
        (fst (configureClient (configured "{}" numeric_key_profile) (typing "" "" None))).
Proof.
  apply (key_without_text_stops_the_command (configured "{}" numeric_key_profile)
           (typing "" "" None)
           [("serverUrl", VStr "http://localhost:3000"); ("apiKey", VNum "12345")]
           "Server URL [http://localhost:3000]: " "").
  - vm_compute. reflexivity.
  - vm_compute. reflexivity.
  - reflexivity.
  - reflexivity.
  - intros s. discriminate.
Defined.


(** X19.  When the configuration file holds an array, the answers are set on
    it as properties that [JSON.stringify] does not write: the command saves
    the array as it was, and verifies the connection with the answers all
    the same. *)
Theorem array_profile_forgets_the_answers (w : World) (t : Terminal) (items : list value)
  (a b : string) :
  snd (loadConfig w) = Ret (VArr items) ->
  answer t "Server URL : " = Some a ->
  answer t "Server API Key : " = Some b ->
  writes (fst (configureClient w t)) = [(CONFIG_PATH w, JSON_stringify_indented (VArr items))]
  /\ verifications (fst (configureClient w t))
     = [AxiosGet (VStr (if a =? "" then "http://localhost:3000" else a))
                 (mkConfig [("x-api-key", if b =? "" then VUndefined else VStr b);
                            ("x-request-id", VStr (uuidv4 w))] 5000)]
  /\ snd (configureClient w t) = Returned tt.
Proof.
  intros L A1 A2.
  pose (url := VStr (if a =? "" then "http://localhost:3000" else a)).
  pose (config := mkFilled (VArr items)
                    (if b =? "" then [("serverUrl", url)]
                     else [("serverUrl", url); ("apiKey", VStr b)])).
  assert (S1 : (if truthy (VStr a) then lift (assign (mkFilled (VArr items) []) "serverUrl" (VStr a))
                else
                  and_then (lift (read (mkFilled (VArr items) []) "serverUrl")) (fun current =>
                  if negb (truthy current) then
                    lift (assign (mkFilled (VArr items) []) "serverUrl"
                                 (VStr "http://localhost:3000"))
                  else done (mkFilled (VArr items) [])))
               = ([], Returned (mkFilled (VArr items) [("serverUrl", url)]))).
  { subst url. cbn [truthy]. destruct (a =? ""); reflexivity. }
  assert (S2 : (if truthy (VStr b) then
                  lift (assign (mkFilled (VArr items) [("serverUrl", url)]) "apiKey" (VStr b))
                else done (mkFilled (VArr items) [("serverUrl", url)]))
               = ([], Returned config)).
  { subst config. cbn [truthy]. destruct (b =? ""); reflexivity. }
  assert (V1 : view config "serverUrl" = url) by (subst config; destruct (b =? ""); reflexivity).
  assert (V2 : view config "apiKey" = if b =? "" then VUndefined else VStr b)
    by (subst config; destruct (b =? ""); reflexivity).
  assert (H : held config = VArr items) by reflexivity.
  destruct (verify_connection_runs w t config (if a =? "" then "http://localhost:3000" else a))
    as (tv & V & VV & VF); [reflexivity | rewrite V1; reflexivity | ].
  rewrite V1, V2 in VV. destruct (line_or_get_spec tv VF) as (VW & _).
  pose proof (quiet_loadConfig w) as (LW & LO & _).
  unfold configureClient.
  destruct (loadConfig w) as [tc o]. cbn [fst snd] in *. subst o.
  unfold prompt, act. run.
  change (serverUrl_question (mkFilled (VArr items) [])) with (@pair (list event) _ [] (Ret "Server URL : ")).
  run. rewrite A1. run. rewrite S1. run.
  change (apiKey_question (mkFilled (VArr items) [("serverUrl", url)]))
    with (@pair (list event) _ [] (Ret "Server API Key : ")).
  run. rewrite A2. run. rewrite S2. run. rewrite H.
  rewrite (saveConfig_run (with_config_dir w) t _ eq_refl). run.
  rewrite V. run. actions. rewrite VW, VV.
  repeat split.
Qed.

Lemma array_profile_forgets_the_answers_witness :
  writes (fst (configureClient (configured "[]" (VArr [])) (typing "http://example.org" "key" None)))
  = [(CONFIG_PATH (configured "[]" (VArr [])), JSON_stringify_indented (VArr []))]
  /\ verifications (fst (configureClient (configured "[]" (VArr []))
                                         (typing "http://example.org" "key" None)))
     = [AxiosGet (VStr (if "http://example.org" =? "" then "http://localhost:3000"
                        else "http://example.org"))
                 (mkConfig [("x-api-key", if "key" =? "" then VUndefined else VStr "key");
                            ("x-request-id", VStr (uuidv4 (configured "[]" (VArr []))))] 5000)]
  /\ snd (configureClient (configured "[]" (VArr [])) (typing "http://example.org" "key" None))
     = Returned tt.
Proof.
  apply (array_profile_forgets_the_answers (configured "[]" (VArr []))
           (typing "http://example.org" "key" None) [] "http://example.org" "key").
  - vm_compute. reflexivity.
  - reflexivity.
  - reflexivity.
Defined.

(** X20.  With the argument [configure] the process runs the command and
    handles no request: whatever is on standard input, it writes no response
    and calls no tool of the backend.  Without it the process is the request
    handler. *)
Theorem configure_handles_no_request (w : World) (t : Terminal) (args : list string)
  (inputData : string) :
  if existsb (String.eqb "configure") args then
    Cli.main w t args inputData = after (map Console (fst (setupLogging w))) (configureClient w t)
    /\ handles_no_request (fst (Cli.main w t args inputData))
  else Cli.main w t args inputData = lift (main w inputData).
Proof.
  unfold Cli.main, main.
  destruct (setupLogging_returns w) as (ts & b & E & W & O).
  destruct (existsb (String.eqb "configure") args).
  - rewrite E, lift_Ret, and_then_Returned. cbn [fst]. split; [reflexivity | ].
    unfold after. cbn [fst]. apply handles_no_request_app.
    + apply handles_no_request_console; assumption.
    + apply calm_configureClient.
  - rewrite lift_bind. reflexivity.
Qed.

(** X21.  [saveConfig] returns true exactly when the write went through, and
    has then printed its line "Configuration saved to ...".  A write that
    fails is reported on the error stream and answered by false, not thrown;
    only a directory that is missing and cannot be created makes
    [saveConfig] throw, and then nothing is written. *)
Theorem saveConfig_returns_whether_written (w : World) (t : Terminal) (config : value) :
  match (if config_dir_exists w then None else mkdir_config_dir w) with
  | Some e =>
      snd (saveConfig w t config) = Thrown e /\ writes (fst (saveConfig w t config)) = []
  | None =>
      writes (fst (saveConfig w t config)) = [(CONFIG_PATH w, JSON_stringify_indented config)]
      /\ match write_config_file t (JSON_stringify_indented config) with
         | None =>
             snd (saveConfig w t config) = Returned true
             /\ In (Console (ConsoleLog [VStr ("Configuration saved to " ++ CONFIG_PATH w)]))
                   (fst (saveConfig w t config))
         | Some e =>
             snd (saveConfig w t config) = Returned false
             /\ In (Console (ConsoleError [VStr ("Error saving configuration: " ++ message e)]))
                   (fst (saveConfig w t config))
         end
  end.
Proof.
  destruct (config_dir_exists w) eqn:D.
  - rewrite (saveConfig_run w t config D). cbn [fst snd]. split; [reflexivity | ].
    destruct (write_config_file t (JSON_stringify_indented config));
      split; [reflexivity | right; left; reflexivity | reflexivity | right; left; reflexivity].
  - unfold saveConfig, ensureConfigDir. rewrite D. cbn [negb]. cbv zeta.
    unfold act, done, raise, ret, throw.
    destruct (mkdir_config_dir w) as [e|]; norm; run; [split; reflexivity | ].
    destruct (write_config_file t (JSON_stringify_indented config)); run; cbn [fst snd].
    + split; [reflexivity | ]. split; [reflexivity | right; right; left; reflexivity].
    + split; [reflexivity | ]. split; [reflexivity | right; right; left; reflexivity].
Qed.

(** ** The earlier revision *)

Lemma responses_app (t u : list action) : responses (t ++ u) = (responses t ++ responses u)%list.
Proof. apply flat_map_app. Qed.

Lemma posts_app (t u : list action) : posts (t ++ u) = (posts t ++ posts u)%list.
Proof. apply filter_app. Qed.

Lemma responses_cons (a : action) (t : list action) :
  responses (a :: t)
  = (match a with Console (StdoutWrite text) => [text] | _ => [] end ++ responses t)%list.
Proof. reflexivity. Qed.

Lemma posts_cons (a : action) (t : list action) :
  posts (a :: t) = (match a with Post _ _ _ => [a] | _ => [] end ++ posts t)%list.
Proof. destruct a; reflexivity. Qed.

Ltac earlier_actions :=
  cbn [fst snd];
  repeat first [ rewrite responses_app | rewrite posts_app | rewrite responses_cons
               | rewrite posts_cons ];
  cbv beta iota; cbn [app];
  repeat match goal with
         | H : responses _ = [] |- _ => rewrite H
         | H : posts _ = [] |- _ => rewrite H
         end;
  cbn [app].

(** [loadConfig] of the earlier revision prints at most a line on the error
    stream, and returns a profile or throws. *)
Lemma earlier_loadConfig_cases (w : World) :
  exists t o,
    Earlier.loadConfig w = (t, o)
    /\ responses t = [] /\ posts t = []
    /\ ((exists config, o = Returned config) \/ (exists e, o = Thrown e)).
Proof.
  unfold Earlier.loadConfig, Earlier.ensureConfigDir, Earlier.console_error, act, done, raise.
  destruct (config_dir_exists w); cbn [negb]; [ | destruct (mkdir_config_dir w)]; run;
    try (do 2 eexists; split; [reflexivity | ]; repeat split; eauto; fail);
    (destruct (config_file_exists w); run;
     [ destruct (read_config_file w) as [text|e]; run;
       [ destruct (JSON_parse w text) as [config|e]; run | ]
     | ]);
    (do 2 eexists; split; [reflexivity | ]; repeat split; eauto).
Qed.

Lemma lift_interpolate (v : value) :
  lift (interpolate v)
  = ([], match ToString v with
         | Some s => Returned s
         | None => Thrown (TypeError "Cannot convert object to primitive value")
         end).
Proof. unfold interpolate. destruct (ToString v); reflexivity. Qed.

Lemma lift_ret {A : Type} (a : A) : lift (ret a) = ([], Returned a).
Proof. reflexivity. Qed.

Lemma earlier_operation_scheme (w : World) (h : Earlier.Environment) (op : operation)
  (msg : value) :
  earlier_operation w h op msg
  = earlier_scheme w h (op_label op ++ " error:") (op_name op) msg.
Proof. destruct op; reflexivity. Qed.

Lemma earlier_scheme_cases (w : World) (h : Earlier.Environment) (what name : string)
  (msg : value) :
  earlier_summary w h name msg (earlier_scheme w h what name msg).
Proof.
  unfold earlier_summary, earlier_scheme.
  destruct (earlier_loadConfig_cases w) as (tl & o & L & R & P & [(config & ->) | (e & ->)]);
    rewrite L; cbn [snd];
    unfold Earlier.post, Earlier.console_error, call_tool_url, act, done, raise.
  2: { run. earlier_actions. split; [reflexivity | ]. left. split; [reflexivity | eauto]. }
  run.
  repeat first
    [ progress run
    | rewrite lift_get_text
    | rewrite lift_get
    | rewrite lift_interpolate
    | rewrite lift_ret
    | rewrite lift_bind
    | match goal with
      | |- context [if nullish ?v then _ else _] => destruct (nullish v) eqn:?
      | |- context [match ToString ?v with _ => _ end] => destruct (ToString v) eqn:?
      | |- context [match Earlier.axios_post ?h ?u ?d ?c with _ => _ end] =>
          destruct (Earlier.axios_post h u d c) eqn:?
      end ].
  all: earlier_actions; (split; [reflexivity | ]).
  all: first
         [ left; split; [reflexivity | eauto]; fail
         | right; do 2 eexists; split; [reflexivity | ]; split; [eassumption | ];
           split; [eassumption | ]; split; [reflexivity | ];
           match goal with H : Earlier.axios_post _ _ _ _ = _ |- _ => rewrite H end;
           repeat match goal with H : nullish _ = _ |- _ => rewrite H end;
           eauto ].
Qed.

Lemma earlier_dispatch_cases (w : World) (h : Earlier.Environment) (name args : value) :
  (exists op msg,
     name = VStr (op_name op)
     /\ (op = SendMessage -> nullish args = false /\ msg = member args "message")
     /\ Earlier.dispatch w h name args = earlier_operation w h op msg)
  \/ (exists t o,
        Earlier.dispatch w h name args = (t, o)
        /\ responses t = [] /\ posts t = []
        /\ (o = Exited 1 \/ exists e, o = Thrown e)).
Proof.
  unfold Earlier.dispatch.
  destruct (is_string name "agentforce_authenticate") eqn:E1.
  { left. exists Authenticate, VUndefined.
    split; [exact (is_string_known name Authenticate E1) | split; [discriminate | reflexivity]]. }
  destruct (is_string name "agentforce_create_session") eqn:E2.
  { left. exists CreateSession, VUndefined.
    split; [exact (is_string_known name CreateSession E2) | split; [discriminate | reflexivity]]. }
  destruct (is_string name "agentforce_send_message") eqn:E3.
  { rewrite lift_get. destruct (nullish args) eqn:N; run.
    - right. do 2 eexists. split; [reflexivity | ]. repeat split. right. eauto.
    - left. exists SendMessage, (member args "message").
      split; [exact (is_string_known name SendMessage E3) | split; [auto | reflexivity]]. }
  destruct (is_string name "agentforce_get_status") eqn:E4.
  { left. exists GetStatus, VUndefined.
    split; [exact (is_string_known name GetStatus E4) | split; [discriminate | reflexivity]]. }
  destruct (is_string name "agentforce_reset") eqn:E5.
  { left. exists ResetClient, VUndefined.
    split; [exact (is_string_known name ResetClient E5) | split; [discriminate | reflexivity]]. }
  right. rewrite lift_interpolate. unfold Earlier.console_error, Earlier.exit, act.
  destruct (ToString name); run; do 2 eexists; (split; [reflexivity | ]); repeat split; eauto.
Qed.

Lemma earlier_operation_cases (w : World) (h : Earlier.Environment) (op : operation)
  (msg : value) :
  earlier_summary w h (op_name op) msg (earlier_operation w h op msg).
Proof. rewrite earlier_operation_scheme. apply earlier_scheme_cases. Qed.

Lemma earlier_operation_ends (w : World) (h : Earlier.Environment) (op : operation)
  (msg : value) :
  (exists r, snd (earlier_operation w h op msg) = Returned r)
  \/ (exists e, snd (earlier_operation w h op msg) = Thrown e).
Proof.
  destruct (earlier_operation_cases w h op msg)
    as (_ & [(_ & e & E) | (config & s & _ & _ & _ & _ & E)]); [right; eauto | ].
  destruct (Earlier.axios_post h _ _ _) as [body | e]; [ | right; eauto].
  destruct (nullish body); [right; exact E | left; eauto].
Qed.

(** Every run of the earlier revision: the handler rejects the input, or a
    tool function runs and the handler answers what it returned or reports
    what it threw. *)
Lemma earlier_main_cases (w : World) (h : Earlier.Environment) (inputData : string) :
  (exists t,
     Earlier.main w h inputData = (t, Exited 1) /\ responses t = [] /\ posts t = [])
  \/ (exists op msg t r,
        earlier_dispatched w inputData op msg
        /\ earlier_operation w h op msg = (t, Returned r)
        /\ Earlier.main w h inputData
           = ((t ++ [Console (StdoutWrite (JSON_stringify (VObj [("result", r)])))])%list,
              Exited 0))
  \/ (exists op msg t e,
        earlier_dispatched w inputData op msg
        /\ earlier_operation w h op msg = (t, Thrown e)
        /\ Earlier.main w h inputData
           = ((t ++ [Console (ConsoleError [VStr "Error processing request:";
                                           VStr (message e)])])%list,
              Exited 1)).
Proof.
  unfold Earlier.main, Earlier.processStdinRequest, Earlier.console_error, Earlier.exit, act,
    done, raise.
  destruct (truthy (VStr (trim inputData))) eqn:B; cbn [negb]; run.
  2: { left. eexists. split; [reflexivity | split; reflexivity]. }
  assert (B' : trim inputData <> "") by (intros X; rewrite X in B; discriminate B).
  destruct (JSON_parse w inputData) as [request | e] eqn:P; run.
  2: { left. eexists. split; [reflexivity | split; reflexivity]. }
  destruct (truthy request) eqn:R; cbn [negb]; run.
  2: { left. eexists. split; [reflexivity | split; reflexivity]. }
  rewrite !lift_get, (truthy_not_nullish _ R). run.
  destruct (truthy (member request "tool")) eqn:T; cbn [negb]; run.
  2: { left. eexists. split; [reflexivity | split; reflexivity]. }
  rewrite !lift_get, (truthy_not_nullish _ T). run.
  destruct (earlier_dispatch_cases w h (member (member request "tool") "name")
              (member (member request "tool") "args"))
    as [(op & msg & N & S & ->) | (t & o & -> & RW & PW & [-> | (e & ->)])].
  - right.
    assert (D : earlier_dispatched w inputData op msg)
      by (exists request; repeat split; try assumption; apply S; assumption).
    destruct (earlier_operation_ends w h op msg) as [(r & E) | (e & E)];
      destruct (earlier_operation w h op msg) as [t o] eqn:O; cbn [snd] in E; subst o; run.
    + left. exists op, msg, t, r. split; [exact D | split; [exact O | reflexivity]].
    + right. exists op, msg, t, e. split; [exact D | split; [exact O | reflexivity]].
  - left. run. eexists. split; [reflexivity | split; assumption].
  - left. run. eexists. split; [reflexivity | ]. earlier_actions. split; reflexivity.
Qed.

(** X22.  The earlier revision answers on standard output only when it
    succeeds: either the exit code is 0, one call was made, the backend
    answered it with a 2xx response that has a body, and the one response is
    the [result] of that body; or the exit code is 1 and nothing is written
    on standard output. *)
Theorem earlier_answers_only_on_success (w : World) (h : Earlier.Environment)
  (inputData : string) :
  (snd (Earlier.main w h inputData) = Exited 0
   /\ exists u d hd body,
        posts (fst (Earlier.main w h inputData)) = [Post u d hd]
        /\ Earlier.axios_post h u d hd = Resolved body
        /\ nullish body = false
        /\ responses (fst (Earlier.main w h inputData))
           = [JSON_stringify (VObj [("result", member body "result")])])
  \/ (snd (Earlier.main w h inputData) = Exited 1
      /\ responses (fst (Earlier.main w h inputData)) = []).
Proof.
  destruct (earlier_main_cases w h inputData)
    as [(t & -> & R & _) | [(op & msg & t & r & _ & O & ->) | (op & msg & t & e & _ & O & ->)]].
  - right. split; [reflexivity | exact R].
  - left. split; [reflexivity | ].
    pose proof (earlier_operation_cases w h op msg) as (R & S). rewrite O in R, S.
    cbn [fst snd] in *.
    destruct S as [(_ & e & E) | (config & s & _ & _ & _ & P & E)]; [discriminate E | ].
    destruct (Earlier.axios_post h _ _ _) as [body | e] eqn:A; [ | discriminate E].
    destruct (nullish body) eqn:N; [destruct E as (e & E); discriminate E | ].
    injection E as ->.
    do 3 eexists. exists body. earlier_actions. rewrite P.
    split; [reflexivity | ]. split; [exact A | ]. split; [exact N | reflexivity].
  - right. split; [reflexivity | ].
    pose proof (earlier_operation_cases w h op msg) as (R & _). rewrite O in R.
    cbn [fst] in *. earlier_actions. reflexivity.
Qed.

Lemma in_posts (u : string) (d : value) (hd : list (string * value)) (t : list action) :
  In (Post u d hd) t <-> In (Post u d hd) (posts t).
Proof.
  unfold posts. rewrite filter_In. split; [intros H; split; [exact H | reflexivity] | tauto].
Qed.

(** The run of a tool function of the earlier revision that has a profile
    with a server address: the call, and what the answer decides. *)
Lemma earlier_scheme_run (w : World) (h : Earlier.Environment) (what name : string)
  (msg config : value) (s : string) :
  snd (Earlier.loadConfig w) = Returned config ->
  nullish config = false ->
  ToString (member config "serverUrl") = Some s ->
  let u := s ++ "/mcp/call-tool" in
  let d := tool_call name (earlier_args h (member config "clientId") name msg) in
  let hd := [("x-api-key", member config "apiKey")] in
  earlier_scheme w h what name msg
  = after (fst (Earlier.loadConfig w) ++ [Post u d hd])
      match Earlier.axios_post h u d hd with
      | Rejected e => ([Console (ConsoleError [VStr what; VStr (message e)])], Thrown e)
      | Resolved body =>
          if nullish body then
            let e := TypeError ("Cannot read properties of "
                                ++ match body with VNull => "null" | _ => "undefined" end
                                ++ " (reading 'result')") in
            ([Console (ConsoleError [VStr what; VStr (message e)])], Thrown e)
          else ([], Returned (member body "result"))
      end.
Proof.
  intros L N S u d hd. subst u d hd. unfold earlier_scheme.
  destruct (Earlier.loadConfig w) as [tl o]. cbn [fst snd] in *. subst o.
  unfold Earlier.post, Earlier.console_error, call_tool_url, act, done, raise. run.
  rewrite lift_bind, lift_get, N. run. rewrite lift_bind, lift_interpolate, S. run.
  rewrite lift_ret. run. rewrite !lift_get, N. run.
  destruct (Earlier.axios_post h _ _ _) as [body | e]; run.
  - rewrite lift_get. destruct (nullish body); run; now rewrite <- ?app_assoc.
  - now rewrite <- ?app_assoc.
Qed.

(** X23.  A call of the earlier revision takes nothing from the request but
    the name of the tool and, to send a message, the message: it is posted to
    the profile's server address followed by "/mcp/call-tool", with the
    header x-api-key of the profile and, as arguments, the client id of the
    profile, the credentials of the environment (for every tool but the
    status and the reset) and the message.  The address of Salesforce in the
    credentials is the one of SF_BASE_URL, or https://login.salesforce.com
    when the variable is unset or empty.  It is the only call of the run. *)
Theorem earlier_call_takes_only_the_message (w : World) (h : Earlier.Environment)
  (inputData u : string) (d : value) (hd : list (string * value)) :
  In (Post u d hd) (fst (Earlier.main w h inputData)) ->
  exists op msg config s,
    earlier_dispatched w inputData op msg
    /\ snd (Earlier.loadConfig w) = Returned config
    /\ ToString (member config "serverUrl") = Some s
    /\ u = s ++ "/mcp/call-tool"
    /\ d = tool_call (op_name op)
             (VObj (("clientId", member config "clientId")
                    :: match op with
                       | GetStatus | ResetClient => []
                       | Authenticate | CreateSession => [("config", Earlier.credentials h)]
                       | SendMessage => [("config", Earlier.credentials h); ("message", msg)]
                       end))
    /\ hd = [("x-api-key", member config "apiKey")]
    /\ field (Earlier.credentials h) "sfBaseUrl"
       = Some (match Earlier.env h "SF_BASE_URL" with
               | Some address =>
                   if address =? "" then VStr "https://login.salesforce.com" else VStr address
               | None => VStr "https://login.salesforce.com"
               end)
    /\ posts (fst (Earlier.main w h inputData)) = [Post u d hd].
Proof.
  intros I. apply in_posts in I.
  assert (C : field (Earlier.credentials h) "sfBaseUrl"
              = Some (match Earlier.env h "SF_BASE_URL" with
                      | Some address =>
                          if address =? "" then VStr "https://login.salesforce.com"
                          else VStr address
                      | None => VStr "https://login.salesforce.com"
                      end)).
  { unfold Earlier.credentials, Earlier.getenv. cbn [field lookup String.eqb Ascii.eqb Bool.eqb].
    destruct (Earlier.env h "SF_BASE_URL") as [address|]; [ | reflexivity].
    cbn [truthy]. destruct (address =? ""); reflexivity. }
  destruct (earlier_main_cases w h inputData)
    as [(t & E & _ & P) | [(op & msg & t & r & D & O & E) | (op & msg & t & e & D & O & E)]];
    rewrite E in I |- *; cbn [fst] in I |- *;
    [rewrite P in I; contradiction | | ];
    pose proof (earlier_operation_cases w h op msg) as (_ & S);
    rewrite O in S; cbn [fst snd] in S;
    rewrite posts_app in I |- *; cbn [posts filter] in I |- *; rewrite app_nil_r in I |- *;
    (destruct S as [(P & _) | (config & s & L & N & T & P & _)];
     [rewrite P in I; contradiction | ]);
    rewrite P in I |- *; destruct I as [I | []]; inversion I; subst u d hd;
    exists op, msg, config, s;
    (split; [exact D | ]); (split; [exact L | ]); (split; [exact T | ]);
    (split; [reflexivity | ]); (split; [destruct op; reflexivity | ]);
    (split; [reflexivity | ]); (split; [exact C | reflexivity]).
Qed.

Lemma earlier_call_takes_only_the_message_witness :
  exists op msg config s,
    earlier_dispatched offline message_text op msg
    /\ snd (Earlier.loadConfig offline) = Returned config
    /\ ToString (member config "serverUrl") = Some s
    /\ "http://localhost:3001/mcp/call-tool" = s ++ "/mcp/call-tool"
    /\ tool_call "agentforce_send_message"
         (VObj [("clientId", VStr "client-1700000000000");
                ("config", Earlier.credentials (bare (Rejected ECONNREFUSED)));
                ("message", VStr "hi")])
       = tool_call (op_name op)
           (VObj (("clientId", member config "clientId")
                  :: match op with
                     | GetStatus | ResetClient => []
                     | Authenticate | CreateSession =>
                         [("config", Earlier.credentials (bare (Rejected ECONNREFUSED)))]
                     | SendMessage =>
                         [("config", Earlier.credentials (bare (Rejected ECONNREFUSED)));
                          ("message", msg)]
                     end))
    /\ [("x-api-key", VStr "")] = [("x-api-key", member config "apiKey")]
    /\ field (Earlier.credentials (bare (Rejected ECONNREFUSED))) "sfBaseUrl"
       = Some (match Earlier.env (bare (Rejected ECONNREFUSED)) "SF_BASE_URL" with
               | Some address =>
                   if address =? "" then VStr "https://login.salesforce.com" else VStr address
               | None => VStr "https://login.salesforce.com"
               end)
    /\ posts (fst (Earlier.main offline (bare (Rejected ECONNREFUSED)) message_text))
       = [Post "http://localhost:3001/mcp/call-tool"
               (tool_call "agentforce_send_message"
                  (VObj [("clientId", VStr "client-1700000000000");
                         ("config", Earlier.credentials (bare (Rejected ECONNREFUSED)));
                         ("message", VStr "hi")]))
               [("x-api-key", VStr "")]].
Proof.
  apply (earlier_call_takes_only_the_message offline (bare (Rejected ECONNREFUSED)) message_text
           "http://localhost:3001/mcp/call-tool"
           (tool_call "agentforce_send_message"
              (VObj [("clientId", VStr "client-1700000000000");
                     ("config", Earlier.credentials (bare (Rejected ECONNREFUSED)));
                     ("message", VStr "hi")]))
           [("x-api-key", VStr "")]).
  apply (proj2 (in_posts _ _ _ _)). vm_compute. left. reflexivity.
Defined.

(** X24.  In the earlier revision a call that the backend rejects is not
    answered: the tool function reports the error and throws it again, the
    handler reports it a second time, and the process leaves with exit code
    1 and nothing on standard output. *)
Theorem earlier_failure_is_not_answered (w : World) (h : Earlier.Environment)
  (inputData u : string) (d : value) (hd : list (string * value)) (e : js_error) :
  In (Post u d hd) (fst (Earlier.main w h inputData)) ->
  Earlier.axios_post h u d hd = Rejected e ->
  exists op msg,
    earlier_dispatched w inputData op msg
    /\ Earlier.main w h inputData
       = ((fst (Earlier.loadConfig w)
           ++ [Post u d hd;
               Console (ConsoleError [VStr (op_label op ++ " error:"); VStr (message e)]);
               Console (ConsoleError [VStr "Error processing request:"; VStr (message e)])])%list,
          Exited 1)
    /\ responses (fst (Earlier.main w h inputData)) = [].
Proof.
  intros I A. apply in_posts in I.
  destruct (earlier_main_cases w h inputData)
    as [(t & E & _ & P) | [(op & msg & t & r & D & O & E) | (op & msg & t & e' & D & O & E)]];
    rewrite E in I |- *; cbn [fst] in I |- *;
    [rewrite P in I; contradiction | | ];
    pose proof (earlier_operation_cases w h op msg) as (R & S);
    rewrite O in R, S; cbn [fst snd] in R, S;
    rewrite posts_app in I; cbn [posts filter] in I; rewrite app_nil_r in I;
    (destruct S as [(P & _) | (config & s & L & N & T & P & X)];
     [rewrite P in I; contradiction | ]);
    rewrite P in I; destruct I as [I | []]; inversion I; subst u d hd;
    rewrite A in X; [discriminate X | ].
  injection X as ->.
  exists op, msg. split; [exact D | ].
  pose proof (earlier_scheme_run w h (op_label op ++ " error:") (op_name op) msg config s L N T)
    as Run.
  cbv zeta in Run. rewrite <- earlier_operation_scheme, O, A in Run.
  unfold after in Run. cbn [fst snd] in Run. injection Run as ->.
  split; [now rewrite <- !app_assoc | ].
  destruct (earlier_loadConfig_cases w) as (tl & o & LE & RL & _).
  rewrite LE. cbn [fst]. earlier_actions. reflexivity.
Qed.

Lemma earlier_failure_is_not_answered_witness :
  exists op msg,
    earlier_dispatched offline status_text op msg
    /\ Earlier.main offline (bare (Rejected ECONNREFUSED)) status_text
       = ((fst (Earlier.loadConfig offline)
           ++ [Post "http://localhost:3001/mcp/call-tool"
                    (tool_call "agentforce_get_status"
                               (VObj [("clientId", VStr "client-1700000000000")]))
                    [("x-api-key", VStr "")];
               Console (ConsoleError [VStr (op_label op ++ " error:");
                                      VStr (message ECONNREFUSED)]);
               Console (ConsoleError [VStr "Error processing request:";
                                      VStr (message ECONNREFUSED)])])%list,
          Exited 1)
    /\ responses (fst (Earlier.main offline (bare (Rejected ECONNREFUSED)) status_text)) = [].
Proof.
  apply (earlier_failure_is_not_answered offline (bare (Rejected ECONNREFUSED)) status_text
           "http://localhost:3001/mcp/call-tool"
           (tool_call "agentforce_get_status" (VObj [("clientId", VStr "client-1700000000000")]))
           [("x-api-key", VStr "")] ECONNREFUSED).
  - apply (proj2 (in_posts _ _ _ _)). vm_compute. left. reflexivity.
  - reflexivity.
Defined.
